(** * Order Exception Resolution Agent: human-in-the-loop workflow

    A shallow embedding of the workflow of [models.py], [tools/] and
    [graph.py], and the properties of its specification.

    Layout: the Python values the code computes with (floats, strings,
    datetimes, dicts), the module-level state and the effect monad; then one
    module per source file; then the executor that drives the compiled graph;
    then the lemmas. *)

From Stdlib Require Import ZArith PrimFloat FloatOps SpecFloat FloatAxioms.
From stdpp Require Import base gmap strings list pretty.

Set Warnings "-inexact-float".
Set Default Proof Using "Type".

(** ** Python values *)

(** Python's [float] is IEEE 754 binary64, which is Rocq's primitive [float]:
    [0.20], [order_total * 0.20] and [amount > threshold] have exactly the
    values they have in the interpreter. *)

(** Truthiness, the protocol behind [if x], [x or y] and [x and y]. *)
Class Truthy (A : Type) := truth : A → bool.
Global Hint Mode Truthy ! : typeclass_instances.

Global Instance bool_truthy : Truthy bool := λ b, b.
(** [bool(x)] is [x != 0.0]: both zeros are falsy, NaN is truthy. *)
Global Instance float_truthy : Truthy float := λ x, negb (PrimFloat.eqb x 0).
Global Instance str_truthy : Truthy string :=
  λ s, match s with EmptyString => false | String _ _ => true end.
Global Instance list_truthy {A} : Truthy (list A) :=
  λ l, match l with [] => false | _ :: _ => true end.
(** [Optional[T]]: [None] is falsy, anything else has the truth of its value. *)
Global Instance option_truthy {A} `{Truthy A} : Truthy (option A) :=
  λ o, match o with None => false | Some a => truth a end.

(** [a or b] with [a : Optional[T]] and [b : T]. *)
Definition py_or {A} `{Truthy A} (a : option A) (b : A) : A :=
  match a with
  | Some x => if truth x then x else b
  | None => b
  end.

(** [str(b)] as an f-string prints it. *)
Definition str_of_bool (b : bool) : string := if b then "True" else "False".

(** Decimal digits of [n], left-padded with zeros to [width]. *)
Definition zpad (width : nat) (n : Z) : string :=
  let s := pretty (Z.abs n) in
  String.concat "" (replicate (width - String.length s) "0") +:+ s.

(** [n / 2^k] rounded to the nearest integer, ties to even: the rounding of
    the interpreter's float formatting. *)
Definition round_half_even_shr (n : Z) (k : Z) : Z :=
  let q := Z.shiftr n k in
  let r := (n - Z.shiftl q k)%Z in
  let half := Z.shiftl 1 (k - 1) in
  if (half <? r)%Z then (q + 1)%Z
  else if (r =? half)%Z && Z.odd q then (q + 1)%Z
  else q.

(** The format specification [:.2f]: two decimals, correctly rounded from the
    exact binary value. *)
Definition fmt_2f (x : float) : string :=
  match Prim2SF x with
  | S754_nan => "nan"
  | S754_infinity s => if s then "-inf" else "inf"
  | S754_zero s => if s then "-0.00" else "0.00"
  | S754_finite s m e =>
      let cents :=
        if (0 <=? e)%Z then Z.shiftl (Z.pos m * 100) e
        else round_half_even_shr (Z.pos m * 100) (- e) in
      (if s then "-" else "") +:+ pretty (cents `div` 100)%Z +:+ "."
        +:+ zpad 2 (cents `mod` 100)%Z
  end.

(** [str.lower()]. A string is held as its UTF-8 encoding, so lowering goes
    through the code points: the simple lower-case mapping of each one, the
    one code point whose lower case is two (U+0130), and the capital sigma,
    which is lowered to the final sigma where the interpreter finds it at the
    end of a word. The tables are those of the interpreter (Unicode 14.0.0). *)
Module unicode.
Definition byte (c : Ascii.ascii) : Z := Z.of_nat (Ascii.nat_of_ascii c).

Definition chr (b : Z) : Ascii.ascii := Ascii.ascii_of_nat (Z.to_nat b).

(** A continuation byte of a UTF-8 sequence. *)
Definition cont (b : Z) : bool := (128 <=? b)%Z && (b <? 192)%Z.

(** A byte that belongs to no well-formed sequence is kept as it is: it is
    carried as the negative number [-1 - b]. *)
Definition raw (b : Z) : Z := (-1 - b)%Z.

(** The code points of a UTF-8 string. *)
Fixpoint decode (s : string) : list Z :=
  match s with
  | EmptyString => []
  | String a0 s1 =>
      let b0 := byte a0 in
      if (b0 <? 128)%Z then b0 :: decode s1
      else
        match s1 with
        | String a1 s2 =>
            let b1 := byte a1 in
            let cp2 := ((b0 - 192) * 64 + (b1 - 128))%Z in
            if (192 <=? b0)%Z && (b0 <? 224)%Z && cont b1 && (128 <=? cp2)%Z
            then cp2 :: decode s2
            else
              match s2 with
              | String a2 s3 =>
                  let b2 := byte a2 in
                  let cp3 :=
                    ((b0 - 224) * 4096 + (b1 - 128) * 64 + (b2 - 128))%Z in
                  if (224 <=? b0)%Z && (b0 <? 240)%Z && cont b1 && cont b2
                     && (2048 <=? cp3)%Z
                     && negb ((55296 <=? cp3)%Z && (cp3 <=? 57343)%Z)
                  then cp3 :: decode s3
                  else
                    match s3 with
                    | String a3 s4 =>
                        let b3 := byte a3 in
                        let cp4 :=
                          ((b0 - 240) * 262144 + (b1 - 128) * 4096
                           + (b2 - 128) * 64 + (b3 - 128))%Z in
                        if (240 <=? b0)%Z && (b0 <? 248)%Z && cont b1
                           && cont b2 && cont b3 && (65536 <=? cp4)%Z
                           && (cp4 <=? 1114111)%Z
                        then cp4 :: decode s4
                        else raw b0 :: decode s1
                    | EmptyString => raw b0 :: decode s1
                    end
              | EmptyString => raw b0 :: decode s1
              end
        | EmptyString => raw b0 :: decode s1
        end
  end.

(** The UTF-8 sequence of a code point. *)
Definition encode1 (c : Z) : list Z :=
  if (c <? 0)%Z then [(-1 - c)%Z]
  else if (c <? 128)%Z then [c]
  else if (c <? 2048)%Z then [(192 + c `div` 64)%Z; (128 + c `mod` 64)%Z]
  else if (c <? 65536)%Z then
    [(224 + c `div` 4096)%Z; (128 + (c `div` 64) `mod` 64)%Z;
     (128 + c `mod` 64)%Z]
  else
    [(240 + c `div` 262144)%Z; (128 + (c `div` 4096) `mod` 64)%Z;
     (128 + (c `div` 64) `mod` 64)%Z; (128 + c `mod` 64)%Z].

Definition encode (l : list Z) : string :=
  foldr (λ c s, foldr (λ b s, String (chr b) s) s (encode1 c)) EmptyString l.

(** The simple lower-case mappings: [(first, last, step, delta)] sends every
    code point [first + k * step] up to [last] to itself plus [delta]. *)
Definition lower_table : list (Z * Z * Z * Z) :=
  [
   (65, 90, 1, 32); (192, 214, 1, 32); (216, 222, 1, 32);
   (256, 302, 2, 1); (306, 310, 2, 1); (313, 327, 2, 1);
   (330, 374, 2, 1); (376, 376, 1, (-121)); (377, 381, 2, 1);
   (385, 385, 1, 210); (386, 388, 2, 1); (390, 390, 1, 206);
   (391, 391, 1, 1); (393, 394, 1, 205); (395, 395, 1, 1);
   (398, 398, 1, 79); (399, 399, 1, 202); (400, 400, 1, 203);
   (401, 401, 1, 1); (403, 403, 1, 205); (404, 404, 1, 207);
   (406, 406, 1, 211); (407, 407, 1, 209); (408, 408, 1, 1);
   (412, 412, 1, 211); (413, 413, 1, 213); (415, 415, 1, 214);
   (416, 420, 2, 1); (422, 422, 1, 218); (423, 423, 1, 1);
   (425, 425, 1, 218); (428, 428, 1, 1); (430, 430, 1, 218);
   (431, 431, 1, 1); (433, 434, 1, 217); (435, 437, 2, 1);
   (439, 439, 1, 219); (440, 440, 1, 1); (444, 444, 1, 1);
   (452, 452, 1, 2); (453, 453, 1, 1); (455, 455, 1, 2);
   (456, 456, 1, 1); (458, 458, 1, 2); (459, 475, 2, 1);
   (478, 494, 2, 1); (497, 497, 1, 2); (498, 500, 2, 1);
   (502, 502, 1, (-97)); (503, 503, 1, (-56)); (504, 542, 2, 1);
   (544, 544, 1, (-130)); (546, 562, 2, 1); (570, 570, 1, 10795);
   (571, 571, 1, 1); (573, 573, 1, (-163)); (574, 574, 1, 10792);
   (577, 577, 1, 1); (579, 579, 1, (-195)); (580, 580, 1, 69);
   (581, 581, 1, 71); (582, 590, 2, 1); (880, 882, 2, 1);
   (886, 886, 1, 1); (895, 895, 1, 116); (902, 902, 1, 38);
   (904, 906, 1, 37); (908, 908, 1, 64); (910, 911, 1, 63);
   (913, 929, 1, 32); (931, 939, 1, 32); (975, 975, 1, 8);
   (984, 1006, 2, 1); (1012, 1012, 1, (-60)); (1015, 1015, 1, 1);
   (1017, 1017, 1, (-7)); (1018, 1018, 1, 1); (1021, 1023, 1, (-130));
   (1024, 1039, 1, 80); (1040, 1071, 1, 32); (1120, 1152, 2, 1);
   (1162, 1214, 2, 1); (1216, 1216, 1, 15); (1217, 1229, 2, 1);
   (1232, 1326, 2, 1); (1329, 1366, 1, 48); (4256, 4293, 1, 7264);
   (4295, 4295, 1, 7264); (4301, 4301, 1, 7264); (5024, 5103, 1, 38864);
   (5104, 5109, 1, 8); (7312, 7354, 1, (-3008)); (7357, 7359, 1, (-3008));
   (7680, 7828, 2, 1); (7838, 7838, 1, (-7615)); (7840, 7934, 2, 1);
   (7944, 7951, 1, (-8)); (7960, 7965, 1, (-8)); (7976, 7983, 1, (-8));
   (7992, 7999, 1, (-8)); (8008, 8013, 1, (-8)); (8025, 8031, 2, (-8));
   (8040, 8047, 1, (-8)); (8072, 8079, 1, (-8)); (8088, 8095, 1, (-8));
   (8104, 8111, 1, (-8)); (8120, 8121, 1, (-8)); (8122, 8123, 1, (-74));
   (8124, 8124, 1, (-9)); (8136, 8139, 1, (-86)); (8140, 8140, 1, (-9));
   (8152, 8153, 1, (-8)); (8154, 8155, 1, (-100)); (8168, 8169, 1, (-8));
   (8170, 8171, 1, (-112)); (8172, 8172, 1, (-7)); (8184, 8185, 1, (-128));
   (8186, 8187, 1, (-126)); (8188, 8188, 1, (-9)); (8486, 8486, 1, (-7517));
   (8490, 8490, 1, (-8383)); (8491, 8491, 1, (-8262)); (8498, 8498, 1, 28);
   (8544, 8559, 1, 16); (8579, 8579, 1, 1); (9398, 9423, 1, 26);
   (11264, 11311, 1, 48); (11360, 11360, 1, 1); (11362, 11362, 1, (-10743));
   (11363, 11363, 1, (-3814)); (11364, 11364, 1, (-10727)); (11367, 11371, 2, 1);
   (11373, 11373, 1, (-10780)); (11374, 11374, 1, (-10749)); (11375, 11375, 1, (-10783));
   (11376, 11376, 1, (-10782)); (11378, 11378, 1, 1); (11381, 11381, 1, 1);
   (11390, 11391, 1, (-10815)); (11392, 11490, 2, 1); (11499, 11501, 2, 1);
   (11506, 11506, 1, 1); (42560, 42604, 2, 1); (42624, 42650, 2, 1);
   (42786, 42798, 2, 1); (42802, 42862, 2, 1); (42873, 42875, 2, 1);
   (42877, 42877, 1, (-35332)); (42878, 42886, 2, 1); (42891, 42891, 1, 1);
   (42893, 42893, 1, (-42280)); (42896, 42898, 2, 1); (42902, 42920, 2, 1);
   (42922, 42922, 1, (-42308)); (42923, 42923, 1, (-42319)); (42924, 42924, 1, (-42315));
   (42925, 42925, 1, (-42305)); (42926, 42926, 1, (-42308)); (42928, 42928, 1, (-42258));
   (42929, 42929, 1, (-42282)); (42930, 42930, 1, (-42261)); (42931, 42931, 1, 928);
   (42932, 42946, 2, 1); (42948, 42948, 1, (-48)); (42949, 42949, 1, (-42307));
   (42950, 42950, 1, (-35384)); (42951, 42953, 2, 1); (42960, 42960, 1, 1);
   (42966, 42968, 2, 1); (42997, 42997, 1, 1); (65313, 65338, 1, 32);
   (66560, 66599, 1, 40); (66736, 66771, 1, 40); (66928, 66938, 1, 39);
   (66940, 66954, 1, 39); (66956, 66962, 1, 39); (66964, 66965, 1, 39);
   (68736, 68786, 1, 64); (71840, 71871, 1, 32); (93760, 93791, 1, 32);
   (125184, 125217, 1, 34)
  ]%Z.

(** The code points with the property Cased, as ranges. *)
Definition cased_table : list (Z * Z) :=
  [
   (65, 90); (97, 122); (170, 170); (181, 181);
   (186, 186); (192, 214); (216, 246); (248, 442);
   (444, 447); (452, 659); (661, 696); (704, 705);
   (736, 740); (837, 837); (880, 883); (886, 887);
   (890, 893); (895, 895); (902, 902); (904, 906);
   (908, 908); (910, 929); (931, 1013); (1015, 1153);
   (1162, 1327); (1329, 1366); (1376, 1416); (4256, 4293);
   (4295, 4295); (4301, 4301); (4304, 4346); (4349, 4351);
   (5024, 5109); (5112, 5117); (7296, 7304); (7312, 7354);
   (7357, 7359); (7424, 7615); (7680, 7957); (7960, 7965);
   (7968, 8005); (8008, 8013); (8016, 8023); (8025, 8025);
   (8027, 8027); (8029, 8029); (8031, 8061); (8064, 8116);
   (8118, 8124); (8126, 8126); (8130, 8132); (8134, 8140);
   (8144, 8147); (8150, 8155); (8160, 8172); (8178, 8180);
   (8182, 8188); (8305, 8305); (8319, 8319); (8336, 8348);
   (8450, 8450); (8455, 8455); (8458, 8467); (8469, 8469);
   (8473, 8477); (8484, 8484); (8486, 8486); (8488, 8488);
   (8490, 8493); (8495, 8500); (8505, 8505); (8508, 8511);
   (8517, 8521); (8526, 8526); (8544, 8575); (8579, 8580);
   (9398, 9449); (11264, 11492); (11499, 11502); (11506, 11507);
   (11520, 11557); (11559, 11559); (11565, 11565); (42560, 42605);
   (42624, 42653); (42786, 42887); (42891, 42894); (42896, 42954);
   (42960, 42961); (42963, 42963); (42965, 42969); (42997, 42998);
   (43000, 43002); (43824, 43866); (43868, 43880); (43888, 43967);
   (64256, 64262); (64275, 64279); (65313, 65338); (65345, 65370);
   (66560, 66639); (66736, 66771); (66776, 66811); (66928, 66938);
   (66940, 66954); (66956, 66962); (66964, 66965); (66967, 66977);
   (66979, 66993); (66995, 67001); (67003, 67004); (67456, 67456);
   (67459, 67461); (67463, 67504); (67506, 67514); (68736, 68786);
   (68800, 68850); (71840, 71903); (93760, 93823); (119808, 119892);
   (119894, 119964); (119966, 119967); (119970, 119970); (119973, 119974);
   (119977, 119980); (119982, 119993); (119995, 119995); (119997, 120003);
   (120005, 120069); (120071, 120074); (120077, 120084); (120086, 120092);
   (120094, 120121); (120123, 120126); (120128, 120132); (120134, 120134);
   (120138, 120144); (120146, 120485); (120488, 120512); (120514, 120538);
   (120540, 120570); (120572, 120596); (120598, 120628); (120630, 120654);
   (120656, 120686); (120688, 120712); (120714, 120744); (120746, 120770);
   (120772, 120779); (122624, 122633); (122635, 122654); (125184, 125251);
   (127280, 127305); (127312, 127337); (127344, 127369)
  ]%Z.

(** The code points with the property Case_Ignorable, as ranges. *)
Definition case_ignorable_table : list (Z * Z) :=
  [
   (39, 39); (46, 46); (58, 58); (94, 94);
   (96, 96); (168, 168); (173, 173); (175, 175);
   (180, 180); (183, 184); (688, 879); (884, 885);
   (890, 890); (900, 901); (903, 903); (1155, 1161);
   (1369, 1369); (1375, 1375); (1425, 1469); (1471, 1471);
   (1473, 1474); (1476, 1477); (1479, 1479); (1524, 1524);
   (1536, 1541); (1552, 1562); (1564, 1564); (1600, 1600);
   (1611, 1631); (1648, 1648); (1750, 1757); (1759, 1768);
   (1770, 1773); (1807, 1807); (1809, 1809); (1840, 1866);
   (1958, 1968); (2027, 2037); (2042, 2042); (2045, 2045);
   (2070, 2093); (2137, 2139); (2184, 2184); (2192, 2193);
   (2200, 2207); (2249, 2306); (2362, 2362); (2364, 2364);
   (2369, 2376); (2381, 2381); (2385, 2391); (2402, 2403);
   (2417, 2417); (2433, 2433); (2492, 2492); (2497, 2500);
   (2509, 2509); (2530, 2531); (2558, 2558); (2561, 2562);
   (2620, 2620); (2625, 2626); (2631, 2632); (2635, 2637);
   (2641, 2641); (2672, 2673); (2677, 2677); (2689, 2690);
   (2748, 2748); (2753, 2757); (2759, 2760); (2765, 2765);
   (2786, 2787); (2810, 2815); (2817, 2817); (2876, 2876);
   (2879, 2879); (2881, 2884); (2893, 2893); (2901, 2902);
   (2914, 2915); (2946, 2946); (3008, 3008); (3021, 3021);
   (3072, 3072); (3076, 3076); (3132, 3132); (3134, 3136);
   (3142, 3144); (3146, 3149); (3157, 3158); (3170, 3171);
   (3201, 3201); (3260, 3260); (3263, 3263); (3270, 3270);
   (3276, 3277); (3298, 3299); (3328, 3329); (3387, 3388);
   (3393, 3396); (3405, 3405); (3426, 3427); (3457, 3457);
   (3530, 3530); (3538, 3540); (3542, 3542); (3633, 3633);
   (3636, 3642); (3654, 3662); (3761, 3761); (3764, 3772);
   (3782, 3782); (3784, 3789); (3864, 3865); (3893, 3893);
   (3895, 3895); (3897, 3897); (3953, 3966); (3968, 3972);
   (3974, 3975); (3981, 3991); (3993, 4028); (4038, 4038);
   (4141, 4144); (4146, 4151); (4153, 4154); (4157, 4158);
   (4184, 4185); (4190, 4192); (4209, 4212); (4226, 4226);
   (4229, 4230); (4237, 4237); (4253, 4253); (4348, 4348);
   (4957, 4959); (5906, 5908); (5938, 5939); (5970, 5971);
   (6002, 6003); (6068, 6069); (6071, 6077); (6086, 6086);
   (6089, 6099); (6103, 6103); (6109, 6109); (6155, 6159);
   (6211, 6211); (6277, 6278); (6313, 6313); (6432, 6434);
   (6439, 6440); (6450, 6450); (6457, 6459); (6679, 6680);
   (6683, 6683); (6742, 6742); (6744, 6750); (6752, 6752);
   (6754, 6754); (6757, 6764); (6771, 6780); (6783, 6783);
   (6823, 6823); (6832, 6862); (6912, 6915); (6964, 6964);
   (6966, 6970); (6972, 6972); (6978, 6978); (7019, 7027);
   (7040, 7041); (7074, 7077); (7080, 7081); (7083, 7085);
   (7142, 7142); (7144, 7145); (7149, 7149); (7151, 7153);
   (7212, 7219); (7222, 7223); (7288, 7293); (7376, 7378);
   (7380, 7392); (7394, 7400); (7405, 7405); (7412, 7412);
   (7416, 7417); (7468, 7530); (7544, 7544); (7579, 7679);
   (8125, 8125); (8127, 8129); (8141, 8143); (8157, 8159);
   (8173, 8175); (8189, 8190); (8203, 8207); (8216, 8217);
   (8228, 8228); (8231, 8231); (8234, 8238); (8288, 8292);
   (8294, 8303); (8305, 8305); (8319, 8319); (8336, 8348);
   (8400, 8432); (11388, 11389); (11503, 11505); (11631, 11631);
   (11647, 11647); (11744, 11775); (11823, 11823); (12293, 12293);
   (12330, 12333); (12337, 12341); (12347, 12347); (12441, 12446);
   (12540, 12542); (40981, 40981); (42232, 42237); (42508, 42508);
   (42607, 42610); (42612, 42621); (42623, 42623); (42652, 42655);
   (42736, 42737); (42752, 42785); (42864, 42864); (42888, 42890);
   (42994, 42996); (43000, 43001); (43010, 43010); (43014, 43014);
   (43019, 43019); (43045, 43046); (43052, 43052); (43204, 43205);
   (43232, 43249); (43263, 43263); (43302, 43309); (43335, 43345);
   (43392, 43394); (43443, 43443); (43446, 43449); (43452, 43453);
   (43471, 43471); (43493, 43494); (43561, 43566); (43569, 43570);
   (43573, 43574); (43587, 43587); (43596, 43596); (43632, 43632);
   (43644, 43644); (43696, 43696); (43698, 43700); (43703, 43704);
   (43710, 43711); (43713, 43713); (43741, 43741); (43756, 43757);
   (43763, 43764); (43766, 43766); (43867, 43871); (43881, 43883);
   (44005, 44005); (44008, 44008); (44013, 44013); (64286, 64286);
   (64434, 64450); (65024, 65039); (65043, 65043); (65056, 65071);
   (65106, 65106); (65109, 65109); (65279, 65279); (65287, 65287);
   (65294, 65294); (65306, 65306); (65342, 65342); (65344, 65344);
   (65392, 65392); (65438, 65439); (65507, 65507); (65529, 65531);
   (66045, 66045); (66272, 66272); (66422, 66426); (67456, 67461);
   (67463, 67504); (67506, 67514); (68097, 68099); (68101, 68102);
   (68108, 68111); (68152, 68154); (68159, 68159); (68325, 68326);
   (68900, 68903); (69291, 69292); (69446, 69456); (69506, 69509);
   (69633, 69633); (69688, 69702); (69744, 69744); (69747, 69748);
   (69759, 69761); (69811, 69814); (69817, 69818); (69821, 69821);
   (69826, 69826); (69837, 69837); (69888, 69890); (69927, 69931);
   (69933, 69940); (70003, 70003); (70016, 70017); (70070, 70078);
   (70089, 70092); (70095, 70095); (70191, 70193); (70196, 70196);
   (70198, 70199); (70206, 70206); (70367, 70367); (70371, 70378);
   (70400, 70401); (70459, 70460); (70464, 70464); (70502, 70508);
   (70512, 70516); (70712, 70719); (70722, 70724); (70726, 70726);
   (70750, 70750); (70835, 70840); (70842, 70842); (70847, 70848);
   (70850, 70851); (71090, 71093); (71100, 71101); (71103, 71104);
   (71132, 71133); (71219, 71226); (71229, 71229); (71231, 71232);
   (71339, 71339); (71341, 71341); (71344, 71349); (71351, 71351);
   (71453, 71455); (71458, 71461); (71463, 71467); (71727, 71735);
   (71737, 71738); (71995, 71996); (71998, 71998); (72003, 72003);
   (72148, 72151); (72154, 72155); (72160, 72160); (72193, 72202);
   (72243, 72248); (72251, 72254); (72263, 72263); (72273, 72278);
   (72281, 72283); (72330, 72342); (72344, 72345); (72752, 72758);
   (72760, 72765); (72767, 72767); (72850, 72871); (72874, 72880);
   (72882, 72883); (72885, 72886); (73009, 73014); (73018, 73018);
   (73020, 73021); (73023, 73029); (73031, 73031); (73104, 73105);
   (73109, 73109); (73111, 73111); (73459, 73460); (78896, 78904);
   (92912, 92916); (92976, 92982); (92992, 92995); (94031, 94031);
   (94095, 94111); (94176, 94177); (94179, 94180); (110576, 110579);
   (110581, 110587); (110589, 110590); (113821, 113822); (113824, 113827);
   (118528, 118573); (118576, 118598); (119143, 119145); (119155, 119170);
   (119173, 119179); (119210, 119213); (119362, 119364); (121344, 121398);
   (121403, 121452); (121461, 121461); (121476, 121476); (121499, 121503);
   (121505, 121519); (122880, 122886); (122888, 122904); (122907, 122913);
   (122915, 122916); (122918, 122922); (123184, 123197); (123566, 123566);
   (123628, 123631); (125136, 125142); (125252, 125259); (127995, 127999);
   (917505, 917505); (917536, 917631); (917760, 917999)
  ]%Z.

Definition in_ranges (c : Z) (table : list (Z * Z)) : bool :=
  existsb (λ r, (r.1 <=? c)%Z && (c <=? r.2)%Z) table.

Definition cased (c : Z) : bool := in_ranges c cased_table.

Definition case_ignorable (c : Z) : bool := in_ranges c case_ignorable_table.

(** The lower case of one code point, the capital sigma apart. *)
Definition to_lower (c : Z) : list Z :=
  if (c =? 304)%Z then [105; 775]%Z
  else
    match
      find (λ e, let '(first, last, step, _) := e in
                 (first <=? c)%Z && (c <=? last)%Z
                 && ((c - first) `mod` step =? 0)%Z) lower_table
    with
    | Some (_, _, _, delta) => [(c + delta)%Z]
    | None => [c]
    end.

(** Is the first code point of [l] that is not case-ignorable a cased one? *)
Fixpoint first_cased (l : list Z) : bool :=
  match l with
  | [] => false
  | c :: rest => if case_ignorable c then first_cased rest else cased c
  end.

(** U+03A3 is lowered to the final sigma U+03C2 when a cased letter stands
    before it and none after it, case-ignorable code points skipped on both
    sides; to U+03C3 otherwise. [before] holds the code points before it,
    the nearest first. *)
Definition lower_sigma (before after : list Z) : Z :=
  if first_cased before && negb (first_cased after) then 962%Z else 963%Z.

Fixpoint lower_from (before l : list Z) : list Z :=
  match l with
  | [] => []
  | c :: rest =>
      (if (c =? 931)%Z then [lower_sigma before rest] else to_lower c)
        ++ lower_from (c :: before) rest
  end.
End unicode.

Definition lower (s : string) : string :=
  unicode.encode (unicode.lower_from [] (unicode.decode s)).

(** [needle in haystack] on strings: substring search. *)
Fixpoint str_in (needle haystack : string) : bool :=
  if String.prefix needle haystack then true
  else match haystack with
       | EmptyString => false
       | String _ rest => str_in needle rest
       end.

(** [datetime]: a naive calendar date and time of day. *)
Module datetime.
Record t := mk {
  year : Z; month : Z; day : Z;
  hour : Z; minute : Z; second : Z; microsecond : Z
}.

(** [strftime("%H:%M:%S")] *)
Definition strftime_HMS (self : t) : string :=
  zpad 2 (hour self) +:+ ":" +:+ zpad 2 (minute self) +:+ ":"
    +:+ zpad 2 (second self).

(** [isoformat()]: the microseconds are printed only when they are not 0. *)
Definition isoformat (self : t) : string :=
  zpad 4 (year self) +:+ "-" +:+ zpad 2 (month self) +:+ "-"
    +:+ zpad 2 (day self) +:+ "T" +:+ strftime_HMS self
    +:+ (if (microsecond self =? 0)%Z then ""
         else "." +:+ zpad 6 (microsecond self)).

(** Day number of a date in the proleptic Gregorian calendar, counted from
    1970-01-01, and back. *)
Definition to_days (y m d : Z) : Z :=
  let y' := if (m <=? 2)%Z then (y - 1)%Z else y in
  let era := (y' `div` 400)%Z in
  let yoe := (y' - era * 400)%Z in
  let mp := if (2 <? m)%Z then (m - 3)%Z else (m + 9)%Z in
  let doy := ((153 * mp + 2) `div` 5 + d - 1)%Z in
  let doe := (yoe * 365 + yoe `div` 4 - yoe `div` 100 + doy)%Z in
  (era * 146097 + doe - 719468)%Z.

Definition of_days (z : Z) : Z * Z * Z :=
  let z := (z + 719468)%Z in
  let era := (z `div` 146097)%Z in
  let doe := (z - era * 146097)%Z in
  let yoe :=
    ((doe - doe `div` 1460 + doe `div` 36524 - doe `div` 146096) `div` 365)%Z in
  let doy := (doe - (365 * yoe + yoe `div` 4 - yoe `div` 100))%Z in
  let mp := ((5 * doy + 2) `div` 153)%Z in
  let d := (doy - (153 * mp + 2) `div` 5 + 1)%Z in
  let m := if (mp <? 10)%Z then (mp + 3)%Z else (mp - 9)%Z in
  let y := (yoe + era * 400)%Z in
  (if (m <=? 2)%Z then (y + 1)%Z else y, m, d).

(** [self - timedelta(days=n)]: the time of day is kept. *)
Definition sub_days (self : t) (n : Z) : t :=
  let '(y, m, d) := of_days (to_days (year self) (month self) (day self) - n) in
  mk y m d (hour self) (minute self) (second self) (microsecond self).
End datetime.

(** A value stored in one of the result dicts of the payment service, and
    such a dict: string keys, in the order of the dict literal. *)
Inductive pyval :=
  | VNone
  | VBool (b : bool)
  | VStr (s : string)
  | VFloat (x : float).

Global Instance pyval_truthy : Truthy pyval :=
  λ v, match v with
       | VNone => false
       | VBool b => b
       | VStr s => truth s
       | VFloat x => truth x
       end.

Definition dict := list (string * pyval).

(** [d.get(key)]: the value, or [None] when the key is absent. *)
Fixpoint dict_get (d : dict) (key : string) : pyval :=
  match d with
  | [] => VNone
  | (k, v) :: rest => if String.eqb k key then v else dict_get rest key
  end.

(** [d.get(key)] for a key that holds a [str] whenever it is present, as
    "message" and "error" do in every dict of the payment service: [None]
    when the key is absent. *)
Definition dict_get_str (d : dict) (key : string) : option string :=
  match dict_get d key with
  | VStr s => Some s
  | _ => None
  end.

(** [str(v)] of an [Optional[str]], as an f-string prints it. *)
Definition str_of_opt_str (v : option string) : string :=
  match v with
  | Some s => s
  | None => "None"
  end.

(** ** models.py *)

Module CustomerTier.
Inductive t := STANDARD | PREFERRED | VIP.
Definition value (self : t) : string :=
  match self with
  | STANDARD => "standard"
  | PREFERRED => "preferred"
  | VIP => "vip"
  end.
Global Instance eq_dec : EqDecision t.
Proof. solve_decision. Defined.
End CustomerTier.

Module ExceptionType.
Inductive t := REFUND | CANCELLATION | PRICE_ADJUSTMENT.
Definition value (self : t) : string :=
  match self with
  | REFUND => "refund"
  | CANCELLATION => "cancel"
  | PRICE_ADJUSTMENT => "adjust"
  end.
Global Instance eq_dec : EqDecision t.
Proof. solve_decision. Defined.
End ExceptionType.

Module RequestStatus.
Inductive t :=
  | RECEIVED | ANALYZING | PENDING_APPROVAL | APPROVED | REJECTED
  | COMPLETED | FAILED.
Definition value (self : t) : string :=
  match self with
  | RECEIVED => "received"
  | ANALYZING => "analyzing"
  | PENDING_APPROVAL => "pending_approval"
  | APPROVED => "approved"
  | REJECTED => "rejected"
  | COMPLETED => "completed"
  | FAILED => "failed"
  end.
Global Instance eq_dec : EqDecision t.
Proof. solve_decision. Defined.
End RequestStatus.

Module Customer.
Record t := mk {
  customer_id : string;
  name : string;
  email : string;
  tier : CustomerTier.t;
  lifetime_value : float
}.
Global Instance inhabited : Inhabited t :=
  populate (mk "" "" "" CustomerTier.STANDARD 0).
End Customer.

Module OrderItem.
Record t := mk {
  sku : string;
  name : string;
  quantity : Z;
  unit_price : float
}.
End OrderItem.

Module Order.
Record t := mk {
  order_id : string;
  customer : Customer.t;
  items : list OrderItem.t;
  order_total : float;
  order_date : datetime.t
}.

(** [sum(item.quantity for item in self.items)] *)
Definition item_count (self : t) : Z :=
  foldr (λ item acc, (OrderItem.quantity item + acc)%Z) 0%Z (items self).
End Order.

Module ExceptionRequest.
Record t := mk {
  request_id : string;
  order : Order.t;
  exception_type : ExceptionType.t;
  reason : string;
  requested_amount : option float
}.

(** [self.requested_amount or self.order.order_total] *)
Definition effective_amount (self : t) : float :=
  py_or (requested_amount self) (Order.order_total (order self)).
End ExceptionRequest.

Module AgentDecision.
Record t := mk {
  should_approve : bool;
  recommended_amount : float;
  reasoning : string;
  requires_human_approval : bool;
  approval_reasons : list string
}.
End AgentDecision.

Module HumanReview.
Record t := mk {
  reviewer_id : string;
  approved : bool;
  adjusted_amount : option float;
  notes : option string;
  reviewed_at : datetime.t
}.
End HumanReview.

(** ** tools/config.py *)

Module HITLConfigType.
Record t := mk {
  max_auto_approve_amount : float;
  vip_always_approve : bool;
  multi_item_threshold : Z
}.
End HITLConfigType.

(** ** The interpreter's state and the effects of the code *)

(** A call of the payment service, as instrumentation: the source keeps no
    such record, the field [payment_calls] below exists to state which calls
    a run has made. *)
Inductive PaymentCall :=
  | call_process_refund
      (order_id : string) (amount : float) (reason : string)
      (approved_by : option string)
  | call_cancel_order
      (order_id : string) (reason : string) (approved_by : option string)
  | call_apply_price_adjustment
      (order_id : string) (adjustment_amount : float) (reason : string)
      (approved_by : option string).

(** What the code reads and writes besides its arguments: the wall clock
    ([clock k] is what the [k]-th call of [datetime.now()] returns), the
    random generator ([rng k] is its [k]-th raw draw), and the module-level
    dicts [HITL_CONFIG], [_CUSTOMERS] and [_ORDERS]. *)
Record World := mkWorld {
  clock : nat → datetime.t;
  clock_reads : nat;
  rng : nat → Z;
  rng_draws : nat;
  HITL_CONFIG : HITLConfigType.t;
  _CUSTOMERS : gmap string Customer.t;
  _ORDERS : gmap string Order.t;
  payment_calls : list PaymentCall
}.

Inductive exn :=
  | AttributeError (msg : string)
  | KeyError (key : string).

Inductive outcome (A : Type) :=
  | Ok (a : A)
  | Raise (e : exn).
Arguments Ok {A} a.
Arguments Raise {A} e.

(** A computation that may read and write the world and may raise. *)
Definition Py (A : Type) : Type := World → outcome A * World.

Definition ret {A} (a : A) : Py A := λ w, (Ok a, w).
Definition raise {A} (e : exn) : Py A := λ w, (Raise e, w).
Definition bind {A B} (m : Py A) (k : A → Py B) : Py B :=
  λ w, match m w with
       | (Ok a, w') => k a w'
       | (Raise e, w') => (Raise e, w')
       end.

Notation "'let*' x := m 'in' k" := (bind m (λ x, k))
  (at level 10, x name, m at level 100, k at level 200,
   format "'[v' 'let*'  x  :=  m  'in' '/' k ']'").

(** [datetime.now()] *)
Definition now : Py datetime.t :=
  λ w, (Ok (clock w (clock_reads w)),
        mkWorld (clock w) (S (clock_reads w)) (rng w) (rng_draws w)
          (HITL_CONFIG w) (_CUSTOMERS w) (_ORDERS w) (payment_calls w)).

(** [random.randint(lo, hi)]: an integer of [lo..hi], both ends included. *)
Definition randint (lo hi : Z) : Py Z :=
  λ w, (Ok (lo + rng w (rng_draws w) `mod` (hi - lo + 1))%Z,
        mkWorld (clock w) (clock_reads w) (rng w) (S (rng_draws w))
          (HITL_CONFIG w) (_CUSTOMERS w) (_ORDERS w) (payment_calls w)).

Definition record_call (c : PaymentCall) : Py unit :=
  λ w, (Ok (),
        mkWorld (clock w) (clock_reads w) (rng w) (rng_draws w)
          (HITL_CONFIG w) (_CUSTOMERS w) (_ORDERS w) (payment_calls w ++ [c])).

(** Reading a module-level name. *)
Definition global {A} (name : World → A) : Py A := λ w, (Ok (name w), w).

(** [d[key]] *)
Definition subscript {A} (d : gmap string A) (key : string) : Py A :=
  match d !! key with
  | Some v => ret v
  | None => raise (KeyError key)
  end.

(** [a or b] where evaluating [b] is itself a computation: [b] is evaluated
    only when [a] is falsy. *)
Definition py_or_else {A} `{Truthy A} (a : option A) (b : Py A) : Py A :=
  match a with
  | Some x => if truth x then ret x else b
  | None => b
  end.

(** ** models.py, continued: the workflow state *)

Module AgentState.
Record t := mk {
  request : ExceptionRequest.t;
  status : RequestStatus.t;
  decision : option AgentDecision.t;
  human_review : option HumanReview.t;
  final_amount : option float;
  result_message : option string;
  processing_log : list string
}.

(** [AgentState(request=request)]: every other field at its default. *)
Definition initial (request : ExceptionRequest.t) : t :=
  mk request RequestStatus.RECEIVED None None None None [].

Definition set_processing_log (self : t) (log : list string) : t :=
  mk (request self) (status self) (decision self) (human_review self)
     (final_amount self) (result_message self) log.

(** [add_log]: appends to the list held by [self]. *)
Definition add_log (message : string) (self : t) : Py t :=
  let* timestamp := now in
  ret (set_processing_log self
         (processing_log self
            ++ ["[" +:+ datetime.strftime_HMS timestamp +:+ "] " +:+ message])).

(** [self.decision.<attr>]: [None] has no attributes. *)
Definition decision_attr (self : t) (attr : string) : Py AgentDecision.t :=
  match decision self with
  | Some d => ret d
  | None =>
      raise (AttributeError
               ("'NoneType' object has no attribute '" +:+ attr +:+ "'"))
  end.
End AgentState.

(** ** tools/config.py: the initial value of [HITL_CONFIG] *)

Module Config.
Definition HITL_CONFIG : HITLConfigType.t :=
  {| HITLConfigType.max_auto_approve_amount := 100.00;
     HITLConfigType.vip_always_approve := true;
     HITLConfigType.multi_item_threshold := 2 |}.
End Config.

(** The world before any module of the package is loaded: [tools/config.py]
    has bound [HITL_CONFIG], the mock database is still empty. *)
Definition boot (clock : nat → datetime.t) (rng : nat → Z) : World :=
  mkWorld clock 0 rng 0 Config.HITL_CONFIG ∅ ∅ [].

(** ** tools/mock_database.py *)

Module MockDatabase.
Definition _create_mock_customers : gmap string Customer.t :=
  list_to_map [
    ("CUST-001",
     Customer.mk "CUST-001" "Alice Johnson" "alice@example.com"
       CustomerTier.STANDARD 450.00);
    ("CUST-002",
     Customer.mk "CUST-002" "Bob Smith" "bob@example.com"
       CustomerTier.VIP 15000.00);
    ("CUST-003",
     Customer.mk "CUST-003" "Carol Williams" "carol@example.com"
       CustomerTier.PREFERRED 2500.00)
  ].

Definition _create_mock_orders (customers : gmap string Customer.t)
  : Py (gmap string Order.t) :=
  let* c1 := subscript customers "CUST-001" in
  let* t1 := now in
  let* c2 := subscript customers "CUST-001" in
  let* t2 := now in
  let* c3 := subscript customers "CUST-002" in
  let* t3 := now in
  let* c4 := subscript customers "CUST-003" in
  let* t4 := now in
  ret (list_to_map [
    ("ORD-1001",
     Order.mk "ORD-1001" c1
       [OrderItem.mk "SKU-A1" "Basic T-Shirt" 1 29.99]
       29.99 (datetime.sub_days t1 3));
    ("ORD-1002",
     Order.mk "ORD-1002" c2
       [OrderItem.mk "SKU-B1" "Designer Jacket" 1 249.99;
        OrderItem.mk "SKU-B2" "Premium Jeans" 1 89.99]
       339.98 (datetime.sub_days t2 5));
    ("ORD-1003",
     Order.mk "ORD-1003" c3
       [OrderItem.mk "SKU-C1" "Silk Scarf" 1 75.00]
       75.00 (datetime.sub_days t3 2));
    ("ORD-1004",
     Order.mk "ORD-1004" c4
       [OrderItem.mk "SKU-D1" "Casual Shirt" 2 45.00;
        OrderItem.mk "SKU-D2" "Dress Pants" 1 65.00;
        OrderItem.mk "SKU-D3" "Belt" 1 35.00]
       190.00 (datetime.sub_days t4 7))
  ]).

(** The module body: [_CUSTOMERS = ...] and [_ORDERS = ...] on load. *)
Definition load : Py unit :=
  let customers := _create_mock_customers in
  let* orders := _create_mock_orders customers in
  λ w, (Ok (),
        mkWorld (clock w) (clock_reads w) (rng w) (rng_draws w)
          (HITL_CONFIG w) customers orders (payment_calls w)).

(** [_ORDERS.copy()] *)
Definition get_all_orders : Py (gmap string Order.t) := global _ORDERS.

(** [_ORDERS.get(order_id)] *)
Definition get_order_by_id (order_id : string) : Py (option Order.t) :=
  let* orders := global _ORDERS in
  ret (orders !! order_id).

Definition get_all_customers : Py (gmap string Customer.t) := global _CUSTOMERS.

Definition get_customer_by_id (customer_id : string) : Py (option Customer.t) :=
  let* customers := global _CUSTOMERS in
  ret (customers !! customer_id).
End MockDatabase.

(** ** tools/analysis_service.py *)

Module AnalysisService.
Section with_config.
(** The value of the module-level [HITL_CONFIG] when the analysis runs. *)
Variable HITL_CONFIG : HITLConfigType.t.

Definition _check_amount_threshold (amount : float) : bool * option string :=
  let threshold := HITLConfigType.max_auto_approve_amount HITL_CONFIG in
  if PrimFloat.ltb threshold amount then
    (true,
     Some ("Amount $" +:+ fmt_2f amount +:+ " exceeds auto-approve limit of $"
             +:+ fmt_2f threshold))
  else (false, None).

Definition _check_vip_status (tier : CustomerTier.t) (customer_name : string)
  : bool * option string :=
  if bool_decide (tier = CustomerTier.VIP)
     && HITLConfigType.vip_always_approve HITL_CONFIG then
    (true,
     Some ("Customer " +:+ customer_name
             +:+ " is VIP tier - requires personalized handling"))
  else (false, None).

Definition _check_item_complexity (item_count : Z) : bool * option string :=
  let threshold := HITLConfigType.multi_item_threshold HITL_CONFIG in
  if (threshold <? item_count)%Z then
    (true,
     Some ("Order has " +:+ pretty item_count
             +:+ " items - complex exception needs review"))
  else (false, None).

Definition negative_signals : list string :=
  ["fraud"; "unauthorized"; "dispute"; "chargeback"; "stolen"].

(** The loop returns at the first signal found in the lowered reason. *)
Definition _analyze_request_reason (reason : string) : bool * option string :=
  let reason_lower := lower reason in
  match List.find (λ signal, str_in signal reason_lower) negative_signals with
  | Some signal =>
      (true, Some ("Request contains concerning keyword: '" +:+ signal +:+ "'"))
  | None => (false, None)
  end.

Definition _calculate_recommended_amount (request : ExceptionRequest.t)
  : float * option string :=
  let amount := ExceptionRequest.effective_amount request in
  let order_total := Order.order_total (ExceptionRequest.order request) in
  if bool_decide (ExceptionRequest.exception_type request
                  = ExceptionType.PRICE_ADJUSTMENT) then
    let max_adjustment := (order_total * 0.20)%float in
    if PrimFloat.ltb max_adjustment amount then
      (max_adjustment,
       Some ("Price adjustment capped at 20% of order total ($"
               +:+ fmt_2f max_adjustment +:+ ")"))
    else (amount, None)
  else (amount, None).

(** [if flag and reason: reasons.append(reason); parts.append(part)] on the
    two lists the analysis builds. *)
Definition note_if (flag : bool) (reason : option string) (part : string)
    (lists : list string * list string) : list string * list string :=
  match reason with
  | Some r =>
      if flag && truth r then (lists.1 ++ [r], lists.2 ++ [part]) else lists
  | None => lists
  end.

Definition analyze_exception_request (request : ExceptionRequest.t)
  : AgentDecision.t :=
  let lists : list string * list string := ([], []) in
  let order := ExceptionRequest.order request in
  let customer := Order.customer order in
  let amount := ExceptionRequest.effective_amount request in
  (* Check 1: amount threshold *)
  let '(exceeds_amount, amount_reason) := _check_amount_threshold amount in
  let lists :=
    note_if exceeds_amount amount_reason
      ("High-value request ($" +:+ fmt_2f amount +:+ ")") lists in
  (* Check 2: VIP status *)
  let '(is_vip, vip_reason) :=
    _check_vip_status (Customer.tier customer) (Customer.name customer) in
  let lists :=
    note_if is_vip vip_reason "VIP customer requires white-glove service"
      lists in
  (* Check 3: item complexity *)
  let '(is_complex, complexity_reason) :=
    _check_item_complexity (Order.item_count order) in
  let lists :=
    note_if is_complex complexity_reason
      ("Multi-item order (" +:+ pretty (Order.item_count order) +:+ " items)")
      lists in
  let '(approval_reasons, reasoning_parts) := lists in
  (* Check 4: reason analysis *)
  let '(has_concerns, concern_description) :=
    _analyze_request_reason (ExceptionRequest.reason request) in
  let should_approve := negb has_concerns in
  let reasoning_parts :=
    match concern_description with
    | Some d => if has_concerns && truth d then reasoning_parts ++ [d]
                else reasoning_parts
    | None => reasoning_parts
    end in
  (* recommended amount *)
  let '(recommended_amount, amount_note) :=
    _calculate_recommended_amount request in
  let reasoning_parts :=
    match amount_note with
    | Some n => if truth n then reasoning_parts ++ [n] else reasoning_parts
    | None => reasoning_parts
    end in
  let reasoning_parts :=
    if negb (truth reasoning_parts)
    then reasoning_parts ++ ["Standard request within normal parameters"]
    else reasoning_parts in
  let reasoning := String.concat ". " reasoning_parts +:+ "." in
  {| AgentDecision.should_approve := should_approve;
     AgentDecision.recommended_amount := recommended_amount;
     AgentDecision.reasoning := reasoning;
     AgentDecision.requires_human_approval :=
       bool_decide (0 < length approval_reasons)%nat;
     AgentDecision.approval_reasons := approval_reasons |}.
End with_config.
End AnalysisService.

(** ** tools/order_service.py *)

Module OrderService.
Definition get_order_details (order_id : string) : Py (option Order.t) :=
  MockDatabase.get_order_by_id order_id.

Definition check_order_status (order_id : string) : Py dict :=
  let* order := MockDatabase.get_order_by_id order_id in
  match order with
  | None =>
      ret [("found", VBool false);
           ("error", VStr ("Order " +:+ order_id +:+ " not found"))]
  | Some _ =>
      ret [("found", VBool true);
           ("order_id", VStr order_id);
           ("status", VStr "confirmed");
           ("can_cancel", VBool true);
           ("can_refund", VBool true);
           ("shipped", VBool false)]
  end.
End OrderService.

(** ** tools/payment_service.py *)

Module PaymentService.
Definition _generate_transaction_id (prefix : string) : Py string :=
  let* n := randint 10000 99999 in
  ret (prefix +:+ "-" +:+ pretty n).

(** [approved_by or "AUTO"], stored in a dict. *)
Definition approver (approved_by : option string) : pyval :=
  VStr (py_or approved_by "AUTO").

Definition process_refund (order_id : string) (amount : float)
    (reason : string) (approved_by : option string) : Py dict :=
  let* _ := record_call (call_process_refund order_id amount reason approved_by) in
  let* refund_id := _generate_transaction_id "REF" in
  let* order := MockDatabase.get_order_by_id order_id in
  match order with
  | None =>
      ret [("success", VBool false);
           ("error", VStr ("Order " +:+ order_id +:+ " not found"))]
  | Some _ =>
      let* processed_at := now in
      ret [("success", VBool true);
           ("refund_id", VStr refund_id);
           ("order_id", VStr order_id);
           ("amount", VFloat amount);
           ("currency", VStr "USD");
           ("reason", VStr reason);
           ("approved_by", approver approved_by);
           ("processed_at", VStr (datetime.isoformat processed_at));
           ("message",
            VStr ("Refund of $" +:+ fmt_2f amount +:+ " processed successfully"))]
  end.

Definition cancel_order (order_id : string) (reason : string)
    (approved_by : option string) : Py dict :=
  let* _ := record_call (call_cancel_order order_id reason approved_by) in
  let* order := MockDatabase.get_order_by_id order_id in
  match order with
  | None =>
      ret [("success", VBool false);
           ("error", VStr ("Order " +:+ order_id +:+ " not found"))]
  | Some order =>
      let* cancellation_id := _generate_transaction_id "CAN" in
      let* cancelled_at := now in
      ret [("success", VBool true);
           ("cancellation_id", VStr cancellation_id);
           ("order_id", VStr order_id);
           ("previous_status", VStr "confirmed");
           ("new_status", VStr "cancelled");
           ("refund_initiated", VBool true);
           ("refund_amount", VFloat (Order.order_total order));
           ("reason", VStr reason);
           ("approved_by", approver approved_by);
           ("cancelled_at", VStr (datetime.isoformat cancelled_at));
           ("message",
            VStr ("Order " +:+ order_id +:+ " cancelled. Refund of $"
                    +:+ fmt_2f (Order.order_total order) +:+ " initiated."))]
  end.

Definition apply_price_adjustment (order_id : string)
    (adjustment_amount : float) (reason : string)
    (approved_by : option string) : Py dict :=
  let* _ := record_call
              (call_apply_price_adjustment order_id adjustment_amount reason
                 approved_by) in
  let* order := MockDatabase.get_order_by_id order_id in
  match order with
  | None =>
      ret [("success", VBool false);
           ("error", VStr ("Order " +:+ order_id +:+ " not found"))]
  | Some order =>
      if PrimFloat.ltb (Order.order_total order) adjustment_amount then
        ret [("success", VBool false);
             ("error",
              VStr ("Adjustment $" +:+ fmt_2f adjustment_amount
                      +:+ " exceeds order total $"
                      +:+ fmt_2f (Order.order_total order)))]
      else
        let* adjustment_id := _generate_transaction_id "ADJ" in
        let* applied_at := now in
        ret [("success", VBool true);
             ("adjustment_id", VStr adjustment_id);
             ("order_id", VStr order_id);
             ("adjustment_amount", VFloat adjustment_amount);
             ("adjustment_type", VStr "credit");
             ("original_order_total", VFloat (Order.order_total order));
             ("new_effective_total",
              VFloat (Order.order_total order - adjustment_amount)%float);
             ("reason", VStr reason);
             ("approved_by", approver approved_by);
             ("applied_at", VStr (datetime.isoformat applied_at));
             ("message",
              VStr ("Price adjustment of $" +:+ fmt_2f adjustment_amount
                      +:+ " applied to order " +:+ order_id))]
  end.
End PaymentService.

(** ** tools/test_data.py *)

Module TestData.
Definition get_sample_requests : Py (list ExceptionRequest.t) :=
  let* orders := MockDatabase.get_all_orders in
  let* o1 := subscript orders "ORD-1001" in
  let* o2 := subscript orders "ORD-1002" in
  let* o3 := subscript orders "ORD-1003" in
  let* o4 := subscript orders "ORD-1004" in
  ret [
    ExceptionRequest.mk "REQ-001" o1 ExceptionType.REFUND
      "Item didn't fit as expected, requesting full refund" None;
    ExceptionRequest.mk "REQ-002" o2 ExceptionType.REFUND
      "Quality not as expected, items had loose threads" None;
    ExceptionRequest.mk "REQ-003" o3 ExceptionType.CANCELLATION
      "Changed my mind, found similar item elsewhere" None;
    ExceptionRequest.mk "REQ-004" o4 ExceptionType.PRICE_ADJUSTMENT
      "Saw items on sale a week after purchase, requesting price match"
      (Some 50.00%float)
  ].
End TestData.

(** ** The graph runtime

    [graph.py] builds its workflow with a [StateGraph] and hands it to a
    runtime ([builder.compile], [graph.invoke], [graph.update_state]) whose
    code is not part of the source files. This module is that runtime as the
    specification describes it: Graph Definition (section 4.1), Executor
    (4.2), Checkpoint Store and Engine API (section 6). *)

Module Engine.

(** Modelled from the spec: the partial update a node returns (the dict of
    state updates in the source), every field optional; an absent key is
    [None]. [result_message] is the one field the nodes may set to [None]. *)
Record StateUpdate := mkUpdate {
  upd_status : option RequestStatus.t;
  upd_decision : option AgentDecision.t;
  upd_human_review : option HumanReview.t;
  upd_final_amount : option float;
  upd_result_message : option (option string);
  upd_processing_log : option (list string)
}.

(** Modelled from the spec: the field-level merge of section 3, "update
    replaces field value". The nodes of the source return the whole log with
    their entries appended, and it replaces the stored one. *)
Definition merge (state : AgentState.t) (update : StateUpdate) : AgentState.t :=
  AgentState.mk
    (AgentState.request state)
    (default (AgentState.status state) (upd_status update))
    (match upd_decision update with
     | Some d => Some d
     | None => AgentState.decision state
     end)
    (match upd_human_review update with
     | Some r => Some r
     | None => AgentState.human_review state
     end)
    (match upd_final_amount update with
     | Some a => Some a
     | None => AgentState.final_amount state
     end)
    (default (AgentState.result_message state) (upd_result_message update))
    (default (AgentState.processing_log state) (upd_processing_log update)).

(** Modelled from the spec: a Node, a function from the current state to a
    partial update, and a Router, a function from the current state to the
    name of the next node (section 2). *)
Definition Node : Type := AgentState.t → Py StateUpdate.
Definition Router : Type := AgentState.t → string.

(** Modelled from the spec: the entry and the completion of a graph, under
    the names [START] and [END] that the source imports for them. *)
Definition START : string := "__start__".
Definition END : string := "__end__".

(** The value bound to [key] in an association list. *)
Fixpoint assoc {A} (key : string) (l : list (string * A)) : option A :=
  match l with
  | [] => None
  | (k, v) :: rest => if String.eqb k key then Some v else assoc key rest
  end.

(** Modelled from the spec: the Graph Definition of section 4.1, a node
    registry, an edge table and a conditional edge table (a router with its
    closed mapping from return value to destination). *)
Record StateGraph := mkGraph {
  nodes : list (string * Node);
  edges : list (string * string);
  branches : list (string * (Router * list (string * string)))
}.

(** Modelled from the spec: [add_node], [add_edge] and
    [add_conditional_edge] of section 4.1, as the source calls them on its
    builder; the checks of section 4.1 on names are left out, the source
    registers each name once and only connects registered names. *)
Definition empty_graph : StateGraph := mkGraph [] [] [].

Definition add_node (name : string) (fn : Node) (g : StateGraph) : StateGraph :=
  mkGraph (nodes g ++ [(name, fn)]) (edges g) (branches g).

Definition add_edge (src dst : string) (g : StateGraph) : StateGraph :=
  mkGraph (nodes g) (edges g ++ [(src, dst)]) (branches g).

Definition add_conditional_edges (src : string) (router : Router)
    (mapping : list (string * string)) (g : StateGraph) : StateGraph :=
  mkGraph (nodes g) (edges g) (branches g ++ [(src, (router, mapping))]).

(** Modelled from the spec: the compiled, immutable structure the Executor
    consumes: the topology and the nodes flagged as interrupt nodes (the
    [interrupt_before] argument of [compile] in the source). *)
Record CompiledGraph := mkCompiled {
  builder : StateGraph;
  interrupt_before : list string
}.

(** Modelled from the spec: what the Checkpoint Store keeps for a run, the
    Workflow State and the node the run is to enter next. *)
Record Checkpoint := mkCheckpoint {
  values : AgentState.t;
  next : string
}.

(** Modelled from the spec: the Checkpoint Store, keyed by run identifier
    (the [MemorySaver] and the [thread_id] of the source). *)
Abbreviation Store := (gmap string Checkpoint).

(** Modelled from the spec: the errors of section 7 that an engine call can
    surface, and the failure of a node function with the exception it
    raised. *)
Inductive EngineError :=
  | RunNotFoundError
  | MissingReviewError
  | RunCancelledError
  | ConcurrentResumeError
  | MalformedGraphError
  | UnknownNodeError (name : string)
  | UnmappedRouteError (src key : string)
  | NodeError (node : string) (e : exn).

(** Modelled from the spec: [RunResult] of section 6. *)
Inductive RunResult :=
  | Paused (at_node : string)
  | Completed (state : AgentState.t)
  | Failed (error : EngineError).

(** Modelled from the spec: what a round of the Executor's loop decides, to
    go on or to return a result to the caller. *)
Inductive Step :=
  | Continue
  | Stop (result : RunResult).

(** Modelled from the spec: "resolve the next node via unconditional edge or
    Router"; a node with no outgoing edge routes to completion; a router
    value that its mapping does not list is a configuration error. *)
Definition successor (g : StateGraph) (current : string)
    (state : AgentState.t) : EngineError + string :=
  match assoc current (edges g) with
  | Some dst => inr dst
  | None =>
      match assoc current (branches g) with
      | Some (router, mapping) =>
          match assoc (router state) mapping with
          | Some dst => inr dst
          | None => inl (UnmappedRouteError current (router state))
          end
      | None => inr END
      end
  end.

(** Modelled from the spec: the Executor forcing a status, which it does
    only on the failure of a node (section 4.5). *)
Definition set_status (state : AgentState.t) (s : RequestStatus.t)
  : AgentState.t :=
  AgentState.mk (AgentState.request state) s (AgentState.decision state)
    (AgentState.human_review state) (AgentState.final_amount state)
    (AgentState.result_message state) (AgentState.processing_log state).

(** Modelled from the spec: one round of the Executor's loop (section 4.2).
    (a) At an interrupt node, unless the call is resuming at it, nothing runs
    and the result is [Paused]. (b) Otherwise the node's function runs, its
    update is merged and the next node is resolved. The error policy: a node
    that raises stops the run with the state as it was and status [FAILED].

    [resuming]: in the source, execution pauses before [human_review] and
    the resumed graph enters that node ("Graph resumes from this point",
    graph.py); so the call that resumes a run enters its first node even when
    it is an interrupt node, where section 4.2 would record the successor of
    the interrupt node instead. *)
Definition advance (g : CompiledGraph) (resuming : bool) (cp : Checkpoint)
  : World → Step * Checkpoint * World :=
  λ w,
  let current := next cp in
  if String.eqb current END then (Stop (Completed (values cp)), cp, w)
  else if existsb (String.eqb current) (interrupt_before g) && negb resuming
  then (Stop (Paused current), cp, w)
  else
    match assoc current (nodes (builder g)) with
    | None => (Stop (Failed (UnknownNodeError current)), cp, w)
    | Some fn =>
        match fn (values cp) w with
        | (Raise e, w') =>
            (Stop (Failed (NodeError current e)),
             mkCheckpoint (set_status (values cp) RequestStatus.FAILED) current,
             w')
        | (Ok update, w') =>
            let state := merge (values cp) update in
            match successor (builder g) current state with
            | inl err => (Stop (Failed err), cp, w')
            | inr dst => (Continue, mkCheckpoint state dst, w')
            end
        end
    end.

(** Modelled from the spec: the Executor's loop, with the persistence write
    after every round. [fuel] bounds the number of rounds; [None] is a run
    that has not stopped within it. *)
Fixpoint run_loop (fuel : nat) (g : CompiledGraph) (run_id : string)
    (resuming : bool) (cp : Checkpoint) (σ : Store) (w : World)
  : option RunResult * Store * World :=
  match fuel with
  | O => (None, σ, w)
  | S fuel' =>
      let '(step, cp', w') := advance g resuming cp w in
      let σ' := <[run_id := cp']> σ in
      match step with
      | Stop result => (Some result, σ', w')
      | Continue => run_loop fuel' g run_id false cp' σ' w'
      end
  end.

(** Modelled from the spec: [start] stores the initial state under the run
    identifier and runs from the entry node ([graph.invoke(initial_state,
    config)] in the source). *)
Definition start (g : CompiledGraph) (fuel : nat) (run_id : string)
    (initial_state : AgentState.t) (σ : Store) (w : World)
  : option RunResult * Store * World :=
  match assoc START (edges (builder g)) with
  | None => (Some (Failed MalformedGraphError), σ, w)
  | Some entry =>
      let cp := mkCheckpoint initial_state entry in
      run_loop fuel g run_id false cp (<[run_id := cp]> σ) w
  end.

(** Modelled from the spec: [resume] loads the stored state of the run and
    continues it ([graph.invoke(None, config)] in the source). *)
Definition resume (g : CompiledGraph) (fuel : nat) (run_id : string)
    (σ : Store) (w : World) : option RunResult * Store * World :=
  match σ !! run_id with
  | None => (Some (Failed RunNotFoundError), σ, w)
  | Some cp => run_loop fuel g run_id true cp σ w
  end.

(** Modelled from the spec: external input is merged into the stored state
    without advancing the run ([graph.update_state(config, update)] in the
    source). *)
Definition update_state (run_id : string) (update : StateUpdate) (σ : Store)
  : option EngineError * Store :=
  match σ !! run_id with
  | None => (Some RunNotFoundError, σ)
  | Some cp =>
      (None, <[run_id := mkCheckpoint (merge (values cp) update) (next cp)]> σ)
  end.

(** Modelled from the spec: [supply_review] writes the External Review
    Record ([update_state(config, {"human_review": human_review})]). *)
Definition supply_review (run_id : string) (review : HumanReview.t)
    (σ : Store) : option EngineError * Store :=
  update_state run_id (mkUpdate None None (Some review) None None None) σ.

End Engine.

(** ** graph.py *)

Module Graph.
Import Engine.

(** [for message in messages: state.add_log(message)] *)
Fixpoint add_log_each (messages : list string) (state : AgentState.t)
  : Py AgentState.t :=
  match messages with
  | [] => ret state
  | message :: rest =>
      let* state := AgentState.add_log message state in
      add_log_each rest state
  end.

Definition analyze_node (state : AgentState.t) : Py StateUpdate :=
  let request := AgentState.request state in
  let* state :=
    AgentState.add_log
      ("Analyzing request " +:+ ExceptionRequest.request_id request) state in
  let* config := global HITL_CONFIG in
  let decision := AnalysisService.analyze_exception_request config request in
  let* state :=
    AgentState.add_log
      ("Analysis complete: recommend_approve="
         +:+ str_of_bool (AgentDecision.should_approve decision)) state in
  let* state :=
    AgentState.add_log
      ("Requires human approval: "
         +:+ str_of_bool (AgentDecision.requires_human_approval decision))
      state in
  let* state :=
    if AgentDecision.requires_human_approval decision then
      add_log_each
        (map (λ reason, "  → " +:+ reason)
           (AgentDecision.approval_reasons decision))
        state
    else ret state in
  ret {| upd_status :=
           Some (if AgentDecision.requires_human_approval decision
                 then RequestStatus.PENDING_APPROVAL
                 else RequestStatus.APPROVED);
         upd_decision := Some decision;
         upd_human_review := None;
         upd_final_amount := None;
         upd_result_message := None;
         upd_processing_log := Some (AgentState.processing_log state) |}.

Definition human_review_node (state : AgentState.t) : Py StateUpdate :=
  let* state := AgentState.add_log "Awaiting human review..." state in
  let* decision := AgentState.decision_attr state "recommended_amount" in
  let* state :=
    AgentState.add_log
      ("Recommended amount: $"
         +:+ fmt_2f (AgentDecision.recommended_amount decision)) state in
  let* decision := AgentState.decision_attr state "should_approve" in
  let* state :=
    AgentState.add_log
      ("Agent recommendation: "
         +:+ (if AgentDecision.should_approve decision
              then "APPROVE" else "REJECT")) state in
  ret {| upd_status := None;
         upd_decision := None;
         upd_human_review := None;
         upd_final_amount := None;
         upd_result_message := None;
         upd_processing_log := Some (AgentState.processing_log state) |}.

Definition process_review_node (state : AgentState.t) : Py StateUpdate :=
  match AgentState.human_review state with
  | None =>
      let* state := AgentState.add_log "ERROR: No human review found" state in
      ret {| upd_status := Some RequestStatus.FAILED;
             upd_decision := None;
             upd_human_review := None;
             upd_final_amount := None;
             upd_result_message :=
               Some (Some "Human review was required but not provided");
             upd_processing_log := Some (AgentState.processing_log state) |}
  | Some review =>
      let* state :=
        AgentState.add_log
          ("Human review received from " +:+ HumanReview.reviewer_id review)
          state in
      let* state :=
        AgentState.add_log
          ("Decision: "
             +:+ (if HumanReview.approved review
                  then "APPROVED" else "REJECTED")) state in
      if HumanReview.approved review then
        (* review.adjusted_amount or state.decision.recommended_amount *)
        let* final_amount :=
          py_or_else (HumanReview.adjusted_amount review)
            (let* decision :=
               AgentState.decision_attr state "recommended_amount" in
             ret (AgentDecision.recommended_amount decision)) in
        let* state :=
          AgentState.add_log
            ("Final approved amount: $" +:+ fmt_2f final_amount) state in
        let* state :=
          match HumanReview.notes review with
          | Some notes =>
              if truth notes
              then AgentState.add_log ("Reviewer notes: " +:+ notes) state
              else ret state
          | None => ret state
          end in
        ret {| upd_status := Some RequestStatus.APPROVED;
               upd_decision := None;
               upd_human_review := None;
               upd_final_amount := Some final_amount;
               upd_result_message := None;
               upd_processing_log := Some (AgentState.processing_log state) |}
      else
        let* state :=
          AgentState.add_log
            ("Rejection reason: "
               +:+ py_or (HumanReview.notes review) "No reason provided")
            state in
        ret {| upd_status := Some RequestStatus.REJECTED;
               upd_decision := None;
               upd_human_review := None;
               upd_final_amount := None;
               upd_result_message :=
                 Some (Some ("Request rejected by "
                               +:+ HumanReview.reviewer_id review +:+ ": "
                               +:+ py_or (HumanReview.notes review)
                                     "No reason provided"));
               upd_processing_log := Some (AgentState.processing_log state) |}
  end.

(** [execute_node], lines 229-253: the call of the payment service for the
    exception type. The source ends the chain with an [else] that builds
    [unknown_exception_type]; every member of [ExceptionType] is taken by a
    branch before it. *)
Definition perform_action (request : ExceptionRequest.t) (final_amount : float)
    (approved_by : option string) : Py dict :=
  let order_id := Order.order_id (ExceptionRequest.order request) in
  let reason := ExceptionRequest.reason request in
  match ExceptionRequest.exception_type request with
  | ExceptionType.REFUND =>
      PaymentService.process_refund order_id final_amount reason approved_by
  | ExceptionType.CANCELLATION =>
      PaymentService.cancel_order order_id reason approved_by
  | ExceptionType.PRICE_ADJUSTMENT =>
      PaymentService.apply_price_adjustment order_id final_amount reason
        approved_by
  end.

(** The dict of that last [else], for an exception type printed as [ty]. *)
Definition unknown_exception_type (ty : string) : dict :=
  [("success", VBool false);
   ("error", VStr ("Unknown exception type: " +:+ ty))].

(** [execute_node], lines 255-270: the result of the action enters the
    state. *)
Definition log_result (state : AgentState.t) (final_amount : float)
    (result : dict) : Py StateUpdate :=
  if truth (dict_get result "success") then
    let* state :=
      AgentState.add_log
        ("Action completed successfully: "
           +:+ str_of_opt_str (dict_get_str result "message")) state in
    ret {| upd_status := Some RequestStatus.COMPLETED;
           upd_decision := None;
           upd_human_review := None;
           upd_final_amount := Some final_amount;
           upd_result_message := Some (dict_get_str result "message");
           upd_processing_log := Some (AgentState.processing_log state) |}
  else
    let* state :=
      AgentState.add_log
        ("Action failed: " +:+ str_of_opt_str (dict_get_str result "error"))
        state in
    ret {| upd_status := Some RequestStatus.FAILED;
           upd_decision := None;
           upd_human_review := None;
           upd_final_amount := None;
           upd_result_message := Some (dict_get_str result "error");
           upd_processing_log := Some (AgentState.processing_log state) |}.

Definition execute_node (state : AgentState.t) : Py StateUpdate :=
  let request := AgentState.request state in
  (* state.final_amount or state.decision.recommended_amount *)
  let* final_amount :=
    py_or_else (AgentState.final_amount state)
      (let* decision := AgentState.decision_attr state "recommended_amount" in
       ret (AgentDecision.recommended_amount decision)) in
  let approved_by :=
    match AgentState.human_review state with
    | Some review => Some (HumanReview.reviewer_id review)
    | None => None
    end in
  let* state :=
    AgentState.add_log
      ("Executing "
         +:+ ExceptionType.value (ExceptionRequest.exception_type request)
         +:+ " for $" +:+ fmt_2f final_amount) state in
  let* result := perform_action request final_amount approved_by in
  log_result state final_amount result.

Definition rejected_node (state : AgentState.t) : Py StateUpdate :=
  let* state :=
    AgentState.add_log "Request rejected - no action taken" state in
  let* state :=
    AgentState.add_log
      ("Final status: " +:+ RequestStatus.value (AgentState.status state))
      state in
  ret {| upd_status := None;
         upd_decision := None;
         upd_human_review := None;
         upd_final_amount := None;
         upd_result_message := None;
         upd_processing_log := Some (AgentState.processing_log state) |}.

Definition route_after_analysis (state : AgentState.t) : string :=
  match AgentState.decision state with
  | Some decision =>
      if AgentDecision.requires_human_approval decision
      then "human_review" else "execute"
  | None => "execute"
  end.

Definition route_after_review (state : AgentState.t) : string :=
  match AgentState.human_review state with
  | Some review => if HumanReview.approved review then "execute" else "rejected"
  | None => "rejected"
  end.

Definition create_exception_graph : StateGraph :=
  let builder := empty_graph in
  let builder := add_node "analyze" analyze_node builder in
  let builder := add_node "human_review" human_review_node builder in
  let builder := add_node "process_review" process_review_node builder in
  let builder := add_node "execute" execute_node builder in
  let builder := add_node "rejected" rejected_node builder in
  let builder := add_edge START "analyze" builder in
  let builder :=
    add_conditional_edges "analyze" route_after_analysis
      [("human_review", "human_review"); ("execute", "execute")] builder in
  let builder := add_edge "human_review" "process_review" builder in
  let builder :=
    add_conditional_edges "process_review" route_after_review
      [("execute", "execute"); ("rejected", "rejected")] builder in
  let builder := add_edge "execute" END builder in
  let builder := add_edge "rejected" END builder in
  builder.

(** The compiled graph and a fresh, empty checkpointer. *)
Definition compile_graph_with_hitl : CompiledGraph * Store :=
  let builder := create_exception_graph in
  let checkpointer : Store := ∅ in
  let graph := mkCompiled builder ["human_review"] in
  (graph, checkpointer).

Definition get_graph : CompiledGraph := compile_graph_with_hitl.1.
End Graph.

(** ** main.py: the demos *)

Module Main.
Import Engine Graph.

(** The demos read the wall clock and draw a thread identifier from [uuid4];
    here the clock and the generator are fixed and the identifier is an
    argument. *)
Definition demo_clock (k : nat) : datetime.t :=
  datetime.mk 2024 3 2 10 (5 + Z.of_nat k `div` 60) (Z.of_nat k `mod` 60) 0.

Definition demo_rng (k : nat) : Z := (12345 + Z.of_nat k)%Z.

(** The world once the package is imported. *)
Definition demo_world : World :=
  (MockDatabase.load (boot demo_clock demo_rng)).2.

Definition fuel : nat := 10.

(** [get_sample_requests()[index]] *)
Definition sample_request (index : nat) (w : World)
  : option ExceptionRequest.t :=
  match TestData.get_sample_requests w with
  | (Ok requests, _) => requests !! index
  | (Raise _, _) => None
  end.

(** The common shape of the four demos: start the graph on a sample request;
    when a review is given, write it with [update_state] and resume. *)
Definition run_demo (index : nat) (thread_id : string)
    (human_review : option HumanReview.t) (w : World)
  : option (option RunResult * Store * World) :=
  request ← sample_request index w;
  let '(graph, checkpointer) := compile_graph_with_hitl in
  let initial_state := AgentState.initial request in
  let '(paused, σ, w) := start graph fuel thread_id initial_state checkpointer w in
  match human_review with
  | None => Some (paused, σ, w)
  | Some review =>
      let σ := (supply_review thread_id review σ).2 in
      Some (resume graph fuel thread_id σ w)
  end.

(** The reviews the demos supply. *)
Definition review_approve : HumanReview.t :=
  HumanReview.mk "MGR-JANE-001" true None
    (Some "Verified quality issue with photos. Approved for full refund.")
    (demo_clock 0).

Definition review_reject : HumanReview.t :=
  HumanReview.mk "MGR-BOB-002" false None
    (Some "VIP customer - called directly to offer exchange instead. Customer accepted.")
    (demo_clock 0).

Definition review_adjust : HumanReview.t :=
  HumanReview.mk "MGR-CAROL-003" true (Some 35.00%float)
    (Some "Partial price match - only 2 items were actually on sale.")
    (demo_clock 0).

(** An approval whose override is the amount 0.0, and a refund request
    whose requested amount is 0.0. *)
Definition review_zero : HumanReview.t :=
  HumanReview.mk "MGR-CAROL-003" true (Some 0.0%float) None (demo_clock 0).

Definition demo_auto_approve (thread_id : string) (w : World) :=
  run_demo 0 thread_id None w.

Definition demo_hitl_approved (thread_id : string) (w : World) :=
  run_demo 1 thread_id (Some review_approve) w.

Definition demo_hitl_rejected (thread_id : string) (w : World) :=
  run_demo 2 thread_id (Some review_reject) w.

Definition demo_hitl_adjusted (thread_id : string) (w : World) :=
  run_demo 3 thread_id (Some review_adjust) w.

(** The four sample requests, as [sample_request] reads them in [demo_world]. *)
Definition REQ_001 : ExceptionRequest.t :=
  ExceptionRequest.mk "REQ-001"
    (Order.mk "ORD-1001"
       (Customer.mk "CUST-001" "Alice Johnson" "alice@example.com"
          CustomerTier.STANDARD 450.00)
       [OrderItem.mk "SKU-A1" "Basic T-Shirt" 1 29.99]
       29.99 (datetime.sub_days (demo_clock 0) 3))
    ExceptionType.REFUND
    "Item didn't fit as expected, requesting full refund" None.

Definition REQ_002 : ExceptionRequest.t :=
  ExceptionRequest.mk "REQ-002"
    (Order.mk "ORD-1002"
       (Customer.mk "CUST-001" "Alice Johnson" "alice@example.com"
          CustomerTier.STANDARD 450.00)
       [OrderItem.mk "SKU-B1" "Designer Jacket" 1 249.99;
        OrderItem.mk "SKU-B2" "Premium Jeans" 1 89.99]
       339.98 (datetime.sub_days (demo_clock 1) 5))
    ExceptionType.REFUND
    "Quality not as expected, items had loose threads" None.

Definition REQ_003 : ExceptionRequest.t :=
  ExceptionRequest.mk "REQ-003"
    (Order.mk "ORD-1003"
       (Customer.mk "CUST-002" "Bob Smith" "bob@example.com"
          CustomerTier.VIP 15000.00)
       [OrderItem.mk "SKU-C1" "Silk Scarf" 1 75.00]
       75.00 (datetime.sub_days (demo_clock 2) 2))
    ExceptionType.CANCELLATION
    "Changed my mind, found similar item elsewhere" None.

Definition REQ_004 : ExceptionRequest.t :=
  ExceptionRequest.mk "REQ-004"
    (Order.mk "ORD-1004"
       (Customer.mk "CUST-003" "Carol Williams" "carol@example.com"
          CustomerTier.PREFERRED 2500.00)
       [OrderItem.mk "SKU-D1" "Casual Shirt" 2 45.00;
        OrderItem.mk "SKU-D2" "Dress Pants" 1 65.00;
        OrderItem.mk "SKU-D3" "Belt" 1 35.00]
       190.00 (datetime.sub_days (demo_clock 3) 7))
    ExceptionType.PRICE_ADJUSTMENT
    "Saw items on sale a week after purchase, requesting price match"
    (Some 50.00%float).

Definition REQ_zero : ExceptionRequest.t :=
  ExceptionRequest.mk "REQ-005" (ExceptionRequest.order REQ_001)
    ExceptionType.REFUND "Refund of nothing, for the record"
    (Some 0.0%float).

(** The request REQ-001 with 150.00 asked for, and a small refund on an
    order the database does not hold. *)
Definition REQ_001_150 : ExceptionRequest.t :=
  ExceptionRequest.mk "REQ-001" (ExceptionRequest.order REQ_001)
    ExceptionType.REFUND
    "Item didn't fit as expected, requesting full refund"
    (Some 150.00%float).

Definition REQ_unknown_order : ExceptionRequest.t :=
  ExceptionRequest.mk "REQ-006"
    (Order.mk "ORD-9999"
       (Customer.mk "CUST-001" "Alice Johnson" "alice@example.com"
          CustomerTier.STANDARD 450.00)
       [OrderItem.mk "SKU-A1" "Basic T-Shirt" 1 29.99]
       29.99 (demo_clock 0))
    ExceptionType.REFUND "Item didn't fit" None.

(** The checkpoint of a run after its first round, the analysis, and after
    its second. *)
Definition after_analysis (request : ExceptionRequest.t)
  : Step * Checkpoint * World :=
  advance get_graph false
    (mkCheckpoint (AgentState.initial request) "analyze") demo_world.

Definition after_second_round (request : ExceptionRequest.t)
  : Step * Checkpoint * World :=
  advance get_graph false (after_analysis request).1.2
    (after_analysis request).2.

(** The first call of a demo: the graph started on a request, under the
    thread identifier "demo". *)
Definition started (request : ExceptionRequest.t)
  : option RunResult * Store * World :=
  start get_graph fuel "demo" (AgentState.initial request) ∅ demo_world.

(** The second call: the run resumed, after [review] was supplied if there
    is one. *)
Definition resumed (request : ExceptionRequest.t)
    (review : option HumanReview.t) : option RunResult * Store * World :=
  let '(_, σ, w) := started request in
  match review with
  | Some review => resume get_graph fuel "demo" (supply_review "demo" review σ).2 w
  | None => resume get_graph fuel "demo" σ w
  end.

(** The state a call has completed with, and the one it has stored. *)
Definition completed_state (r : option RunResult * Store * World)
  : option AgentState.t :=
  match r.1.1 with
  | Some (Completed state) => Some state
  | _ => None
  end.

Definition stored_state (r : option RunResult * Store * World)
  : option AgentState.t :=
  values <$> r.1.2 !! "demo".

(** The update a node has returned. *)
Definition returned (r : outcome StateUpdate * World) : option StateUpdate :=
  match r.1 with
  | Ok update => Some update
  | Raise _ => None
  end.
End Main.

(** ** Vocabulary of the properties *)

Module Runs.
Import Engine Graph.

(** The checkpoints a run of the compiled workflow can be in: it starts from
    a state that holds only the request, the executor advances it round by
    round, and a review may be written into it between rounds. Worlds are
    arbitrary: any clock, any generator, any database. *)
Inductive reachable : Checkpoint → Prop :=
  | reach_initial (request : ExceptionRequest.t) :
      reachable (mkCheckpoint (AgentState.initial request) "analyze")
  | reach_advance (resuming : bool) (cp cp' : Checkpoint) (w w' : World)
      (step : Step) :
      reachable cp →
      advance get_graph resuming cp w = (step, cp', w') →
      reachable cp'
  | reach_review (review : HumanReview.t) (cp : Checkpoint) :
      reachable cp →
      reachable
        (mkCheckpoint
           (merge (values cp) (mkUpdate None None (Some review) None None None))
           (next cp)).

(** A call made on a run identifier, and the store a sequence of such calls
    leaves. Each [start] and [resume] finds the world as the time since the
    last call has made it. *)
Inductive Call :=
  | Start (fuel : nat) (initial_state : AgentState.t) (w : World)
  | Resume (fuel : nat) (w : World)
  | SupplyReview (review : HumanReview.t).

Definition call (run_id : string) (σ : Store) (c : Call) : Store :=
  match c with
  | Start fuel initial_state w =>
      (start get_graph fuel run_id initial_state σ w).1.2
  | Resume fuel w => (resume get_graph fuel run_id σ w).1.2
  | SupplyReview review => (supply_review run_id review σ).2
  end.

(** A call that goes on with the run it finds, where [start] begins one. *)
Definition continues (c : Call) : bool :=
  match c with
  | Start _ _ _ => false
  | Resume _ _ | SupplyReview _ => true
  end.

(** The length of the log stored under a run identifier. *)
Definition stored_log_length (run_id : string) (σ : Store) : option nat :=
  (λ cp, length (AgentState.processing_log (values cp))) <$> σ !! run_id.

(** The world after [n] more readings of the clock. *)
Definition tick (n : nat) (w : World) : World :=
  mkWorld (clock w) (n + clock_reads w) (rng w) (rng_draws w) (HITL_CONFIG w)
    (_CUSTOMERS w) (_ORDERS w) (payment_calls w).

(** The entry [add_log] makes of [message] at the [k]-th reading of the
    clock from [w] on. *)
Definition stamped (w : World) (k : nat) (message : string) : string :=
  "[" +:+ datetime.strftime_HMS (clock w (k + clock_reads w)) +:+ "] "
    +:+ message.

(** The message of the payment service for an action that succeeded on
    [order]. *)
Definition success_message (request : ExceptionRequest.t) (amount : float)
    (order : Order.t) : string :=
  let order_id := Order.order_id (ExceptionRequest.order request) in
  match ExceptionRequest.exception_type request with
  | ExceptionType.REFUND =>
      "Refund of $" +:+ fmt_2f amount +:+ " processed successfully"
  | ExceptionType.CANCELLATION =>
      "Order " +:+ order_id +:+ " cancelled. Refund of $"
        +:+ fmt_2f (Order.order_total order) +:+ " initiated."
  | ExceptionType.PRICE_ADJUSTMENT =>
      "Price adjustment of $" +:+ fmt_2f amount +:+ " applied to order "
        +:+ order_id
  end.

(** The condition under which the payment service carries out the action of
    a request for [amount]: the order is in the database and, for a price
    adjustment, the amount is not above its total. *)
Definition action_succeeds (w : World) (request : ExceptionRequest.t)
    (amount : float) (order : Order.t) : Prop :=
  _ORDERS w !! Order.order_id (ExceptionRequest.order request) = Some order
  ∧ (ExceptionRequest.exception_type request = ExceptionType.PRICE_ADJUSTMENT →
     PrimFloat.ltb (Order.order_total order) amount = false).

Definition calls (run_id : string) (σ : Store) (cs : list Call) : Store :=
  foldl (call run_id) σ cs.

(** [min(a, b)] of the interpreter: [b] when [b < a], else [a]. *)
Definition py_min (a b : float) : float :=
  if PrimFloat.ltb b a then b else a.

(** The amount a request asks for, in the words of the specification: "the
    requested amount when one is provided, else the full order total". *)
Definition requested_or_total (request : ExceptionRequest.t) : float :=
  match ExceptionRequest.requested_amount request with
  | Some amount => amount
  | None => Order.order_total (ExceptionRequest.order request)
  end.

(** The recommended amount in the words of the specification: the amount
    asked for, capped at 20% of the order total for a price adjustment. *)
Definition recommended_amount_spec (request : ExceptionRequest.t) : float :=
  let amount := requested_or_total request in
  match ExceptionRequest.exception_type request with
  | ExceptionType.PRICE_ADJUSTMENT =>
      py_min amount
        (Order.order_total (ExceptionRequest.order request) * 0.20)%float
  | _ => amount
  end.

(** The final outcome of an approved review in the words of the
    specification: "the override amount if supplied, else the recommended
    amount". *)
Definition final_outcome_spec (review : HumanReview.t)
    (decision : AgentDecision.t) : float :=
  match HumanReview.adjusted_amount review with
  | Some amount => amount
  | None => AgentDecision.recommended_amount decision
  end.

(** A node whose every update carries the log it was given, with entries
    appended. *)
Definition appends_to_log (fn : Node) : Prop :=
  ∀ st w u w',
    fn st w = (Ok u, w') →
    ∃ extra,
      upd_processing_log u = Some (AgentState.processing_log st ++ extra).

(** The statuses at or after approval. *)
Definition approved_or_later (s : RequestStatus.t) : bool :=
  match s with
  | RequestStatus.APPROVED | RequestStatus.COMPLETED | RequestStatus.FAILED =>
      true
  | _ => false
  end.

(** What holds of the final amount in every state of a run: it is set only
    at or after approval, and it is set once the run is [COMPLETED]. *)
Definition final_amount_invariant (st : AgentState.t) : Prop :=
  (is_Some (AgentState.final_amount st) →
   approved_or_later (AgentState.status st) = true)
  ∧ (AgentState.status st = RequestStatus.COMPLETED →
     is_Some (AgentState.final_amount st)).

(** The same, node by node: what a checkpoint satisfies according to the
    node the run is to enter next. *)
Definition run_invariant (cp : Checkpoint) : Prop :=
  let st := values cp in
  (next cp = "analyze"
   ∧ AgentState.final_amount st = None
   ∧ AgentState.status st ≠ RequestStatus.COMPLETED)
  ∨ ((next cp = "human_review" ∨ next cp = "process_review"
      ∨ next cp = "rejected")
     ∧ AgentState.final_amount st = None
     ∧ AgentState.status st ≠ RequestStatus.COMPLETED
     ∧ is_Some (AgentState.decision st))
  ∨ (next cp = "execute"
     ∧ (AgentState.status st = RequestStatus.APPROVED
        ∨ AgentState.status st = RequestStatus.FAILED)
     ∧ is_Some (AgentState.decision st))
  ∨ (next cp = END
     ∧ final_amount_invariant st
     ∧ is_Some (AgentState.decision st)).
End Runs.

(** ** Vocabulary of the contracts of the services and the nodes *)

Module Contracts.
Import Engine Graph.

(** The three checks of the analysis that call for a human, as conditions
    on a request under a configuration. *)
Definition amount_exceeds (cfg : HITLConfigType.t)
    (request : ExceptionRequest.t) : bool :=
  PrimFloat.ltb (HITLConfigType.max_auto_approve_amount cfg)
    (ExceptionRequest.effective_amount request).

Definition vip_handling (cfg : HITLConfigType.t)
    (request : ExceptionRequest.t) : bool :=
  bool_decide
    (Customer.tier (Order.customer (ExceptionRequest.order request))
     = CustomerTier.VIP)
  && HITLConfigType.vip_always_approve cfg.

Definition too_many_items (cfg : HITLConfigType.t)
    (request : ExceptionRequest.t) : bool :=
  (HITLConfigType.multi_item_threshold cfg
   <? Order.item_count (ExceptionRequest.order request))%Z.

(** The call of the payment service that belongs to a request, an amount
    and an approver. *)
Definition expected_call (request : ExceptionRequest.t) (amount : float)
    (approved_by : option string) : PaymentCall :=
  let order_id := Order.order_id (ExceptionRequest.order request) in
  let reason := ExceptionRequest.reason request in
  match ExceptionRequest.exception_type request with
  | ExceptionType.REFUND =>
      call_process_refund order_id amount reason approved_by
  | ExceptionType.CANCELLATION => call_cancel_order order_id reason approved_by
  | ExceptionType.PRICE_ADJUSTMENT =>
      call_apply_price_adjustment order_id amount reason approved_by
  end.

(** The request REQ-001 with a reason that names fraud. *)
Definition REQ_fraud : ExceptionRequest.t :=
  ExceptionRequest.mk "REQ-007" (ExceptionRequest.order Main.REQ_001)
    ExceptionType.REFUND "Unauthorized charge on my card, possible fraud" None.

(** The error of reading an attribute off [None]. *)
Definition no_attribute (attr : string) : exn :=
  AttributeError ("'NoneType' object has no attribute '" +:+ attr +:+ "'").

(** A computation that ended in an [AttributeError]. *)
Definition raises_attribute_error {A} (r : outcome A * World) : Prop :=
  ∃ msg w', r = (Raise (AttributeError msg), w').

(** A computation that returned. *)
Definition returns {A} (r : outcome A * World) : Prop :=
  ∃ a w', r = (Ok a, w').

Definition has_decision (st : AgentState.t) : bool :=
  match AgentState.decision st with Some _ => true | None => false end.

(** [amount or state.decision.recommended_amount] has nothing to fall back
    on: the amount is absent or zero and no decision is attached. *)
Definition unsettled (amount : option float) (st : AgentState.t) : bool :=
  negb (truth amount) && negb (has_decision st).

(** An approving review whose amount is unsettled. *)
Definition approval_unsettled (st : AgentState.t) : bool :=
  match AgentState.human_review st with
  | Some review =>
      HumanReview.approved review
      && unsettled (HumanReview.adjusted_amount review) st
  | None => false
  end.

(** The module-level data of two worlds agree. *)
Definition same_data (w w' : World) : Prop :=
  HITL_CONFIG w' = HITL_CONFIG w
  ∧ _CUSTOMERS w' = _CUSTOMERS w
  ∧ _ORDERS w' = _ORDERS w.

(** What the node registered under [name] leaves alone, whether it returns
    or raises: the configuration and the database; the calls made to the
    payment service so far, to which only "execute" adds; the review; and the
    decision, which only "analyze" writes. *)
Definition keeps_frame (name : string) (fn : Node) : Prop :=
  ∀ st w,
    same_data w (fn st w).2
    ∧ payment_calls w `prefix_of` payment_calls (fn st w).2
    ∧ (name ≠ "execute" → payment_calls (fn st w).2 = payment_calls w)
    ∧ ∀ u, (fn st w).1 = Ok u →
        upd_human_review u = None
        ∧ (name ≠ "analyze" → upd_decision u = None).

(** The world with another configuration in place of [HITL_CONFIG], as
    after an assignment to its keys. *)
Definition with_config (cfg : HITLConfigType.t) (w : World) : World :=
  mkWorld (clock w) (clock_reads w) (rng w) (rng_draws w) cfg
    (_CUSTOMERS w) (_ORDERS w) (payment_calls w).

(** A computation that runs the same under every configuration, and leaves
    the configuration as it is. *)
Definition config_blind {A} (m : Py A) : Prop :=
  ∀ cfg w, m (with_config cfg w) = ((m w).1, with_config cfg (m w).2).

(** A configuration that lets every amount through. *)
Definition lenient_config : HITLConfigType.t :=
  {| HITLConfigType.max_auto_approve_amount := 1000000.00;
     HITLConfigType.vip_always_approve := false;
     HITLConfigType.multi_item_threshold := 100 |}.

(** A call of the executor that came back with a result within its fuel. *)
Definition stops (r : option RunResult * Store * World) : Prop :=
  is_Some r.1.1.

(** Where a run stands, read off its status: what a checkpoint of the
    compiled workflow satisfies according to the node it is to enter next. *)
Definition status_invariant (cp : Checkpoint) : Prop :=
  let st := values cp in
  (next cp = "analyze" ∧ AgentState.status st = RequestStatus.RECEIVED)
  ∨ ((next cp = "human_review" ∨ next cp = "process_review")
     ∧ AgentState.status st = RequestStatus.PENDING_APPROVAL
     ∧ is_Some (AgentState.decision st))
  ∨ (next cp = "rejected"
     ∧ (AgentState.status st = RequestStatus.REJECTED
        ∨ AgentState.status st = RequestStatus.FAILED))
  ∨ (next cp = "execute"
     ∧ AgentState.status st = RequestStatus.APPROVED
     ∧ is_Some (AgentState.decision st))
  ∨ (next cp = END
     ∧ (AgentState.status st = RequestStatus.COMPLETED
        ∨ AgentState.status st = RequestStatus.FAILED
        ∨ AgentState.status st = RequestStatus.REJECTED)).
End Contracts.

(** * Properties *)

Import Engine Graph Runs.

(** ** The model on the samples of the source *)

Example fmt_2f_examples :
  map fmt_2f [29.99; 339.98; 38; 0.125; 0.375; (-0.001); 100; 0; 2.675]%float
  = ["29.99"; "339.98"; "38.00"; "0.12"; "0.38"; "-0.00"; "100.00"; "0.00";
     "2.67"].
Proof. vm_compute. reflexivity. Qed.

Example sub_days_examples :
  datetime.sub_days (datetime.mk 2024 3 2 10 5 7 0) 3
  = datetime.mk 2024 2 28 10 5 7 0
  ∧ datetime.sub_days (datetime.mk 2023 1 1 0 0 0 12) 7
    = datetime.mk 2022 12 25 0 0 0 12
  ∧ datetime.isoformat (datetime.mk 2023 1 1 9 0 0 12)
    = "2023-01-01T09:00:00.000012".
Proof. vm_compute. done. Qed.

Example str_in_examples :
  str_in "fraud" (lower "Possible FRAUD on card") = true
  ∧ str_in "fraud" (lower "Item did not fit") = false
  ∧ str_in "" "" = true.
Proof. vm_compute. done. Qed.

(** [lower] follows the interpreter beyond ASCII: the Kelvin sign U+212A is
    lowered to the letter k, so a reason spelled with it is caught; U+0130
    becomes two code points; a capital sigma at the end of a word becomes the
    final sigma. *)
Example lower_examples :
  lower "Possible FRAUD on card" = "possible fraud on card"
  ∧ lower "CHARGEBACK" = "chargeback"
  ∧ lower "ÉCOLE İstanbul ΟΔΟΣ ΣΑΣ" = "école i̇stanbul οδος σας"
  ∧ AnalysisService._analyze_request_reason "CHARGEBACK filed by the bank"
    = (true, Some "Request contains concerning keyword: 'chargeback'").
Proof. vm_compute. done. Qed.

Example sample_requests_read :
  Main.sample_request 0 Main.demo_world = Some Main.REQ_001
  ∧ Main.sample_request 1 Main.demo_world = Some Main.REQ_002
  ∧ Main.sample_request 2 Main.demo_world = Some Main.REQ_003
  ∧ Main.sample_request 3 Main.demo_world = Some Main.REQ_004.
Proof. vm_compute. done. Qed.

(** Demo 1: 29.99, standard tier, one item; no pause, [COMPLETED] with the
    final amount 29.99. *)
Example demo_auto_approve_completes :
  (λ r, (AgentState.status <$> Main.completed_state r,
         Main.completed_state r ≫= AgentState.final_amount,
         Main.completed_state r ≫= AgentState.result_message))
    <$> Main.demo_auto_approve "demo" Main.demo_world
  = Some (Some RequestStatus.COMPLETED, Some 29.99%float,
          Some "Refund of $29.99 processed successfully").
Proof. vm_compute. reflexivity. Qed.

(** Demo 2: 339.98 is above the threshold; the run pauses, and once approved
    with no override it completes with the recommended amount. *)
Example demo_hitl_approved_completes :
  (Main.started Main.REQ_002).1.1 = Some (Paused "human_review")
  ∧ (AgentDecision.approval_reasons <$>
       (Main.stored_state (Main.started Main.REQ_002) ≫= AgentState.decision))
    = Some ["Amount $339.98 exceeds auto-approve limit of $100.00"]
  ∧ (λ r, (AgentState.status <$> Main.completed_state r,
           Main.completed_state r ≫= AgentState.final_amount))
      <$> Main.demo_hitl_approved "demo" Main.demo_world
    = Some (Some RequestStatus.COMPLETED, Some 339.98%float).
Proof. vm_compute. done. Qed.

(** Demo 3: the manager rejects; [REJECTED], and no call of the payment
    service. *)
Example demo_hitl_rejected_completes :
  (λ r, (AgentState.status <$> Main.completed_state r, payment_calls r.2))
    <$> Main.demo_hitl_rejected "demo" Main.demo_world
  = Some (Some RequestStatus.REJECTED, []).
Proof. vm_compute. reflexivity. Qed.

(** Demo 4: the recommended 38.00 (20% of 190.00) is overridden by 35.00. *)
Example demo_hitl_adjusted_completes :
  (AgentDecision.recommended_amount <$>
     (Main.stored_state (Main.started Main.REQ_004) ≫= AgentState.decision))
  = Some 38.0%float
  ∧ (λ r, (AgentState.status <$> Main.completed_state r,
           Main.completed_state r ≫= AgentState.final_amount,
           payment_calls r.2))
      <$> Main.demo_hitl_adjusted "demo" Main.demo_world
    = Some (Some RequestStatus.COMPLETED, Some 35.0%float,
            [call_apply_price_adjustment "ORD-1004" 35.0
               "Saw items on sale a week after purchase, requesting price match"
               (Some "MGR-CAROL-003")]).
Proof. vm_compute. done. Qed.

(** ** The effect monad *)

Lemma bind_Ok {A B} (m : Py A) (k : A → Py B) w a w' :
  m w = (Ok a, w') → bind m k w = k a w'.
Proof. intros H. unfold bind. rewrite H. reflexivity. Qed.

Lemma bind_Raise {A B} (m : Py A) (k : A → Py B) w e w' :
  m w = (Raise e, w') → bind m k w = (Raise e, w').
Proof. intros H. unfold bind. rewrite H. reflexivity. Qed.

(** Symbolic execution of a node body: the monad, the record projections and
    the string literals compute; the formatting of numbers and dates, the
    analysis and the payment service stay folded. *)
Ltac py_exec :=
  cbn -[fmt_2f datetime.strftime_HMS String.append pretty
        AnalysisService.analyze_exception_request perform_action log_result
        add_log_each py_or_else].

Ltac py_exec_in H :=
  cbn -[fmt_2f datetime.strftime_HMS String.append pretty
        AnalysisService.analyze_exception_request perform_action log_result
        add_log_each py_or_else] in H.

(** ** The log *)

Lemma set_processing_log_id st :
  AgentState.set_processing_log st (AgentState.processing_log st ++ []) = st.
Proof. destruct st. cbn. by rewrite app_nil_r. Qed.

Lemma add_log_each_ok messages : ∀ st w,
  ∃ extra w',
    add_log_each messages st w
    = (Ok (AgentState.set_processing_log st
             (AgentState.processing_log st ++ extra)), w')
    ∧ length extra = length messages
    ∧ payment_calls w' = payment_calls w.
Proof.
  induction messages as [|message rest IH]; intros st w.
  - exists [], w. cbn. by rewrite set_processing_log_id.
  - cbn [add_log_each]. unfold bind at 1. py_exec.
    match goal with
    | |- context [add_log_each rest ?s ?v] =>
        destruct (IH s v) as (extra & w' & E & Hlen & Hcalls)
    end.
    rewrite E. eexists (_ :: extra), w'. split; [|split].
    + destruct st. cbn. rewrite <- app_assoc. reflexivity.
    + cbn. by rewrite Hlen.
    + exact Hcalls.
Qed.

(** ** The nodes, one by one *)

Lemma analyze_node_eq st w :
  let d := AnalysisService.analyze_exception_request (HITL_CONFIG w)
             (AgentState.request st) in
  ∃ extra w',
    analyze_node st w
    = (Ok (mkUpdate
             (Some (if AgentDecision.requires_human_approval d
                    then RequestStatus.PENDING_APPROVAL
                    else RequestStatus.APPROVED))
             (Some d) None None None
             (Some (AgentState.processing_log st ++ extra))), w')
    ∧ extra ≠ []
    ∧ payment_calls w' = payment_calls w.
Proof.
  intros d. unfold analyze_node. py_exec. fold d.
  destruct (AgentDecision.requires_human_approval d).
  - match goal with
    | |- context [bind (add_log_each ?m ?s) ?k ?v] =>
        destruct (add_log_each_ok m s v) as (extra & w' & E & _ & Hcalls);
        rewrite (bind_Ok _ k _ _ _ E)
    end.
    py_exec. eexists _, w'. split; [|split].
    + rewrite <- !app_assoc. reflexivity.
    + discriminate.
    + exact Hcalls.
  - py_exec. eexists _, _. split; [|split].
    + rewrite <- !app_assoc. reflexivity.
    + discriminate.
    + reflexivity.
Qed.

Lemma human_review_node_eq st w d :
  AgentState.decision st = Some d →
  ∃ extra w',
    human_review_node st w
    = (Ok (mkUpdate None None None None None
             (Some (AgentState.processing_log st ++ extra))), w')
    ∧ payment_calls w' = payment_calls w.
Proof.
  intros Hd. destruct st as [rq s dec hr fa rm lg]. cbn in Hd. subst dec.
  unfold human_review_node. py_exec. eexists _, _. split.
  - rewrite <- !app_assoc. reflexivity.
  - reflexivity.
Qed.

Lemma human_review_node_raises st w :
  AgentState.decision st = None →
  ∃ e w', human_review_node st w = (Raise e, w').
Proof.
  intros Hd. destruct st as [rq s dec hr fa rm lg]. cbn in Hd. subst dec.
  unfold human_review_node. py_exec. by eexists _, _.
Qed.

Lemma rejected_node_eq st w :
  ∃ extra w',
    rejected_node st w
    = (Ok (mkUpdate None None None None None
             (Some (AgentState.processing_log st ++ extra))), w')
    ∧ payment_calls w' = payment_calls w.
Proof.
  unfold rejected_node. py_exec. eexists _, _. split.
  - rewrite <- !app_assoc. reflexivity.
  - reflexivity.
Qed.

(** [process_review_node] without a review. *)
Lemma process_review_missing st w :
  AgentState.human_review st = None →
  ∃ extra w',
    process_review_node st w
    = (Ok (mkUpdate (Some RequestStatus.FAILED) None None None
             (Some (Some "Human review was required but not provided"))
             (Some (AgentState.processing_log st ++ extra))), w')
    ∧ payment_calls w' = payment_calls w.
Proof.
  intros Hr. destruct st as [rq s dec hr fa rm lg]. cbn in Hr. subst hr.
  unfold process_review_node. py_exec. eexists _, _. split; reflexivity.
Qed.

(** [process_review_node] on a rejection. *)
Lemma process_review_rejected st w review :
  AgentState.human_review st = Some review →
  HumanReview.approved review = false →
  ∃ extra w',
    process_review_node st w
    = (Ok (mkUpdate (Some RequestStatus.REJECTED) None None None
             (Some (Some ("Request rejected by "
                            +:+ HumanReview.reviewer_id review +:+ ": "
                            +:+ py_or (HumanReview.notes review)
                                  "No reason provided")))
             (Some (AgentState.processing_log st ++ extra))), w')
    ∧ payment_calls w' = payment_calls w.
Proof.
  intros Hr Ha. destruct st as [rq s dec hr fa rm lg]. cbn in Hr. subst hr.
  unfold process_review_node. py_exec. rewrite Ha. py_exec.
  eexists _, _. split.
  - rewrite <- !app_assoc. reflexivity.
  - reflexivity.
Qed.

(** The amount [process_review_node] and [execute_node] settle on:
    [amount or decision.recommended_amount]. *)
Lemma py_or_else_recommended (amount : option float) st d w :
  AgentState.decision st = Some d →
  py_or_else amount
    (let* decision := AgentState.decision_attr st "recommended_amount" in
     ret (AgentDecision.recommended_amount decision)) w
  = (Ok (py_or amount (AgentDecision.recommended_amount d)), w).
Proof.
  intros Hd. unfold py_or_else, py_or, AgentState.decision_attr.
  rewrite Hd. destruct amount as [x|]; [destruct (truth x)|]; reflexivity.
Qed.

(** [process_review_node] on an approval, when the amount can be settled:
    the override is truthy or a decision is attached. *)
Lemma process_review_approved st w review amount :
  AgentState.human_review st = Some review →
  HumanReview.approved review = true →
  (∀ v, py_or_else (HumanReview.adjusted_amount review)
          (let* decision := AgentState.decision_attr st "recommended_amount" in
           ret (AgentDecision.recommended_amount decision)) v
        = (Ok amount, v)) →
  ∃ extra w',
    process_review_node st w
    = (Ok (mkUpdate (Some RequestStatus.APPROVED) None None (Some amount) None
             (Some (AgentState.processing_log st ++ extra))), w')
    ∧ payment_calls w' = payment_calls w.
Proof.
  intros Hr Ha Hamt.
  assert (Hamt' : ∀ st' v,
    AgentState.decision st' = AgentState.decision st →
    py_or_else (HumanReview.adjusted_amount review)
      (let* decision := AgentState.decision_attr st' "recommended_amount" in
       ret (AgentDecision.recommended_amount decision)) v
    = (Ok amount, v)).
  { intros st' v Hst'. rewrite <- (Hamt v).
    unfold AgentState.decision_attr. by rewrite Hst'. }
  clear Hamt.
  destruct st as [rq s dec hr fa rm lg]. cbn in Hr. subst hr.
  unfold process_review_node. py_exec. rewrite Ha. py_exec.
  match goal with
  | |- context [bind (py_or_else _ (bind (AgentState.decision_attr ?s' _) _))
                  ?k ?v] =>
      rewrite (bind_Ok _ k v _ _ (Hamt' s' v eq_refl))
  end.
  py_exec.
  destruct (HumanReview.notes review) as [notes|];
    [destruct (truth notes)|]; py_exec;
    (eexists _, _; split; [rewrite <- !app_assoc; reflexivity | reflexivity]).
Qed.

(** [process_review_node] raises only when it needs the recommended amount
    and no decision is attached. *)
Lemma process_review_raises st w e w' :
  process_review_node st w = (Raise e, w') →
  AgentState.decision st = None.
Proof.
  destruct (AgentState.decision st) as [d|] eqn:Hd; [|done].
  intros H. exfalso.
  destruct (AgentState.human_review st) as [review|] eqn:Hr.
  - destruct (HumanReview.approved review) eqn:Ha.
    + destruct (process_review_approved st w review
                  (py_or (HumanReview.adjusted_amount review)
                     (AgentDecision.recommended_amount d)) Hr Ha)
        as (? & ? & E & _).
      { intros v. by apply py_or_else_recommended. }
      congruence.
    + destruct (process_review_rejected st w review Hr Ha) as (? & ? & E & _).
      congruence.
  - destruct (process_review_missing st w Hr) as (? & ? & E & _). congruence.
Qed.

(** ** The payment service never raises *)

Lemma perform_action_ok request amount approved_by w :
  ∃ result w' call,
    perform_action request amount approved_by w = (Ok result, w')
    ∧ payment_calls w' = payment_calls w ++ [call].
Proof.
  unfold perform_action.
  destruct (ExceptionRequest.exception_type request);
    unfold PaymentService.process_refund, PaymentService.cancel_order,
      PaymentService.apply_price_adjustment;
    py_exec;
    destruct (_ORDERS w !! _) as [order|]; py_exec;
    try (destruct (PrimFloat.ltb _ _); py_exec);
    by eexists _, _, _.
Qed.

Lemma log_result_eq st amount result w :
  ∃ extra w',
    log_result st amount result w
    = (Ok (if truth (dict_get result "success")
           then mkUpdate (Some RequestStatus.COMPLETED) None None (Some amount)
                  (Some (dict_get_str result "message"))
                  (Some (AgentState.processing_log st ++ extra))
           else mkUpdate (Some RequestStatus.FAILED) None None None
                  (Some (dict_get_str result "error"))
                  (Some (AgentState.processing_log st ++ extra))), w')
    ∧ payment_calls w' = payment_calls w.
Proof.
  unfold log_result. destruct (truth (dict_get result "success"));
    py_exec; by eexists [_], _.
Qed.

(** [execute_node] when the amount can be settled. *)
Lemma execute_node_eq st w amount :
  (∀ v, py_or_else (AgentState.final_amount st)
          (let* decision := AgentState.decision_attr st "recommended_amount" in
           ret (AgentDecision.recommended_amount decision)) v
        = (Ok amount, v)) →
  ∃ result extra w0 w1 w' call,
    perform_action (AgentState.request st) amount
      (HumanReview.reviewer_id <$> AgentState.human_review st) w0
    = (Ok result, w1)
    ∧ payment_calls w0 = payment_calls w
    ∧ _ORDERS w0 = _ORDERS w
    ∧ payment_calls w' = payment_calls w ++ [call]
    ∧ execute_node st w
      = (Ok (if truth (dict_get result "success")
             then mkUpdate (Some RequestStatus.COMPLETED) None None
                    (Some amount) (Some (dict_get_str result "message"))
                    (Some (AgentState.processing_log st ++ extra))
             else mkUpdate (Some RequestStatus.FAILED) None None None
                    (Some (dict_get_str result "error"))
                    (Some (AgentState.processing_log st ++ extra))), w').
Proof.
  intros Hamt. unfold execute_node.
  rewrite (bind_Ok _ _ w _ _ (Hamt w)).
  py_exec.
  match goal with
  | |- context [bind (perform_action ?r ?a ?b) ?k ?v] =>
      destruct (perform_action_ok r a b v) as (result & w1 & call & E & Hc);
      rewrite (bind_Ok _ k v _ _ E)
  end.
  match goal with
  | |- context [log_result ?s ?a ?r ?v] =>
      destruct (log_result_eq s a r v) as (extra & w' & E' & Hc')
  end.
  rewrite E'. exists result. eexists _, _, w1, w', call.
  split; [|split; [|split; [|split]]].
  - destruct (AgentState.human_review st); exact E.
  - reflexivity.
  - reflexivity.
  - rewrite Hc', Hc. reflexivity.
  - destruct (truth (dict_get result "success")); py_exec;
      rewrite <- !app_assoc; reflexivity.
Qed.

(** The amount is settled, or the attribute access raises: the second
    happens only when the first operand is falsy and no decision is
    attached. *)
Lemma settle_cases (amount : option float) st :
  (∃ x, ∀ v,
     py_or_else amount
       (let* decision := AgentState.decision_attr st "recommended_amount" in
        ret (AgentDecision.recommended_amount decision)) v
     = (Ok x, v))
  ∨ (AgentState.decision st = None
     ∧ ∃ e, ∀ v,
       py_or_else amount
         (let* decision := AgentState.decision_attr st "recommended_amount" in
          ret (AgentDecision.recommended_amount decision)) v
       = (Raise e, v)).
Proof.
  destruct (AgentState.decision st) as [d|] eqn:Hd.
  - left. eexists. intros v. by apply py_or_else_recommended.
  - unfold py_or_else, AgentState.decision_attr. rewrite Hd.
    destruct amount as [x|]; [destruct (truth x) eqn:Hx|].
    + left. by exists x.
    + right. split; [done|]. by eexists.
    + right. split; [done|]. by eexists.
Qed.

Lemma execute_node_raises st w e w' :
  execute_node st w = (Raise e, w') → AgentState.decision st = None.
Proof.
  intros H. destruct (settle_cases (AgentState.final_amount st) st)
    as [[x Hx]|[Hd _]]; [|done].
  destruct (execute_node_eq st w x Hx) as (?&?&?&?&?&?&_&_&_&_&E).
  congruence.
Qed.

(** Every update [process_review_node] can return. *)
Lemma process_review_inv st w u w' :
  process_review_node st w = (Ok u, w') →
  payment_calls w' = payment_calls w
  ∧ ∃ extra,
      (AgentState.human_review st = None
       ∧ u = mkUpdate (Some RequestStatus.FAILED) None None None
               (Some (Some "Human review was required but not provided"))
               (Some (AgentState.processing_log st ++ extra)))
      ∨ (∃ review amount,
           AgentState.human_review st = Some review
           ∧ HumanReview.approved review = true
           ∧ (∀ v, py_or_else (HumanReview.adjusted_amount review)
                     (let* decision :=
                        AgentState.decision_attr st "recommended_amount" in
                      ret (AgentDecision.recommended_amount decision)) v
                   = (Ok amount, v))
           ∧ u = mkUpdate (Some RequestStatus.APPROVED) None None (Some amount)
                   None (Some (AgentState.processing_log st ++ extra)))
      ∨ (∃ review,
           AgentState.human_review st = Some review
           ∧ HumanReview.approved review = false
           ∧ u = mkUpdate (Some RequestStatus.REJECTED) None None None
                   (Some (Some ("Request rejected by "
                                  +:+ HumanReview.reviewer_id review +:+ ": "
                                  +:+ py_or (HumanReview.notes review)
                                        "No reason provided")))
                   (Some (AgentState.processing_log st ++ extra))).
Proof.
  intros H.
  destruct (AgentState.human_review st) as [review|] eqn:Hr.
  - destruct (HumanReview.approved review) eqn:Ha.
    + destruct (settle_cases (HumanReview.adjusted_amount review) st)
        as [[x Hx]|[Hd [e He]]].
      * destruct (process_review_approved st w review x Hr Ha Hx)
          as (extra & w2 & E & Hc).
        rewrite E in H. injection H as <- <-. split; [done|].
        exists extra. right. left. by exists review, x.
      * exfalso. revert H.
        destruct st as [rq s dec hr fa rm lg]. cbn in Hr, Hd. subst hr dec.
        unfold process_review_node. py_exec. rewrite Ha. py_exec.
        match goal with
        | |- context [bind (py_or_else _ _) ?k ?v] =>
            rewrite (bind_Raise _ k v e v)
        end; [done|].
        rewrite <- (He _). reflexivity.
    + destruct (process_review_rejected st w review Hr Ha)
        as (extra & w2 & E & Hc).
      rewrite E in H. injection H as <- <-. split; [done|].
      exists extra. right. right. by exists review.
  - destruct (process_review_missing st w Hr) as (extra & w2 & E & Hc).
    rewrite E in H. injection H as <- <-. split; [done|].
    exists extra. by left.
Qed.

(** Every update [execute_node] can return. *)
Lemma execute_node_inv st w u w' :
  execute_node st w = (Ok u, w') →
  ∃ amount result extra call,
    payment_calls w' = payment_calls w ++ [call]
    ∧ u = (if truth (dict_get result "success")
           then mkUpdate (Some RequestStatus.COMPLETED) None None
                  (Some amount) (Some (dict_get_str result "message"))
                  (Some (AgentState.processing_log st ++ extra))
           else mkUpdate (Some RequestStatus.FAILED) None None None
                  (Some (dict_get_str result "error"))
                  (Some (AgentState.processing_log st ++ extra))).
Proof.
  intros H. destruct (settle_cases (AgentState.final_amount st) st)
    as [[x Hx]|[Hd [e He]]].
  - destruct (execute_node_eq st w x Hx)
      as (result & extra & w0 & w1 & w2 & call & _ & _ & _ & Hc & E).
    rewrite E in H. injection H as <- <-. by exists x, result, extra, call.
  - exfalso. revert H. unfold execute_node.
    rewrite (bind_Raise _ _ w e w (He w)). done.
Qed.

Lemma analyze_node_appends : appends_to_log analyze_node.
Proof.
  intros st w u w' H. destruct (analyze_node_eq st w) as (extra & w2 & E & _).
  rewrite E in H. injection H as <- <-. by exists extra.
Qed.

Lemma human_review_node_appends : appends_to_log human_review_node.
Proof.
  intros st w u w' H. destruct (AgentState.decision st) as [d|] eqn:Hd.
  - destruct (human_review_node_eq st w d Hd) as (extra & w2 & E & _).
    rewrite E in H. injection H as <- <-. by exists extra.
  - destruct (human_review_node_raises st w Hd) as (e & w2 & E). congruence.
Qed.

Lemma process_review_node_appends : appends_to_log process_review_node.
Proof.
  intros st w u w' H.
  destruct (process_review_inv st w u w' H)
    as (_ & extra & [[_ ->]|[(?&?&_&_&_&->)|(?&_&_&->)]]); by exists extra.
Qed.

Lemma execute_node_appends : appends_to_log execute_node.
Proof.
  intros st w u w' H.
  destruct (execute_node_inv st w u w' H) as (?&result&extra&?&_&->).
  exists extra. by destruct (truth (dict_get result "success")).
Qed.

Lemma rejected_node_appends : appends_to_log rejected_node.
Proof.
  intros st w u w' H. destruct (rejected_node_eq st w) as (extra & w2 & E & _).
  rewrite E in H. injection H as <- <-. by exists extra.
Qed.

(** ** The compiled graph *)

Lemma graph_nodes :
  nodes (builder get_graph)
  = [("analyze", analyze_node); ("human_review", human_review_node);
     ("process_review", process_review_node); ("execute", execute_node);
     ("rejected", rejected_node)].
Proof. reflexivity. Qed.

Lemma graph_edges :
  edges (builder get_graph)
  = [(START, "analyze"); ("human_review", "process_review");
     ("execute", END); ("rejected", END)].
Proof. reflexivity. Qed.

Lemma graph_branches :
  branches (builder get_graph)
  = [("analyze",
      (route_after_analysis,
       [("human_review", "human_review"); ("execute", "execute")]));
     ("process_review",
      (route_after_review,
       [("execute", "execute"); ("rejected", "rejected")]))].
Proof. reflexivity. Qed.

Lemma graph_interrupts : interrupt_before get_graph = ["human_review"].
Proof. reflexivity. Qed.

Ltac graph_simpl :=
  rewrite ?graph_nodes, ?graph_edges, ?graph_branches, ?graph_interrupts;
  cbn [assoc existsb String.eqb Ascii.eqb Bool.eqb START END andb orb negb
       next values].

Lemma advance_unfold g resuming cp w :
  advance g resuming cp w =
  if String.eqb (next cp) END then (Stop (Completed (values cp)), cp, w)
  else if existsb (String.eqb (next cp)) (interrupt_before g)
          && negb resuming
  then (Stop (Paused (next cp)), cp, w)
  else
    match assoc (next cp) (nodes (builder g)) with
    | None => (Stop (Failed (UnknownNodeError (next cp))), cp, w)
    | Some fn =>
        match fn (values cp) w with
        | (Raise e, w') =>
            (Stop (Failed (NodeError (next cp) e)),
             mkCheckpoint (set_status (values cp) RequestStatus.FAILED)
               (next cp), w')
        | (Ok update, w') =>
            match successor (builder g) (next cp) (merge (values cp) update)
            with
            | inl err => (Stop (Failed err), cp, w')
            | inr dst =>
                (Continue, mkCheckpoint (merge (values cp) update) dst, w')
            end
        end
    end.
Proof. reflexivity. Qed.

Lemma successor_analyze st :
  successor (builder get_graph) "analyze" st = inr (route_after_analysis st).
Proof.
  unfold successor. graph_simpl. unfold route_after_analysis.
  destruct (AgentState.decision st) as [d|];
    [destruct (AgentDecision.requires_human_approval d)|]; reflexivity.
Qed.

Lemma successor_process_review st :
  successor (builder get_graph) "process_review" st
  = inr (route_after_review st).
Proof.
  unfold successor. graph_simpl. unfold route_after_review.
  destruct (AgentState.human_review st) as [r|];
    [destruct (HumanReview.approved r)|]; reflexivity.
Qed.

(** One round at each node of the graph. *)

Lemma advance_analyze resuming st w u w' :
  analyze_node st w = (Ok u, w') →
  advance get_graph resuming (mkCheckpoint st "analyze") w
  = (Continue,
     mkCheckpoint (merge st u) (route_after_analysis (merge st u)), w').
Proof.
  intros H. rewrite advance_unfold. graph_simpl. rewrite H.
  by rewrite successor_analyze.
Qed.

Lemma advance_human_review_closed st w :
  advance get_graph false (mkCheckpoint st "human_review") w
  = (Stop (Paused "human_review"), mkCheckpoint st "human_review", w).
Proof. reflexivity. Qed.

Lemma advance_human_review_open st w u w' :
  human_review_node st w = (Ok u, w') →
  advance get_graph true (mkCheckpoint st "human_review") w
  = (Continue, mkCheckpoint (merge st u) "process_review", w').
Proof.
  intros H. rewrite advance_unfold. graph_simpl. rewrite H. reflexivity.
Qed.

Lemma advance_process_review resuming st w u w' :
  process_review_node st w = (Ok u, w') →
  advance get_graph resuming (mkCheckpoint st "process_review") w
  = (Continue,
     mkCheckpoint (merge st u) (route_after_review (merge st u)), w').
Proof.
  intros H. rewrite advance_unfold. graph_simpl. rewrite H.
  by rewrite successor_process_review.
Qed.

Lemma advance_execute resuming st w u w' :
  execute_node st w = (Ok u, w') →
  advance get_graph resuming (mkCheckpoint st "execute") w
  = (Continue, mkCheckpoint (merge st u) END, w').
Proof.
  intros H. rewrite advance_unfold. graph_simpl. rewrite H. reflexivity.
Qed.

Lemma advance_rejected resuming st w u w' :
  rejected_node st w = (Ok u, w') →
  advance get_graph resuming (mkCheckpoint st "rejected") w
  = (Continue, mkCheckpoint (merge st u) END, w').
Proof.
  intros H. rewrite advance_unfold. graph_simpl. rewrite H. reflexivity.
Qed.

Lemma advance_end g resuming st w :
  advance g resuming (mkCheckpoint st END) w
  = (Stop (Completed st), mkCheckpoint st END, w).
Proof. reflexivity. Qed.

(** The loop, one round at a time. *)

Lemma run_loop_continue fuel g run_id resuming cp σ w cp' w' :
  advance g resuming cp w = (Continue, cp', w') →
  run_loop (S fuel) g run_id resuming cp σ w
  = run_loop fuel g run_id false cp' (<[run_id := cp']> σ) w'.
Proof. intros H. cbn [run_loop]. by rewrite H. Qed.

Lemma run_loop_stop fuel g run_id resuming cp σ w result cp' w' :
  advance g resuming cp w = (Stop result, cp', w') →
  run_loop (S fuel) g run_id resuming cp σ w
  = (Some result, <[run_id := cp']> σ, w').
Proof. intros H. cbn [run_loop]. by rewrite H. Qed.

(** ** Runs of the compiled graph *)

Lemma start_unfold fuel run_id st σ w :
  start get_graph fuel run_id st σ w
  = run_loop fuel get_graph run_id false (mkCheckpoint st "analyze")
      (<[run_id := mkCheckpoint st "analyze"]> σ) w.
Proof. reflexivity. Qed.

Lemma route_after_analysis_cases st :
  route_after_analysis st = "human_review"
  ∨ route_after_analysis st = "execute".
Proof.
  unfold route_after_analysis.
  destruct (AgentState.decision st) as [d|];
    [destruct (AgentDecision.requires_human_approval d)|]; auto.
Qed.

Lemma merge_log_only st lg :
  merge st (mkUpdate None None None None None (Some lg))
  = AgentState.set_processing_log st lg.
Proof. reflexivity. Qed.

(** A run that analysis routes to [human_review] pauses there. *)
Lemma start_pauses fuel run_id st σ w u w1 :
  analyze_node st w = (Ok u, w1) →
  route_after_analysis (merge st u) = "human_review" →
  2 ≤ fuel →
  start get_graph fuel run_id st σ w
  = (Some (Paused "human_review"),
     <[run_id := mkCheckpoint (merge st u) "human_review"]> σ, w1).
Proof.
  intros Hu Hroute Hfuel. destruct fuel as [|[|fuel]]; [lia|lia|].
  rewrite start_unfold.
  rewrite (run_loop_continue _ _ _ _ _ _ _ _ _ (advance_analyze _ _ _ _ _ Hu)).
  rewrite Hroute.
  rewrite (run_loop_stop _ _ _ _ _ _ _ _ _ _
             (advance_human_review_closed _ _)).
  by rewrite !insert_insert_eq.
Qed.

(** And only such a run pauses. *)
Lemma start_paused_inv fuel run_id st σ w at_node σ1 w1 :
  start get_graph fuel run_id st σ w = (Some (Paused at_node), σ1, w1) →
  ∃ u,
    analyze_node st w = (Ok u, w1)
    ∧ route_after_analysis (merge st u) = "human_review"
    ∧ at_node = "human_review"
    ∧ σ1 = <[run_id := mkCheckpoint (merge st u) "human_review"]> σ.
Proof.
  intros H. rewrite start_unfold in H.
  destruct (analyze_node_eq st w) as (extra & wa & Ea & _).
  destruct fuel as [|fuel]; [discriminate|].
  rewrite (run_loop_continue _ _ _ _ _ _ _ _ _ (advance_analyze _ _ _ _ _ Ea))
    in H.
  destruct fuel as [|fuel]; [discriminate|].
  destruct (route_after_analysis_cases
              (merge st
                 (mkUpdate
                    (Some (if AgentDecision.requires_human_approval
                                (AnalysisService.analyze_exception_request
                                   (HITL_CONFIG w) (AgentState.request st))
                           then RequestStatus.PENDING_APPROVAL
                           else RequestStatus.APPROVED))
                    (Some (AnalysisService.analyze_exception_request
                             (HITL_CONFIG w) (AgentState.request st)))
                    None None None
                    (Some (AgentState.processing_log st ++ extra)))))
    as [Hroute|Hroute]; rewrite Hroute in H.
  - rewrite (run_loop_stop _ _ _ _ _ _ _ _ _ _
               (advance_human_review_closed _ _)) in H.
    injection H as <- <- <-. eexists. split; [exact Ea|].
    split; [exact Hroute|]. split; [done|]. by rewrite !insert_insert_eq.
  - exfalso. cbn [run_loop] in H. rewrite advance_unfold in H.
    revert H. graph_simpl.
    destruct (execute_node _ wa) as [[u2|e] w2].
    + cbn. destruct fuel; discriminate.
    + discriminate.
Qed.

(** What a paused run has stored: the state as analysis left it. *)
Lemma paused_checkpoint fuel run_id request σ0 w0 at_node σ1 w1 :
  start get_graph fuel run_id (AgentState.initial request) σ0 w0
  = (Some (Paused at_node), σ1, w1) →
  ∃ d lg,
    d = AnalysisService.analyze_exception_request (HITL_CONFIG w0) request
    ∧ AgentDecision.requires_human_approval d = true
    ∧ at_node = "human_review"
    ∧ σ1 = <[run_id :=
              mkCheckpoint
                (AgentState.mk request RequestStatus.PENDING_APPROVAL (Some d)
                   None None None lg)
                "human_review"]> σ0
    ∧ payment_calls w1 = payment_calls w0.
Proof.
  intros H. apply start_paused_inv in H as (u & Hu & Hroute & -> & ->).
  destruct (analyze_node_eq (AgentState.initial request) w0)
    as (extra & wa & Ea & _ & Hcalls).
  rewrite Ea in Hu. injection Hu as <- <-.
  cbn in Hroute.
  destruct (AgentDecision.requires_human_approval _) eqn:Hreq;
    [|discriminate].
  eexists _, _. split; [reflexivity|]. split; [exact Hreq|].
  split; [done|]. split; [|exact Hcalls].
  reflexivity.
Qed.

(** Resuming a paused run enters [human_review], which only logs. *)
Lemma resume_enters_review run_id st d σ w :
  σ !! run_id = Some (mkCheckpoint st "human_review") →
  AgentState.decision st = Some d →
  ∃ extra w1,
    payment_calls w1 = payment_calls w
    ∧ ∀ fuel,
        resume get_graph (S fuel) run_id σ w
        = run_loop fuel get_graph run_id false
            (mkCheckpoint
               (AgentState.set_processing_log st
                  (AgentState.processing_log st ++ extra))
               "process_review")
            (<[run_id :=
                mkCheckpoint
                  (AgentState.set_processing_log st
                     (AgentState.processing_log st ++ extra))
                  "process_review"]> σ)
            w1.
Proof.
  intros Hσ Hd.
  destruct (human_review_node_eq st w d Hd) as (extra & w1 & E & Hcalls).
  exists extra, w1. split; [exact Hcalls|]. intros fuel.
  unfold resume. rewrite Hσ.
  by rewrite (run_loop_continue _ _ _ _ _ _ _ _ _
                (advance_human_review_open _ _ _ _ E)).
Qed.

(** From [rejected] the run completes, and only the log has grown. *)
Lemma run_from_rejected fuel run_id st σ w :
  2 ≤ fuel →
  ∃ extra w',
    run_loop fuel get_graph run_id false (mkCheckpoint st "rejected") σ w
    = (Some (Completed
               (AgentState.set_processing_log st
                  (AgentState.processing_log st ++ extra))),
       <[run_id :=
           mkCheckpoint
             (AgentState.set_processing_log st
                (AgentState.processing_log st ++ extra)) END]> σ,
       w')
    ∧ payment_calls w' = payment_calls w.
Proof.
  intros Hfuel. destruct fuel as [|[|fuel]]; [lia|lia|].
  destruct (rejected_node_eq st w) as (extra & w' & E & Hcalls).
  exists extra, w'. split; [|exact Hcalls].
  rewrite (run_loop_continue _ _ _ _ _ _ _ _ _ (advance_rejected _ _ _ _ _ E)).
  rewrite (run_loop_stop _ _ _ _ _ _ _ _ _ _ (advance_end _ _ _ _)).
  by rewrite insert_insert_eq, merge_log_only.
Qed.

(** From [execute] the run completes with the outcome of the action. *)
Lemma run_from_execute fuel run_id st σ w amount :
  (∀ v, py_or_else (AgentState.final_amount st)
          (let* decision := AgentState.decision_attr st "recommended_amount" in
           ret (AgentDecision.recommended_amount decision)) v
        = (Ok amount, v)) →
  2 ≤ fuel →
  ∃ result extra w' call,
    let u :=
      if truth (dict_get result "success")
      then mkUpdate (Some RequestStatus.COMPLETED) None None (Some amount)
             (Some (dict_get_str result "message"))
             (Some (AgentState.processing_log st ++ extra))
      else mkUpdate (Some RequestStatus.FAILED) None None None
             (Some (dict_get_str result "error"))
             (Some (AgentState.processing_log st ++ extra)) in
    run_loop fuel get_graph run_id false (mkCheckpoint st "execute") σ w
    = (Some (Completed (merge st u)),
       <[run_id := mkCheckpoint (merge st u) END]> σ, w')
    ∧ payment_calls w' = payment_calls w ++ [call].
Proof.
  intros Hamt Hfuel. destruct fuel as [|[|fuel]]; [lia|lia|].
  destruct (execute_node_eq st w amount Hamt)
    as (result & extra & w0 & w1 & w' & call & _ & _ & _ & Hcalls & E).
  exists result, extra, w', call. split; [|exact Hcalls].
  rewrite (run_loop_continue _ _ _ _ _ _ _ _ _ (advance_execute _ _ _ _ _ E)).
  rewrite (run_loop_stop _ _ _ _ _ _ _ _ _ _ (advance_end _ _ _ _)).
  by rewrite insert_insert_eq.
Qed.

Lemma supply_review_stored run_id review cp (σ : Store) :
  σ !! run_id = Some cp →
  supply_review run_id review σ
  = (None,
     <[run_id :=
         mkCheckpoint
           (merge (values cp) (mkUpdate None None (Some review) None None None))
           (next cp)]> σ).
Proof. intros H. unfold supply_review, update_state. by rewrite H. Qed.

(** ** Rejection (C3) *)

(** C3: on a paused run, once a review with [approved = false] is supplied,
    resuming completes the run with status [REJECTED], and the payment
    service (the Action Executor) is called neither while the run was started
    nor while it is resumed. *)
Theorem rejection_completes_without_action
    fuel0 fuel run_id request σ0 w0 σ1 w1 review w :
  start get_graph fuel0 run_id (AgentState.initial request) σ0 w0
  = (Some (Paused "human_review"), σ1, w1) →
  HumanReview.approved review = false →
  4 ≤ fuel →
  ∃ st w',
    resume get_graph fuel run_id (supply_review run_id review σ1).2 w
    = (Some (Completed st), <[run_id := mkCheckpoint st END]> σ1, w')
    ∧ AgentState.status st = RequestStatus.REJECTED
    ∧ AgentState.final_amount st = None
    ∧ payment_calls w1 = payment_calls w0
    ∧ payment_calls w' = payment_calls w.
Proof.
  intros Hstart Hrej Hfuel.
  apply paused_checkpoint in Hstart as (d & lg & _ & _ & _ & -> & Hcalls0).
  rewrite (supply_review_stored _ _ _ _ (lookup_insert_eq _ _ _)).
  cbn [snd values next merge default upd_status upd_decision
       upd_human_review upd_final_amount upd_result_message
       upd_processing_log AgentState.request AgentState.status
       AgentState.decision AgentState.human_review AgentState.final_amount
       AgentState.result_message AgentState.processing_log].
  rewrite insert_insert_eq.
  destruct fuel as [|[|fuel]]; [lia|lia|].
  edestruct resume_enters_review as (extra1 & wa & Hcalls1 & ->);
    [apply lookup_insert_eq|reflexivity|].
  rewrite insert_insert_eq.
  match goal with
  | |- context [run_loop _ _ _ _ (mkCheckpoint ?st _) _ ?v] =>
      destruct (process_review_rejected st v review eq_refl Hrej)
        as (extra2 & wb & E2 & Hcalls2)
  end.
  rewrite (run_loop_continue _ _ _ _ _ _ _ _ _
             (advance_process_review _ _ _ _ _ E2)).
  rewrite insert_insert_eq.
  cbn [merge default upd_status upd_decision upd_human_review
       upd_final_amount upd_result_message upd_processing_log
       AgentState.set_processing_log AgentState.request AgentState.status
       AgentState.decision AgentState.human_review AgentState.final_amount
       AgentState.result_message AgentState.processing_log
       route_after_review].
  rewrite Hrej.
  edestruct run_from_rejected as (extra3 & wc & -> & Hcalls3); [lia|].
  eexists _, wc. split; [by rewrite !insert_insert_eq|].
  split; [reflexivity|]. split; [reflexivity|]. split; [exact Hcalls0|].
  by rewrite Hcalls3, Hcalls2, Hcalls1.
Qed.

Lemma rejection_completes_without_action_witness :
  ∃ st w',
    resume get_graph 10 "demo"
      (supply_review "demo" Main.review_reject
         (Main.started Main.REQ_003).1.2).2
      (Main.started Main.REQ_003).2
    = (Some (Completed st),
       <[ "demo" := mkCheckpoint st END]> (Main.started Main.REQ_003).1.2, w')
    ∧ AgentState.status st = RequestStatus.REJECTED
    ∧ AgentState.final_amount st = None
    ∧ payment_calls (Main.started Main.REQ_003).2
      = payment_calls Main.demo_world
    ∧ payment_calls w' = payment_calls (Main.started Main.REQ_003).2.
Proof.
  apply (rejection_completes_without_action 10 10 "demo" Main.REQ_003 ∅
           Main.demo_world).
  - vm_compute. reflexivity.
  - reflexivity.
  - lia.
Defined.

(** ** Resuming without a review (C2) *)

(** The three nodes of that run, entry by entry: each reads the clock once
    per log entry and does nothing else to the world. *)
Lemma human_review_node_exact st w d :
  AgentState.decision st = Some d →
  human_review_node st w
  = (Ok (mkUpdate None None None None None
           (Some (AgentState.processing_log st
                    ++ [stamped w 0 "Awaiting human review...";
                        stamped w 1
                          ("Recommended amount: $"
                             +:+ fmt_2f (AgentDecision.recommended_amount d));
                        stamped w 2
                          ("Agent recommendation: "
                             +:+ (if AgentDecision.should_approve d
                                  then "APPROVE" else "REJECT"))]))),
     tick 3 w).
Proof.
  intros Hd. destruct st as [rq s dec hr fa rm lg]. cbn in Hd. subst dec.
  unfold human_review_node. py_exec. rewrite <- !app_assoc. reflexivity.
Qed.

Lemma process_review_missing_exact st w :
  AgentState.human_review st = None →
  process_review_node st w
  = (Ok (mkUpdate (Some RequestStatus.FAILED) None None None
           (Some (Some "Human review was required but not provided"))
           (Some (AgentState.processing_log st
                    ++ [stamped w 0 "ERROR: No human review found"]))),
     tick 1 w).
Proof.
  intros Hr. destruct st as [rq s dec hr fa rm lg]. cbn in Hr. subst hr.
  unfold process_review_node. py_exec. reflexivity.
Qed.

Lemma rejected_node_exact st w :
  rejected_node st w
  = (Ok (mkUpdate None None None None None
           (Some (AgentState.processing_log st
                    ++ [stamped w 0 "Request rejected - no action taken";
                        stamped w 1
                          ("Final status: "
                             +:+ RequestStatus.value (AgentState.status st))]))),
     tick 2 w).
Proof.
  unfold rejected_node. py_exec. rewrite <- !app_assoc. reflexivity.
Qed.

(** C2, as the code has it: resuming a paused run to which no review was
    supplied raises nothing. [human_review_node] logs its three entries;
    [process_review_node] logs "ERROR: No human review found" and sets status
    [FAILED] and the result message "Human review was required but not
    provided"; the router sends the run to [rejected], which logs its two
    entries; and the run completes. The stored state is replaced by the final
    one, no final amount is set and the payment service is not called. After
    two rounds the run stands before [rejected], with status [FAILED]. *)
Theorem missing_review_recorded_as_failure
    fuel0 fuel run_id request σ0 w0 σ1 w1 w :
  start get_graph fuel0 run_id (AgentState.initial request) σ0 w0
  = (Some (Paused "human_review"), σ1, w1) →
  4 ≤ fuel →
  ∃ paused d st w',
    σ1 !! run_id = Some (mkCheckpoint paused "human_review")
    ∧ AgentState.decision paused = Some d
    ∧ resume get_graph fuel run_id σ1 w
      = (Some (Completed st), <[run_id := mkCheckpoint st END]> σ1, w')
    ∧ AgentState.status st = RequestStatus.FAILED
    ∧ AgentState.result_message st
      = Some "Human review was required but not provided"
    ∧ AgentState.final_amount st = None
    ∧ payment_calls w' = payment_calls w
    ∧ AgentState.processing_log st
      = AgentState.processing_log paused
        ++ [stamped w 0 "Awaiting human review...";
            stamped w 1
              ("Recommended amount: $"
                 +:+ fmt_2f (AgentDecision.recommended_amount d));
            stamped w 2
              ("Agent recommendation: "
                 +:+ (if AgentDecision.should_approve d
                      then "APPROVE" else "REJECT"));
            stamped w 3 "ERROR: No human review found";
            stamped w 4 "Request rejected - no action taken";
            stamped w 5 "Final status: failed"]
    ∧ ∃ st2 σ2 w2,
        resume get_graph 2 run_id σ1 w = (None, σ2, w2)
        ∧ σ2 !! run_id = Some (mkCheckpoint st2 "rejected")
        ∧ AgentState.status st2 = RequestStatus.FAILED
        ∧ AgentState.human_review st2 = None.
Proof.
  intros Hstart Hfuel.
  apply paused_checkpoint in Hstart as (d & lg & _ & _ & _ & -> & _).
  pose (paused := AgentState.mk request RequestStatus.PENDING_APPROVAL
                    (Some d) None None None lg).
  pose proof (human_review_node_exact paused w d eq_refl) as E1.
  pose proof (advance_human_review_open _ _ _ _ E1) as A1.
  match type of A1 with
  | _ = (_, mkCheckpoint ?st ?n, ?v) =>
      pose proof (process_review_missing_exact st v eq_refl) as E2;
      pose proof (advance_process_review false _ _ _ _ E2) as A2
  end.
  cbn [merge default upd_status upd_decision upd_human_review
       upd_final_amount upd_result_message upd_processing_log
       AgentState.request AgentState.status AgentState.decision
       AgentState.human_review AgentState.final_amount
       AgentState.result_message AgentState.processing_log
       route_after_review paused] in A2.
  match type of A2 with
  | _ = (_, mkCheckpoint ?st ?n, ?v) =>
      pose proof (rejected_node_exact st v) as E3;
      pose proof (advance_rejected false _ _ _ _ E3) as A3
  end.
  exists paused, d. eexists _, _.
  split; [apply lookup_insert_eq|]. split; [reflexivity|].
  split.
  { destruct fuel as [|[|[|[|fuel]]]]; try lia.
    unfold resume. rewrite lookup_insert_eq.
    rewrite (run_loop_continue _ _ _ _ _ _ _ _ _ A1).
    rewrite (run_loop_continue _ _ _ _ _ _ _ _ _ A2).
    rewrite (run_loop_continue _ _ _ _ _ _ _ _ _ A3).
    rewrite (run_loop_stop _ _ _ _ _ _ _ _ _ _ (advance_end _ _ _ _)).
    rewrite !insert_insert_eq. reflexivity. }
  split; [reflexivity|]. split; [reflexivity|]. split; [reflexivity|].
  split; [reflexivity|].
  split; [cbn; rewrite <- !app_assoc; reflexivity|].
  eexists _, _, _. split.
  { unfold resume. rewrite lookup_insert_eq.
    rewrite (run_loop_continue _ _ _ _ _ _ _ _ _ A1).
    rewrite (run_loop_continue _ _ _ _ _ _ _ _ _ A2).
    reflexivity. }
  split; [apply lookup_insert_eq|]. split; reflexivity.
Qed.

Lemma missing_review_recorded_as_failure_witness :
  ∃ paused d st w',
    (Main.started Main.REQ_002).1.2 !! "demo"
    = Some (mkCheckpoint paused "human_review")
    ∧ AgentState.decision paused = Some d
    ∧ resume get_graph 10 "demo" (Main.started Main.REQ_002).1.2
        (Main.started Main.REQ_002).2
      = (Some (Completed st),
         <[ "demo" := mkCheckpoint st END]> (Main.started Main.REQ_002).1.2,
         w')
    ∧ AgentState.status st = RequestStatus.FAILED
    ∧ AgentState.result_message st
      = Some "Human review was required but not provided"
    ∧ AgentState.final_amount st = None
    ∧ payment_calls w' = payment_calls (Main.started Main.REQ_002).2
    ∧ AgentState.processing_log st
      = AgentState.processing_log paused
        ++ [stamped (Main.started Main.REQ_002).2 0 "Awaiting human review...";
            stamped (Main.started Main.REQ_002).2 1
              ("Recommended amount: $"
                 +:+ fmt_2f (AgentDecision.recommended_amount d));
            stamped (Main.started Main.REQ_002).2 2
              ("Agent recommendation: "
                 +:+ (if AgentDecision.should_approve d
                      then "APPROVE" else "REJECT"));
            stamped (Main.started Main.REQ_002).2 3
              "ERROR: No human review found";
            stamped (Main.started Main.REQ_002).2 4
              "Request rejected - no action taken";
            stamped (Main.started Main.REQ_002).2 5 "Final status: failed"]
    ∧ ∃ st2 σ2 w2,
        resume get_graph 2 "demo" (Main.started Main.REQ_002).1.2
          (Main.started Main.REQ_002).2
        = (None, σ2, w2)
        ∧ σ2 !! "demo" = Some (mkCheckpoint st2 "rejected")
        ∧ AgentState.status st2 = RequestStatus.FAILED
        ∧ AgentState.human_review st2 = None.
Proof.
  apply (missing_review_recorded_as_failure 10 10 "demo" Main.REQ_002 ∅
           Main.demo_world (Main.started Main.REQ_002).1.2
           (Main.started Main.REQ_002).2).
  - vm_compute. reflexivity.
  - lia.
Defined.

(** The log of that run as the demo world stamps it. *)
Example missing_review_log :
  drop 4 <$> (AgentState.processing_log
                <$> Main.completed_state (Main.resumed Main.REQ_002 None))
  = Some ["[10:05:08] Awaiting human review...";
          "[10:05:09] Recommended amount: $339.98";
          "[10:05:10] Agent recommendation: APPROVE";
          "[10:05:11] ERROR: No human review found";
          "[10:05:12] Request rejected - no action taken";
          "[10:05:13] Final status: failed"].
Proof. vm_compute. reflexivity. Qed.

(** C2 as stated fails on the run of the sample request REQ-002: the run
    pauses; resumed with no review, it does not fail with
    [MissingReviewError], it completes, and the stored state has changed (its
    status went from [PENDING_APPROVAL] to [FAILED]). *)
Lemma resume_without_review_counterexample :
  (Main.started Main.REQ_002).1.1 = Some (Paused "human_review")
  ∧ (Main.resumed Main.REQ_002 None).1.1 ≠ Some (Failed MissingReviewError)
  ∧ AgentState.status <$> Main.stored_state (Main.started Main.REQ_002)
    = Some RequestStatus.PENDING_APPROVAL
  ∧ AgentState.status <$> Main.stored_state (Main.resumed Main.REQ_002 None)
    = Some RequestStatus.FAILED
  ∧ (Main.resumed Main.REQ_002 None).1.2 ≠ (Main.started Main.REQ_002).1.2.
Proof.
  split; [vm_compute; reflexivity|].
  split; [vm_compute; discriminate|].
  split; [vm_compute; reflexivity|].
  split; [vm_compute; reflexivity|].
  intros H.
  apply (f_equal (λ σ : Store, AgentState.status ∘ values <$> σ !! "demo")) in H.
  vm_compute in H. discriminate H.
Qed.

(** ** Approval and the final amount (C1) *)

Lemma py_or_idem (a : option float) (b : float) :
  py_or (Some (py_or a b)) b = py_or a b.
Proof.
  unfold py_or. destruct a as [x|].
  - destruct (truth x) eqn:Hx; [by rewrite Hx|]. by destruct (truth b).
  - by destruct (truth b).
Qed.

(** On an approval [process_review_node] sets status [APPROVED] and the
    final amount [adjusted_amount or recommended_amount]. *)
Lemma approval_sets_final_amount st w review d :
  AgentState.human_review st = Some review →
  HumanReview.approved review = true →
  AgentState.decision st = Some d →
  ∃ u w',
    process_review_node st w = (Ok u, w')
    ∧ upd_status u = Some RequestStatus.APPROVED
    ∧ upd_final_amount u
      = Some (py_or (HumanReview.adjusted_amount review)
                (AgentDecision.recommended_amount d)).
Proof.
  intros Hr Ha Hd.
  destruct (process_review_approved st w review _ Hr Ha
              (λ v, py_or_else_recommended _ st d v Hd))
    as (extra & w' & E & _).
  by eexists _, w'.
Qed.

(** The run that follows an approval completes, and the state keeps that
    amount whether the action succeeds or fails. *)
Lemma approval_outcome fuel0 fuel run_id request σ0 w0 σ1 w1 review w :
  start get_graph fuel0 run_id (AgentState.initial request) σ0 w0
  = (Some (Paused "human_review"), σ1, w1) →
  HumanReview.approved review = true →
  4 ≤ fuel →
  ∃ st w',
    resume get_graph fuel run_id (supply_review run_id review σ1).2 w
    = (Some (Completed st), <[run_id := mkCheckpoint st END]> σ1, w')
    ∧ AgentState.final_amount st
      = Some (py_or (HumanReview.adjusted_amount review)
                (AgentDecision.recommended_amount
                   (AnalysisService.analyze_exception_request
                      (HITL_CONFIG w0) request)))
    ∧ (AgentState.status st = RequestStatus.COMPLETED
       ∨ AgentState.status st = RequestStatus.FAILED).
Proof.
  intros Hstart Happ Hfuel.
  apply paused_checkpoint in Hstart as (d & lg & <- & _ & _ & -> & _).
  rewrite (supply_review_stored _ _ _ _ (lookup_insert_eq _ _ _)).
  cbn [snd values next].
  rewrite insert_insert_eq.
  destruct fuel as [|[|fuel]]; [lia|lia|].
  edestruct resume_enters_review as (extra1 & wa & _ & ->);
    [apply lookup_insert_eq|reflexivity|].
  match goal with
  | |- context [run_loop _ _ _ _ (mkCheckpoint ?st _) _ ?v] =>
      destruct (process_review_approved st v review _ eq_refl Happ
                  (λ v', py_or_else_recommended _ st d v' eq_refl))
        as (extra2 & wb & E2 & _)
  end.
  rewrite (run_loop_continue _ _ _ _ _ _ _ _ _
             (advance_process_review _ _ _ _ _ E2)).
  cbn [merge default upd_status upd_decision upd_human_review
       upd_final_amount upd_result_message upd_processing_log
       AgentState.set_processing_log AgentState.request AgentState.status
       AgentState.decision AgentState.human_review AgentState.final_amount
       AgentState.result_message AgentState.processing_log
       route_after_review].
  rewrite Happ.
  match goal with
  | |- context [run_loop _ _ _ _ (mkCheckpoint ?st _) ?s ?v] =>
      destruct (run_from_execute fuel run_id st s v _
                  (λ v', py_or_else_recommended _ st d v' eq_refl))
        as (result & extra3 & wc & call & E3 & _); [lia|]
  end.
  cbv zeta in E3. rewrite E3. clear E3.
  eexists _, wc. split; [by rewrite !insert_insert_eq|].
  destruct (truth (dict_get result "success")); cbn -[py_or].
  - split; [|by left]. by rewrite py_or_idem.
  - split; [reflexivity|by right].
Qed.

(** Off the falsy overrides the final amount is the one the specification
    describes: the override when one is supplied, else the recommended
    amount. *)
Lemma approval_outcome_as_specified
    fuel0 fuel run_id request σ0 w0 σ1 w1 review w :
  start get_graph fuel0 run_id (AgentState.initial request) σ0 w0
  = (Some (Paused "human_review"), σ1, w1) →
  HumanReview.approved review = true →
  (∀ amount,
     HumanReview.adjusted_amount review = Some amount → truth amount = true) →
  4 ≤ fuel →
  ∃ st w',
    resume get_graph fuel run_id (supply_review run_id review σ1).2 w
    = (Some (Completed st), <[run_id := mkCheckpoint st END]> σ1, w')
    ∧ AgentState.final_amount st
      = Some (final_outcome_spec review
                (AnalysisService.analyze_exception_request
                   (HITL_CONFIG w0) request)).
Proof.
  intros Hstart Happ Htruthy Hfuel.
  destruct (approval_outcome fuel0 fuel run_id request σ0 w0 σ1 w1 review w
              Hstart Happ Hfuel) as (st & w' & E & Hfa & _).
  exists st, w'. split; [exact E|]. rewrite Hfa.
  unfold final_outcome_spec, py_or.
  destruct (HumanReview.adjusted_amount review) as [amount|]; [|done].
  by rewrite (Htruthy amount eq_refl).
Qed.

(** C1: the run of the sample request REQ-004 pauses with the recommended
    amount 38.00; the manager approves with the override 0.0, which the
    specification makes the final outcome. [process_review_node] returns the
    final amount 38.00 instead, and the run completes with it: the action is
    executed for 38.00. *)
Theorem zero_override_is_dropped :
  (Main.started Main.REQ_004).1.1 = Some (Paused "human_review")
  ∧ (AgentDecision.recommended_amount <$>
       (Main.stored_state (Main.started Main.REQ_004)
          ≫= AgentState.decision))
    = Some 38.0%float
  ∧ HumanReview.approved Main.review_zero = true
  ∧ HumanReview.adjusted_amount Main.review_zero = Some 0.0%float
  ∧ (final_outcome_spec Main.review_zero <$>
       (Main.stored_state (Main.started Main.REQ_004)
          ≫= AgentState.decision))
    = Some 0.0%float
  ∧ (AgentState.final_amount <$>
       Main.completed_state (Main.resumed Main.REQ_004 (Some Main.review_zero)))
    = Some (Some 38.0%float)
  ∧ (AgentState.status <$>
       Main.completed_state (Main.resumed Main.REQ_004 (Some Main.review_zero)))
    = Some RequestStatus.COMPLETED
  ∧ payment_calls (Main.resumed Main.REQ_004 (Some Main.review_zero)).2
    = [call_apply_price_adjustment "ORD-1004" 38.0
         "Saw items on sale a week after purchase, requesting price match"
         (Some "MGR-CAROL-003")].
Proof. vm_compute. repeat split; reflexivity. Qed.

(** ** Analysis and the first router (C5) *)

(** C5: [analyze_node] never raises; it attaches the decision of the
    analysis service, appends at least one log entry, and sets the status to
    [PENDING_APPROVAL] exactly when the decision requires human approval and
    to [APPROVED] otherwise; on the merged state [route_after_analysis]
    selects "human_review" exactly when the decision requires human approval
    and "execute" otherwise, and that is the node the executor goes to. *)
Theorem analysis_sets_status_and_route st w :
  let d := AnalysisService.analyze_exception_request (HITL_CONFIG w)
             (AgentState.request st) in
  ∃ u w' extra,
    analyze_node st w = (Ok u, w')
    ∧ AgentState.decision (merge st u) = Some d
    ∧ AgentState.processing_log (merge st u)
      = AgentState.processing_log st ++ extra
    ∧ extra ≠ []
    ∧ (AgentState.status (merge st u) = RequestStatus.PENDING_APPROVAL
       ↔ AgentDecision.requires_human_approval d = true)
    ∧ (AgentState.status (merge st u) = RequestStatus.APPROVED
       ↔ AgentDecision.requires_human_approval d = false)
    ∧ (route_after_analysis (merge st u) = "human_review"
       ↔ AgentDecision.requires_human_approval d = true)
    ∧ (route_after_analysis (merge st u) = "execute"
       ↔ AgentDecision.requires_human_approval d = false)
    ∧ ∀ resuming,
        advance get_graph resuming (mkCheckpoint st "analyze") w
        = (Continue,
           mkCheckpoint (merge st u) (route_after_analysis (merge st u)), w').
Proof.
  intros d. destruct (analyze_node_eq st w) as (extra & w' & E & Hne & _).
  fold d in E. eexists _, w', extra. split; [exact E|].
  split; [reflexivity|]. split; [reflexivity|]. split; [exact Hne|].
  cbn [merge default upd_status upd_decision AgentState.status
       AgentState.decision route_after_analysis].
  split; [|split; [|split; [|split]]].
  - destruct (AgentDecision.requires_human_approval d); simpl; split;
      congruence.
  - destruct (AgentDecision.requires_human_approval d); simpl; split;
      congruence.
  - destruct (AgentDecision.requires_human_approval d); simpl; split;
      congruence.
  - destruct (AgentDecision.requires_human_approval d); simpl; split;
      congruence.
  - intros resuming. by rewrite (advance_analyze _ _ _ _ _ E).
Qed.

(** ** The pause (C4) *)

Lemma existsb_eqb_In (name : string) (names : list string) :
  In name names → existsb (String.eqb name) names = true.
Proof.
  intros H. apply existsb_exists. exists name. split; [done|].
  apply String.eqb_refl.
Qed.

(** C4: at an interrupt node the executor runs no node body: a round with
    [resuming] off returns [Paused] for that node and leaves state and world
    as they are, and the loop persists that state. In the compiled graph of
    the source "human_review" is such a node; a run that analysis routes to
    it stops with [Paused "human_review"], having stored exactly the state
    [analyze_node] produced, in the world [analyze_node] left:
    [human_review_node] has not run. *)
Theorem pause_before_interrupt_node :
  (∀ g run_id fuel cp (σ : Store) w,
     next cp ≠ END →
     In (next cp) (interrupt_before g) →
     advance g false cp w = (Stop (Paused (next cp)), cp, w)
     ∧ run_loop (S fuel) g run_id false cp σ w
       = (Some (Paused (next cp)), <[run_id := cp]> σ, w))
  ∧ In "human_review" (interrupt_before get_graph)
  ∧ (∀ fuel run_id request (σ : Store) w u w1,
       analyze_node (AgentState.initial request) w = (Ok u, w1) →
       route_after_analysis (merge (AgentState.initial request) u)
       = "human_review" →
       2 ≤ fuel →
       start get_graph fuel run_id (AgentState.initial request) σ w
       = (Some (Paused "human_review"),
          <[run_id :=
              mkCheckpoint (merge (AgentState.initial request) u)
                "human_review"]> σ,
          w1)).
Proof.
  split; [|split].
  - intros g run_id fuel cp σ w Hend Hin.
    assert (E : advance g false cp w = (Stop (Paused (next cp)), cp, w)).
    { rewrite advance_unfold.
      destruct (String.eqb (next cp) END) eqn:Heq.
      - by apply String.eqb_eq in Heq.
      - by rewrite (existsb_eqb_In _ _ Hin). }
    split; [exact E|]. by rewrite (run_loop_stop _ _ _ _ _ _ _ _ _ _ E).
  - rewrite graph_interrupts. by left.
  - intros fuel run_id request σ w u w1 Hu Hroute Hfuel.
    by apply start_pauses.
Qed.

Lemma pause_before_interrupt_node_witness :
  advance get_graph false
    (mkCheckpoint (AgentState.initial Main.REQ_002) "human_review")
    Main.demo_world
  = (Stop (Paused "human_review"),
     mkCheckpoint (AgentState.initial Main.REQ_002) "human_review",
     Main.demo_world)
  ∧ start get_graph 10 "demo" (AgentState.initial Main.REQ_002) ∅
      Main.demo_world
    = (Some (Paused "human_review"),
       <[ "demo" :=
           mkCheckpoint
             (merge (AgentState.initial Main.REQ_002)
                (default (mkUpdate None None None None None None)
                   (Main.returned
                      (analyze_node (AgentState.initial Main.REQ_002)
                         Main.demo_world))))
             "human_review"]> ∅,
       (analyze_node (AgentState.initial Main.REQ_002) Main.demo_world).2).
Proof.
  split.
  - apply (proj1 pause_before_interrupt_node get_graph "demo" 0%nat
             (mkCheckpoint (AgentState.initial Main.REQ_002) "human_review")
             ∅ Main.demo_world).
    + discriminate.
    + simpl. left. reflexivity.
  - apply (proj2 (proj2 pause_before_interrupt_node) 10 "demo" Main.REQ_002 ∅
             Main.demo_world).
    + vm_compute. reflexivity.
    + vm_compute. reflexivity.
    + lia.
Defined.

(** ** Execution and domain failures (C6) *)

Lemma perform_action_not_found request amount approved_by w :
  _ORDERS w !! Order.order_id (ExceptionRequest.order request) = None →
  ∃ w',
    perform_action request amount approved_by w
    = (Ok [("success", VBool false);
           ("error",
            VStr ("Order " +:+ Order.order_id (ExceptionRequest.order request)
                    +:+ " not found"))], w').
Proof.
  intros Hnone. unfold perform_action.
  destruct (ExceptionRequest.exception_type request);
    unfold PaymentService.process_refund, PaymentService.cancel_order,
      PaymentService.apply_price_adjustment;
    py_exec; rewrite Hnone; py_exec; by eexists.
Qed.

Lemma perform_action_exceeds request amount approved_by w order :
  ExceptionRequest.exception_type request = ExceptionType.PRICE_ADJUSTMENT →
  _ORDERS w !! Order.order_id (ExceptionRequest.order request) = Some order →
  PrimFloat.ltb (Order.order_total order) amount = true →
  ∃ w',
    perform_action request amount approved_by w
    = (Ok [("success", VBool false);
           ("error",
            VStr ("Adjustment $" +:+ fmt_2f amount
                    +:+ " exceeds order total $"
                    +:+ fmt_2f (Order.order_total order)))], w').
Proof.
  intros Hty Hsome Hlt. unfold perform_action. rewrite Hty.
  unfold PaymentService.apply_price_adjustment.
  py_exec. rewrite Hsome. py_exec. rewrite Hlt. py_exec. by eexists.
Qed.

(** The action of a request succeeds exactly when the order is in the
    database and, for a price adjustment, the amount is within its total; and
    then the result carries the message of the service that ran. *)
Lemma perform_action_outcome request amount approved_by w :
  ∃ result w',
    perform_action request amount approved_by w = (Ok result, w')
    ∧ (truth (dict_get result "success") = true
       ↔ ∃ order, action_succeeds w request amount order)
    ∧ (∀ order,
         action_succeeds w request amount order →
         dict_get_str result "message"
         = Some (success_message request amount order)).
Proof.
  unfold perform_action, action_succeeds, success_message.
  destruct (ExceptionRequest.exception_type request) eqn:Hty;
    unfold PaymentService.process_refund, PaymentService.cancel_order,
      PaymentService.apply_price_adjustment;
    py_exec;
    destruct (_ORDERS w !! _) as [order|] eqn:E; py_exec;
    try (destruct (PrimFloat.ltb (Order.order_total order) amount) eqn:Hlt;
         py_exec);
    eexists _, _; (split; [reflexivity|]); cbn;
    (split;
     [first
        [ by split; [intros _; exists order|]
        | split; [done|]; intros (o & Ho & Hle);
          first [done | injection Ho as <-; specialize (Hle eq_refl);
                        congruence] ]
     |intros o [Ho Hle];
      first [done | injection Ho as <-;
                    first [reflexivity | specialize (Hle eq_refl); congruence]]]).
Qed.

(** [execute_node], world by world: it logs what it is about to do, calls the
    payment service in the world that leaves, and logs the outcome in the
    world the service leaves. *)
Lemma execute_node_exact st w amount :
  (∀ v, py_or_else (AgentState.final_amount st)
          (let* decision := AgentState.decision_attr st "recommended_amount" in
           ret (AgentDecision.recommended_amount decision)) v
        = (Ok amount, v)) →
  ∃ result w1,
    perform_action (AgentState.request st) amount
      (HumanReview.reviewer_id <$> AgentState.human_review st) (tick 1 w)
    = (Ok result, w1)
    ∧ execute_node st w
      = (Ok (if truth (dict_get result "success")
             then mkUpdate (Some RequestStatus.COMPLETED) None None
                    (Some amount) (Some (dict_get_str result "message"))
                    (Some (AgentState.processing_log st
                             ++ [stamped w 0
                                   ("Executing "
                                      +:+ ExceptionType.value
                                            (ExceptionRequest.exception_type
                                               (AgentState.request st))
                                      +:+ " for $" +:+ fmt_2f amount);
                                 stamped w1 0
                                   ("Action completed successfully: "
                                      +:+ str_of_opt_str
                                            (dict_get_str result "message"))]))
             else mkUpdate (Some RequestStatus.FAILED) None None None
                    (Some (dict_get_str result "error"))
                    (Some (AgentState.processing_log st
                             ++ [stamped w 0
                                   ("Executing "
                                      +:+ ExceptionType.value
                                            (ExceptionRequest.exception_type
                                               (AgentState.request st))
                                      +:+ " for $" +:+ fmt_2f amount);
                                 stamped w1 0
                                   ("Action failed: "
                                      +:+ str_of_opt_str
                                            (dict_get_str result "error"))]))),
         tick 1 w1).
Proof.
  intros Hamt. unfold execute_node.
  rewrite (bind_Ok _ _ w _ _ (Hamt w)).
  py_exec.
  match goal with
  | |- context [bind (perform_action ?r ?a ?b) ?k ?v] =>
      destruct (perform_action_ok r a b v) as (result & w1 & call & E & _);
      rewrite (bind_Ok _ k v _ _ E)
  end.
  exists result, w1. split.
  - destruct (AgentState.human_review st); exact E.
  - unfold log_result. destruct (truth (dict_get result "success"));
      py_exec; rewrite <- !app_assoc; reflexivity.
Qed.

(** C6: for a state that has reached [execute_node] (a decision is
    attached), the node never raises. It calls the payment service once, in
    the world its first log entry leaves, and whatever dict the service
    returns there: when its "success" is true the status becomes [COMPLETED],
    the result message is its "message" and the final amount is the amount
    that was executed; when it is not, the status becomes [FAILED] and the
    result message is its "error". The service succeeds exactly when the order
    is in the database and, for a price adjustment, the amount is within its
    total; so in that case the run is [COMPLETED] with the message of the
    service, while a missing order and an adjustment above the total end in
    [FAILED] with their error text, and so does the dict the source builds for
    an exception type it does not know. *)
Theorem execute_absorbs_domain_failures st w d :
  AgentState.decision st = Some d →
  let amount :=
    py_or (AgentState.final_amount st) (AgentDecision.recommended_amount d) in
  let order_id :=
    Order.order_id (ExceptionRequest.order (AgentState.request st)) in
  ∃ result w1 u,
    perform_action (AgentState.request st) amount
      (HumanReview.reviewer_id <$> AgentState.human_review st) (tick 1 w)
    = (Ok result, w1)
    ∧ execute_node st w = (Ok u, tick 1 w1)
    ∧ (truth (dict_get result "success") = true →
       AgentState.status (merge st u) = RequestStatus.COMPLETED
       ∧ AgentState.result_message (merge st u)
         = dict_get_str result "message"
       ∧ AgentState.final_amount (merge st u) = Some amount)
    ∧ (truth (dict_get result "success") = false →
       AgentState.status (merge st u) = RequestStatus.FAILED
       ∧ AgentState.result_message (merge st u)
         = dict_get_str result "error")
    ∧ (truth (dict_get result "success") = true
       ↔ ∃ order, action_succeeds w (AgentState.request st) amount order)
    ∧ (∀ order,
         action_succeeds w (AgentState.request st) amount order →
         AgentState.status (merge st u) = RequestStatus.COMPLETED
         ∧ AgentState.result_message (merge st u)
           = Some (success_message (AgentState.request st) amount order)
         ∧ AgentState.final_amount (merge st u) = Some amount)
    ∧ (_ORDERS w !! order_id = None →
       AgentState.status (merge st u) = RequestStatus.FAILED
       ∧ AgentState.result_message (merge st u)
         = Some ("Order " +:+ order_id +:+ " not found"))
    ∧ (∀ order,
         ExceptionRequest.exception_type (AgentState.request st)
         = ExceptionType.PRICE_ADJUSTMENT →
         _ORDERS w !! order_id = Some order →
         PrimFloat.ltb (Order.order_total order) amount = true →
         AgentState.status (merge st u) = RequestStatus.FAILED
         ∧ AgentState.result_message (merge st u)
           = Some ("Adjustment $" +:+ fmt_2f amount
                     +:+ " exceeds order total $"
                     +:+ fmt_2f (Order.order_total order)))
    ∧ (∀ ty v, ∃ u' v',
         log_result st amount (unknown_exception_type ty) v = (Ok u', v')
         ∧ AgentState.status (merge st u') = RequestStatus.FAILED
         ∧ AgentState.result_message (merge st u')
           = Some ("Unknown exception type: " +:+ ty)).
Proof.
  intros Hd amount order_id.
  destruct (execute_node_exact st w amount
              (λ v, py_or_else_recommended _ st d v Hd))
    as (result & w1 & Hact & E).
  destruct (perform_action_outcome (AgentState.request st) amount
              (HumanReview.reviewer_id <$> AgentState.human_review st)
              (tick 1 w))
    as (result' & w1' & Hact' & Hiff & Hmsg).
  rewrite Hact in Hact'. injection Hact' as <- <-.
  exists result, w1. eexists. split; [exact Hact|]. split; [exact E|].
  split; [|split; [|split; [|split; [|split; [|split]]]]].
  - intros ->. by repeat split.
  - intros ->. by split.
  - exact Hiff.
  - intros order Hok.
    assert (Hs : truth (dict_get result "success") = true)
      by (apply Hiff; by exists order).
    rewrite Hs. cbn. rewrite (Hmsg order Hok). by repeat split.
  - intros Hnone.
    destruct (perform_action_not_found _ amount
                (HumanReview.reviewer_id <$> AgentState.human_review st)
                (tick 1 w) Hnone) as (w2 & E2).
    rewrite E2 in Hact. injection Hact as <- _. by split.
  - intros order Hty Hsome Hlt.
    destruct (perform_action_exceeds _ amount
                (HumanReview.reviewer_id <$> AgentState.human_review st)
                (tick 1 w) order Hty Hsome Hlt) as (w2 & E2).
    rewrite E2 in Hact. injection Hact as <- _. by split.
  - intros ty v.
    destruct (log_result_eq st amount (unknown_exception_type ty) v)
      as (extra' & v' & E' & _).
    eexists _, v'. split; [exact E'|]. by split.
Qed.

Lemma execute_absorbs_domain_failures_witness :
  ∃ u w',
    execute_node
      (AgentState.mk Main.REQ_001 RequestStatus.APPROVED
         (Some (AnalysisService.analyze_exception_request Config.HITL_CONFIG
                  Main.REQ_001))
         None None None [])
      Main.demo_world
    = (Ok u, w')
    ∧ AgentState.status
        (merge
           (AgentState.mk Main.REQ_001 RequestStatus.APPROVED
              (Some (AnalysisService.analyze_exception_request
                       Config.HITL_CONFIG Main.REQ_001))
              None None None [])
           u)
      = RequestStatus.COMPLETED
    ∧ AgentState.result_message
        (merge
           (AgentState.mk Main.REQ_001 RequestStatus.APPROVED
              (Some (AnalysisService.analyze_exception_request
                       Config.HITL_CONFIG Main.REQ_001))
              None None None [])
           u)
      = Some "Refund of $29.99 processed successfully".
Proof.
  destruct (execute_absorbs_domain_failures
              (AgentState.mk Main.REQ_001 RequestStatus.APPROVED
                 (Some (AnalysisService.analyze_exception_request
                          Config.HITL_CONFIG Main.REQ_001))
                 None None None [])
              Main.demo_world
              (AnalysisService.analyze_exception_request Config.HITL_CONFIG
                 Main.REQ_001)
              eq_refl)
    as (result & w1 & u & _ & E & _ & _ & _ & Hok & _).
  exists u, (tick 1 w1). split; [exact E|].
  destruct (Hok (ExceptionRequest.order Main.REQ_001)) as (Hs & Hm & _).
  - split; [vm_compute; reflexivity|discriminate].
  - split; [exact Hs|]. rewrite Hm. vm_compute. reflexivity.
Defined.

(** ** The log only grows (C8) *)

Lemma graph_nodes_append name fn :
  assoc name (nodes (builder get_graph)) = Some fn → appends_to_log fn.
Proof.
  rewrite graph_nodes. cbn [assoc].
  repeat match goal with
         | |- context [String.eqb ?a name] =>
             destruct (String.eqb a name);
             [intros [= <-];
              auto using analyze_node_appends, human_review_node_appends,
                process_review_node_appends, execute_node_appends,
                rejected_node_appends|]
         end.
  discriminate.
Qed.

Lemma advance_log_prefix resuming cp w step cp' w' :
  advance get_graph resuming cp w = (step, cp', w') →
  AgentState.processing_log (values cp)
    `prefix_of` AgentState.processing_log (values cp').
Proof.
  rewrite advance_unfold.
  destruct (String.eqb (next cp) END); [by intros [= <- <- <-]|].
  destruct (existsb _ _ && negb resuming); [by intros [= <- <- <-]|].
  destruct (assoc (next cp) (nodes (builder get_graph))) as [fn|] eqn:Hfn;
    [|by intros [= <- <- <-]].
  destruct (fn (values cp) w) as [[u|e] w2] eqn:Hrun.
  - destruct (graph_nodes_append _ _ Hfn _ _ _ _ Hrun) as [extra Hlog].
    destruct (successor _ _ _); intros [= <- <- <-]; [done|].
    cbn. rewrite Hlog. cbn. by apply prefix_app_r.
  - by intros [= <- <- <-].
Qed.

Lemma run_loop_log_prefix run_id fuel : ∀ resuming cp (σ : Store) w,
  σ !! run_id = Some cp →
  ∃ cp',
    (run_loop fuel get_graph run_id resuming cp σ w).1.2 !! run_id = Some cp'
    ∧ AgentState.processing_log (values cp)
        `prefix_of` AgentState.processing_log (values cp').
Proof.
  induction fuel as [|fuel IH]; intros resuming cp σ w Hσ.
  - exists cp. by split.
  - cbn [run_loop].
    destruct (advance get_graph resuming cp w) as [[step cp1] w1] eqn:E.
    pose proof (advance_log_prefix _ _ _ _ _ _ E) as Hpre.
    destruct step as [|result].
    + destruct (IH false cp1 (<[run_id := cp1]> σ) w1) as (cp' & Hcp' & Hpre');
        [apply lookup_insert_eq|].
      exists cp'. split; [exact Hcp'|]. by etrans.
    + exists cp1. split; [apply lookup_insert_eq|exact Hpre].
Qed.

Lemma call_log_prefix run_id c (σ : Store) cp :
  continues c = true →
  σ !! run_id = Some cp →
  ∃ cp',
    call run_id σ c !! run_id = Some cp'
    ∧ AgentState.processing_log (values cp)
        `prefix_of` AgentState.processing_log (values cp').
Proof.
  intros Hc Hσ. destruct c as [fuel st w|fuel w|review]; cbn [call];
    [discriminate Hc| |].
  - unfold resume. rewrite Hσ. by apply run_loop_log_prefix.
  - rewrite (supply_review_stored _ _ _ _ Hσ). eexists.
    split; [apply lookup_insert_eq|reflexivity].
Qed.

Lemma calls_log_prefix run_id cs : ∀ (σ : Store) cp,
  forallb continues cs = true →
  σ !! run_id = Some cp →
  ∃ cp',
    calls run_id σ cs !! run_id = Some cp'
    ∧ AgentState.processing_log (values cp)
        `prefix_of` AgentState.processing_log (values cp').
Proof.
  induction cs as [|c cs IH]; intros σ cp Hcs Hσ.
  - exists cp. by split.
  - cbn [forallb] in Hcs. apply andb_true_iff in Hcs as [Hc Hcs].
    destruct (call_log_prefix run_id c σ cp Hc Hσ) as (cp1 & Hcp1 & Hpre1).
    destruct (IH _ cp1 Hcs Hcp1) as (cp' & Hcp' & Hpre').
    exists cp'. split; [exact Hcp'|]. by etrans.
Qed.

Lemma start_log_prefix fuel run_id st (σ : Store) w :
  ∃ cp',
    (start get_graph fuel run_id st σ w).1.2 !! run_id = Some cp'
    ∧ AgentState.processing_log st
        `prefix_of` AgentState.processing_log (values cp').
Proof.
  rewrite start_unfold.
  apply (run_loop_log_prefix run_id fuel false (mkCheckpoint st "analyze")).
  apply lookup_insert_eq.
Qed.

(** C8, as the code has it: the log of a run only grows. Every round of the
    executor leaves the log it found as a prefix of the log it stores; so
    does every call that goes on with a run: [resume] stores a log that
    extends the stored one and [supply_review] leaves the log as it is. A
    [start] stores a log that extends the log of the state it is given. So
    along a run, which is a [start] followed by any sequence of [resume] and
    [supply_review] calls, each stored log is a prefix of the later ones: no
    entry is removed or reordered, and the length never decreases. *)
Theorem log_grows_monotonically :
  (∀ resuming cp w step cp' w',
     advance get_graph resuming cp w = (step, cp', w') →
     AgentState.processing_log (values cp)
       `prefix_of` AgentState.processing_log (values cp')
     ∧ length (AgentState.processing_log (values cp))
       ≤ length (AgentState.processing_log (values cp')))
  ∧ (∀ fuel run_id st (σ : Store) w,
       ∃ cp',
         (start get_graph fuel run_id st σ w).1.2 !! run_id = Some cp'
         ∧ AgentState.processing_log st
             `prefix_of` AgentState.processing_log (values cp')
         ∧ length (AgentState.processing_log st)
           ≤ length (AgentState.processing_log (values cp')))
  ∧ (∀ fuel run_id (σ : Store) w cp,
       σ !! run_id = Some cp →
       ∃ cp',
         (resume get_graph fuel run_id σ w).1.2 !! run_id = Some cp'
         ∧ AgentState.processing_log (values cp)
             `prefix_of` AgentState.processing_log (values cp')
         ∧ length (AgentState.processing_log (values cp))
           ≤ length (AgentState.processing_log (values cp')))
  ∧ (∀ run_id review (σ : Store) cp,
       σ !! run_id = Some cp →
       ∃ cp',
         (supply_review run_id review σ).2 !! run_id = Some cp'
         ∧ AgentState.processing_log (values cp')
           = AgentState.processing_log (values cp))
  ∧ (∀ run_id (σ : Store) cp cs1 cs2,
       σ !! run_id = Some cp →
       forallb continues (cs1 ++ cs2) = true →
       ∃ cp1 cp2,
         calls run_id σ cs1 !! run_id = Some cp1
         ∧ calls run_id σ (cs1 ++ cs2) !! run_id = Some cp2
         ∧ AgentState.processing_log (values cp)
             `prefix_of` AgentState.processing_log (values cp1)
         ∧ AgentState.processing_log (values cp1)
             `prefix_of` AgentState.processing_log (values cp2)
         ∧ length (AgentState.processing_log (values cp1))
           ≤ length (AgentState.processing_log (values cp2)))
  ∧ (∀ run_id (σ : Store) fuel st w cs1 cs2,
       forallb continues (cs1 ++ cs2) = true →
       ∃ cp1 cp2,
         calls run_id σ (Start fuel st w :: cs1) !! run_id = Some cp1
         ∧ calls run_id σ (Start fuel st w :: cs1 ++ cs2) !! run_id
           = Some cp2
         ∧ AgentState.processing_log st
             `prefix_of` AgentState.processing_log (values cp1)
         ∧ AgentState.processing_log (values cp1)
             `prefix_of` AgentState.processing_log (values cp2)
         ∧ length (AgentState.processing_log (values cp1))
           ≤ length (AgentState.processing_log (values cp2))).
Proof.
  split; [|split; [|split; [|split; [|split]]]].
  - intros resuming cp w step cp' w' H.
    pose proof (advance_log_prefix _ _ _ _ _ _ H) as Hpre.
    split; [exact Hpre|]. by apply prefix_length.
  - intros fuel run_id st σ w.
    destruct (start_log_prefix fuel run_id st σ w) as (cp' & Hcp' & Hpre).
    exists cp'. split; [exact Hcp'|]. split; [exact Hpre|].
    by apply prefix_length.
  - intros fuel run_id σ w cp Hσ. unfold resume. rewrite Hσ.
    destruct (run_loop_log_prefix run_id fuel true cp σ w Hσ)
      as (cp' & Hcp' & Hpre).
    exists cp'. split; [exact Hcp'|]. split; [exact Hpre|].
    by apply prefix_length.
  - intros run_id review σ cp Hσ.
    rewrite (supply_review_stored _ _ _ _ Hσ). eexists.
    split; [apply lookup_insert_eq|reflexivity].
  - intros run_id σ cp cs1 cs2 Hσ Hcs.
    rewrite forallb_app in Hcs. apply andb_true_iff in Hcs as [Hcs1 Hcs2].
    destruct (calls_log_prefix run_id cs1 σ cp Hcs1 Hσ)
      as (cp1 & Hcp1 & Hpre1).
    destruct (calls_log_prefix run_id cs2 _ cp1 Hcs2 Hcp1)
      as (cp2 & Hcp2 & Hpre2).
    exists cp1, cp2. unfold calls in *. rewrite foldl_app.
    split; [done|]. split; [done|]. split; [done|]. split; [done|].
    by apply prefix_length.
  - intros run_id σ fuel st w cs1 cs2 Hcs.
    rewrite forallb_app in Hcs. apply andb_true_iff in Hcs as [Hcs1 Hcs2].
    destruct (start_log_prefix fuel run_id st σ w) as (cp0 & Hcp0 & Hpre0).
    destruct (calls_log_prefix run_id cs1 _ cp0 Hcs1 Hcp0)
      as (cp1 & Hcp1 & Hpre1).
    destruct (calls_log_prefix run_id cs2 _ cp1 Hcs2 Hcp1)
      as (cp2 & Hcp2 & Hpre2).
    exists cp1, cp2. unfold calls in *. cbn [foldl call].
    rewrite foldl_app.
    split; [done|]. split; [done|]. split; [by etrans|]. split; [done|].
    by apply prefix_length.
Qed.

Lemma log_grows_monotonically_witness :
  ∃ cp',
    (resume get_graph 10 "demo" (Main.started Main.REQ_002).1.2
       Main.demo_world).1.2 !! "demo" = Some cp'
    ∧ AgentState.processing_log
        (default (AgentState.initial Main.REQ_002)
           (Main.stored_state (Main.started Main.REQ_002)))
        `prefix_of` AgentState.processing_log (values cp')
    ∧ length
        (AgentState.processing_log
           (default (AgentState.initial Main.REQ_002)
              (Main.stored_state (Main.started Main.REQ_002))))
      ≤ length (AgentState.processing_log (values cp')).
Proof.
  apply (proj1 (proj2 (proj2 log_grows_monotonically)) 10 "demo"
           (Main.started Main.REQ_002).1.2 Main.demo_world
           (mkCheckpoint
              (default (AgentState.initial Main.REQ_002)
                 (Main.stored_state (Main.started Main.REQ_002)))
              "human_review")).
  vm_compute. reflexivity.
Defined.

(** C8 as stated fails on a sequence of calls that starts twice under one
    run identifier. The sample request REQ-002 is started under "demo": the
    stored log has 4 entries. The manager's approval is supplied and the run
    resumed: 13 entries. It is started again under "demo": [start] stores the
    state it is given, and the stored log is back to 4 entries. *)
Lemma restart_replaces_log_counterexample :
  stored_log_length "demo"
    (calls "demo" ∅
       [Start 10 (AgentState.initial Main.REQ_002) Main.demo_world])
  = Some 4
  ∧ stored_log_length "demo"
      (calls "demo" ∅
         [Start 10 (AgentState.initial Main.REQ_002) Main.demo_world;
          SupplyReview Main.review_approve;
          Resume 10 (Main.started Main.REQ_002).2])
    = Some 13
  ∧ stored_log_length "demo"
      (calls "demo" ∅
         [Start 10 (AgentState.initial Main.REQ_002) Main.demo_world;
          SupplyReview Main.review_approve;
          Resume 10 (Main.started Main.REQ_002).2;
          Start 10 (AgentState.initial Main.REQ_002)
            (Main.resumed Main.REQ_002 (Some Main.review_approve)).2])
    = Some 4.
Proof.
  split; [vm_compute; reflexivity|].
  split; vm_compute; reflexivity.
Qed.

(** ** The final amount along a run (C7) *)

Lemma run_invariant_initial request :
  run_invariant (mkCheckpoint (AgentState.initial request) "analyze").
Proof. left. by repeat split. Qed.

Lemma run_invariant_review review cp :
  run_invariant cp →
  run_invariant
    (mkCheckpoint
       (merge (values cp) (mkUpdate None None (Some review) None None None))
       (next cp)).
Proof. intros H. exact H. Qed.

Lemma run_invariant_advance resuming cp w step cp' w' :
  run_invariant cp →
  advance get_graph resuming cp w = (step, cp', w') →
  run_invariant cp'.
Proof.
  destruct cp as [st name]. unfold run_invariant at 1. cbn [values next].
  intros [(-> & Hfa & Hst)
         |[([->|[->| ->]] & Hfa & Hst & Hd)
          |[(-> & Hst & Hd)|(-> & Hinv & Hd)]]] H.
  - (* analyze *)
    destruct (analyze_node_eq st w) as (extra & w2 & E & _).
    rewrite (advance_analyze _ _ _ _ _ E) in H. injection H as <- <- <-.
    unfold run_invariant.
    cbn [values next merge default upd_status upd_decision
         upd_final_amount route_after_analysis AgentState.status
         AgentState.decision AgentState.final_amount].
    destruct (AgentDecision.requires_human_approval _).
    + right. left. split; [by left|]. by repeat split.
    + right. right. left. split; [done|]. split; [by left|done].
  - (* human_review *)
    destruct resuming.
    + destruct Hd as [d Hd].
      destruct (human_review_node_eq st w d Hd) as (extra & w2 & E & _).
      rewrite (advance_human_review_open _ _ _ _ E) in H.
      injection H as <- <- <-.
      right. left. split; [right; by left|]. cbn. rewrite Hd. by repeat split.
    + rewrite advance_human_review_closed in H. injection H as <- <- <-.
      right. left. split; [by left|]. by repeat split.
  - (* process_review *)
    destruct (process_review_node st w) as [[u|e] w2] eqn:E.
    + rewrite (advance_process_review _ _ _ _ _ E) in H.
      injection H as <- <- <-. destruct Hd as [d Hd].
      destruct (process_review_inv _ _ _ _ E)
        as (_ & extra & [[Hr ->]|[(rv & a & Hr & Ha & _ & ->)
                                 |(rv & Hr & Ha & ->)]]);
        unfold run_invariant, route_after_review;
        cbn -[py_or String.append];
        rewrite Hr, ?Ha, Hd.
      * right. left. split; [right; by right|]. by repeat split.
      * right. right. left. split; [done|]. split; [by left|done].
      * right. left. split; [right; by right|]. by repeat split.
    + apply process_review_raises in E. destruct Hd as [d Hd]. congruence.
  - (* rejected *)
    destruct (rejected_node_eq st w) as (extra & w2 & E & _).
    rewrite (advance_rejected _ _ _ _ _ E) in H. injection H as <- <- <-.
    right. right. right. split; [done|]. cbn. split; [|exact Hd].
    split; cbn; rewrite ?Hfa; [by intros [? [=]]|done].
  - (* execute *)
    destruct (execute_node st w) as [[u|e] w2] eqn:E.
    + rewrite (advance_execute _ _ _ _ _ E) in H. injection H as <- <- <-.
      destruct (execute_node_inv _ _ _ _ E) as (a & result & extra & c & _ & ->).
      right. right. right. split; [done|].
      destruct Hd as [d Hd].
      destruct (truth (dict_get result "success")); cbn; rewrite Hd;
        (split; [|done]); split; cbn; done.
    + apply execute_node_raises in E. destruct Hd as [d Hd]. congruence.
  - (* END *)
    rewrite advance_end in H. injection H as <- <- <-.
    right. right. right. split; [done|]. by split.
Qed.

Lemma reachable_run_invariant cp : reachable cp → run_invariant cp.
Proof.
  induction 1 as [request|resuming cp cp' w w' step _ IH Hadv|review cp _ IH].
  - apply run_invariant_initial.
  - by eapply run_invariant_advance.
  - by apply run_invariant_review.
Qed.

(** A run that has reached [execute_node] carries a decision. *)
Lemma reachable_execute_has_decision cp :
  reachable cp → next cp = "execute" → is_Some (AgentState.decision (values cp)).
Proof.
  intros Hr Hn. apply reachable_run_invariant in Hr.
  destruct Hr as [(Hx & _)|[([Hx|[Hx|Hx]] & _)|[(_ & _ & Hd)|(Hx & _)]]];
    try (rewrite Hn in Hx; discriminate Hx).
  exact Hd.
Qed.

(** C7, as the code has it: in every state a run can be in, the final amount
    is set only if the status is [APPROVED], [COMPLETED] or [FAILED], and it
    is set whenever the status is [COMPLETED]. *)
Theorem final_amount_only_after_approval cp :
  reachable cp →
  (is_Some (AgentState.final_amount (values cp)) →
   AgentState.status (values cp) = RequestStatus.APPROVED
   ∨ AgentState.status (values cp) = RequestStatus.COMPLETED
   ∨ AgentState.status (values cp) = RequestStatus.FAILED)
  ∧ (AgentState.status (values cp) = RequestStatus.COMPLETED →
     is_Some (AgentState.final_amount (values cp))).
Proof.
  intros Hr. apply reachable_run_invariant in Hr.
  assert (Hinv : final_amount_invariant (values cp)).
  { destruct Hr as [(_ & Hfa & Hst)|[(_ & Hfa & Hst & _)
                   |[(_ & Hst & _)|(_ & Hinv & _)]]].
    - split; [rewrite Hfa; by intros [? [=]]|done].
    - split; [rewrite Hfa; by intros [? [=]]|done].
    - split; [by destruct Hst as [-> | ->]|].
      by destruct Hst as [-> | ->].
    - exact Hinv. }
  destruct Hinv as [H1 H2]. split; [|exact H2].
  intros Hfa. specialize (H1 Hfa).
  destruct (AgentState.status (values cp)); try discriminate H1; auto.
Qed.

Lemma triple_eta {A B C} (x : A * B * C) : x = (x.1.1, x.1.2, x.2).
Proof. by destruct x as [[? ?] ?]. Qed.

Lemma reachable_after_analysis request :
  reachable (Main.after_analysis request).1.2.
Proof.
  apply (reach_advance false
           (mkCheckpoint (AgentState.initial request) "analyze") _
           Main.demo_world (Main.after_analysis request).2
           (Main.after_analysis request).1.1 (reach_initial request)).
  apply (triple_eta (Main.after_analysis request)).
Qed.

Lemma reachable_after_second_round request :
  reachable (Main.after_second_round request).1.2.
Proof.
  apply (reach_advance false (Main.after_analysis request).1.2 _
           (Main.after_analysis request).2
           (Main.after_second_round request).2
           (Main.after_second_round request).1.1
           (reachable_after_analysis request)).
  apply (triple_eta (Main.after_second_round request)).
Qed.

Lemma final_amount_only_after_approval_witness :
  (is_Some
     (AgentState.final_amount (values (Main.after_second_round Main.REQ_001).1.2)) →
   AgentState.status (values (Main.after_second_round Main.REQ_001).1.2)
   = RequestStatus.APPROVED
   ∨ AgentState.status (values (Main.after_second_round Main.REQ_001).1.2)
     = RequestStatus.COMPLETED
   ∨ AgentState.status (values (Main.after_second_round Main.REQ_001).1.2)
     = RequestStatus.FAILED)
  ∧ (AgentState.status (values (Main.after_second_round Main.REQ_001).1.2)
     = RequestStatus.COMPLETED →
     is_Some
       (AgentState.final_amount
          (values (Main.after_second_round Main.REQ_001).1.2))).
Proof.
  apply (final_amount_only_after_approval
           (Main.after_second_round Main.REQ_001).1.2).
  apply reachable_after_second_round.
Defined.

(** C7 as stated fails in both directions of "reached approval". After the
    analysis of the sample request REQ-001, which needs no review, the run is
    in a state with status [APPROVED] and no final amount. And the run of a
    small refund on an order the database does not hold passes approval and
    ends [FAILED], a status downstream of approval, with no final amount. *)
Lemma approved_without_final_amount_counterexample :
  reachable (Main.after_analysis Main.REQ_001).1.2
  ∧ AgentState.status (values (Main.after_analysis Main.REQ_001).1.2)
    = RequestStatus.APPROVED
  ∧ AgentState.final_amount (values (Main.after_analysis Main.REQ_001).1.2)
    = None
  ∧ reachable (Main.after_second_round Main.REQ_unknown_order).1.2
  ∧ AgentState.status
      (values (Main.after_analysis Main.REQ_unknown_order).1.2)
    = RequestStatus.APPROVED
  ∧ AgentState.status
      (values (Main.after_second_round Main.REQ_unknown_order).1.2)
    = RequestStatus.FAILED
  ∧ AgentState.final_amount
      (values (Main.after_second_round Main.REQ_unknown_order).1.2)
    = None
  ∧ Main.completed_state (Main.started Main.REQ_unknown_order)
    = Some (values (Main.after_second_round Main.REQ_unknown_order).1.2).
Proof.
  split; [apply reachable_after_analysis|].
  split; [vm_compute; reflexivity|].
  split; [vm_compute; reflexivity|].
  split; [apply reachable_after_second_round|].
  split; [vm_compute; reflexivity|].
  split; [vm_compute; reflexivity|].
  split; [vm_compute; reflexivity|].
  vm_compute. reflexivity.
Qed.

(** ** The analysis (C9, C10) *)

(** The fields of the decision, read off the checks that produce them. *)
Lemma should_approve_eq cfg request :
  AgentDecision.should_approve
    (AnalysisService.analyze_exception_request cfg request)
  = negb (AnalysisService._analyze_request_reason
            (ExceptionRequest.reason request)).1.
Proof.
  unfold AnalysisService.analyze_exception_request.
  destruct (AnalysisService._check_amount_threshold _ _) as [? ?].
  destruct (AnalysisService._check_vip_status _ _ _) as [? ?].
  destruct (AnalysisService._check_item_complexity _ _) as [? ?].
  destruct (AnalysisService.note_if _ _ _ _) as [? ?].
  destruct (AnalysisService._analyze_request_reason _) as [? ?].
  destruct (AnalysisService._calculate_recommended_amount _) as [? ?].
  reflexivity.
Qed.

Lemma recommended_amount_eq cfg request :
  AgentDecision.recommended_amount
    (AnalysisService.analyze_exception_request cfg request)
  = (AnalysisService._calculate_recommended_amount request).1.
Proof.
  unfold AnalysisService.analyze_exception_request.
  destruct (AnalysisService._check_amount_threshold _ _) as [? ?].
  destruct (AnalysisService._check_vip_status _ _ _) as [? ?].
  destruct (AnalysisService._check_item_complexity _ _) as [? ?].
  destruct (AnalysisService.note_if _ _ _ _) as [? ?].
  destruct (AnalysisService._analyze_request_reason _) as [? ?].
  destruct (AnalysisService._calculate_recommended_amount _) as [? ?].
  reflexivity.
Qed.

Lemma analyze_request_reason_clean reason :
  (AnalysisService._analyze_request_reason reason).1 = false
  ↔ ∀ signal,
      In signal AnalysisService.negative_signals →
      str_in signal (lower reason) = false.
Proof.
  unfold AnalysisService._analyze_request_reason.
  destruct (List.find _ _) as [signal|] eqn:Hfind; cbn [fst].
  - split; [discriminate|]. intros Hall.
    apply find_some in Hfind as [Hin Hhit].
    rewrite (Hall _ Hin) in Hhit. discriminate.
  - split; [|done]. intros _ signal Hin.
    exact (find_none _ _ Hfind _ Hin).
Qed.

(** C9, as the code has it: the recommendation [should_approve] is true
    exactly when the lowered reason contains none of the keywords "fraud",
    "unauthorized", "dispute", "chargeback", "stolen"; so two requests with
    the same reason get the same recommendation, whatever their amount,
    customer tier, item count and the thresholds in force. *)
Theorem should_approve_depends_on_reason_only :
  AnalysisService.negative_signals
  = ["fraud"; "unauthorized"; "dispute"; "chargeback"; "stolen"]
  ∧ (∀ cfg request,
       AgentDecision.should_approve
         (AnalysisService.analyze_exception_request cfg request) = true
       ↔ ∀ signal,
           In signal AnalysisService.negative_signals →
           str_in signal (lower (ExceptionRequest.reason request)) = false)
  ∧ (∀ cfg1 cfg2 request1 request2,
       ExceptionRequest.reason request1 = ExceptionRequest.reason request2 →
       AgentDecision.should_approve
         (AnalysisService.analyze_exception_request cfg1 request1)
       = AgentDecision.should_approve
           (AnalysisService.analyze_exception_request cfg2 request2)).
Proof.
  split; [reflexivity|]. split.
  - intros cfg request. rewrite should_approve_eq.
    rewrite <- analyze_request_reason_clean.
    by destruct (AnalysisService._analyze_request_reason _).1.
  - intros cfg1 cfg2 request1 request2 Hreason.
    by rewrite !should_approve_eq, Hreason.
Qed.

Lemma should_approve_depends_on_reason_only_witness :
  AgentDecision.should_approve
    (AnalysisService.analyze_exception_request Config.HITL_CONFIG Main.REQ_001)
  = AgentDecision.should_approve
      (AnalysisService.analyze_exception_request Config.HITL_CONFIG
         Main.REQ_001_150).
Proof.
  apply (proj2 (proj2 should_approve_depends_on_reason_only)
           Config.HITL_CONFIG Config.HITL_CONFIG Main.REQ_001
           Main.REQ_001_150).
  reflexivity.
Defined.

(** C9 as stated fails on its parenthesis: the amount also shapes the
    free-text reasoning of the decision. REQ-001 and the same request with
    150.00 asked for differ in the requested amount only, and the first is
    reasoned as a standard request, the second as a high-value one. *)
Lemma amount_shapes_reasoning_counterexample :
  ExceptionRequest.reason Main.REQ_001 = ExceptionRequest.reason Main.REQ_001_150
  ∧ ExceptionRequest.order Main.REQ_001 = ExceptionRequest.order Main.REQ_001_150
  ∧ ExceptionRequest.exception_type Main.REQ_001
    = ExceptionRequest.exception_type Main.REQ_001_150
  ∧ AgentDecision.reasoning
      (AnalysisService.analyze_exception_request Config.HITL_CONFIG
         Main.REQ_001)
    = "Standard request within normal parameters."
  ∧ AgentDecision.reasoning
      (AnalysisService.analyze_exception_request Config.HITL_CONFIG
         Main.REQ_001_150)
    = "High-value request ($150.00).".
Proof. vm_compute. repeat split; reflexivity. Qed.

(** Off the falsy amounts the recommended amount is the one the
    specification describes: the amount asked for (the order total when none
    is), capped at 20% of the order total for a price adjustment. *)
Lemma recommended_amount_as_specified cfg request :
  (∀ amount,
     ExceptionRequest.requested_amount request = Some amount →
     truth amount = true) →
  AgentDecision.recommended_amount
    (AnalysisService.analyze_exception_request cfg request)
  = recommended_amount_spec request.
Proof.
  intros Htruthy. rewrite recommended_amount_eq.
  unfold AnalysisService._calculate_recommended_amount,
    recommended_amount_spec, requested_or_total,
    ExceptionRequest.effective_amount, py_or, py_min.
  destruct (ExceptionRequest.requested_amount request) as [amount|].
  - rewrite (Htruthy amount eq_refl).
    destruct (ExceptionRequest.exception_type request); cbn;
      try reflexivity.
    by destruct (PrimFloat.ltb _ amount).
  - destruct (ExceptionRequest.exception_type request); cbn;
      try reflexivity.
    by destruct (PrimFloat.ltb _ _).
Qed.

(** C10: a refund request on the order ORD-1001 (total 29.99) that asks
    for the amount 0.0. The specification, as the docstring of
    [effective_amount], takes the requested amount when one is given, so the
    recommended amount is 0.0; the code computes
    [requested_amount or order_total], drops the falsy 0.0 and recommends the
    whole order total. *)
Theorem zero_request_takes_order_total :
  ExceptionRequest.requested_amount Main.REQ_zero = Some 0.0%float
  ∧ Order.order_total (ExceptionRequest.order Main.REQ_zero) = 29.99%float
  ∧ recommended_amount_spec Main.REQ_zero = 0.0%float
  ∧ ExceptionRequest.effective_amount Main.REQ_zero = 29.99%float
  ∧ AgentDecision.recommended_amount
      (AnalysisService.analyze_exception_request Config.HITL_CONFIG
         Main.REQ_zero)
    = 29.99%float.
Proof. vm_compute. repeat split; reflexivity. Qed.

(** * Contracts of the services and the nodes *)

Import Contracts.

(** ** Comparisons of floats *)

Lemma SFltb_irrefl s : SFltb s s = false.
Proof.
  unfold SFltb, SFcompare.
  destruct s as [[]|[]| |[] m e]; try reflexivity;
    rewrite ?Z.compare_refl; cbn; rewrite ?Pos.compare_refl; reflexivity.
Qed.

Lemma SFltb_asym a b : SFltb a b = true → SFltb b a = false.
Proof.
  unfold SFltb, SFcompare.
  destruct a as [[]|[]| |[] m e], b as [[]|[]| |[] m' e'];
    try reflexivity; try discriminate;
    change (PosDef.Pos.compare_cont Eq m m') with (Pos.compare m m');
    change (PosDef.Pos.compare_cont Eq m' m) with (Pos.compare m' m);
    rewrite (Z.compare_antisym e e'), (Pos.compare_antisym m m');
    destruct (e ?= e')%Z, (m ?= m')%positive; cbn;
    try reflexivity; try discriminate.
Qed.

Lemma ltb_irrefl x : PrimFloat.ltb x x = false.
Proof. rewrite ltb_spec. apply SFltb_irrefl. Qed.

Lemma ltb_asym x y : PrimFloat.ltb x y = true → PrimFloat.ltb y x = false.
Proof. rewrite !ltb_spec. apply SFltb_asym. Qed.

Lemma ltb_nan_r x : PrimFloat.ltb x nan = false.
Proof.
  rewrite ltb_spec. change (Prim2SF nan) with S754_nan.
  unfold SFltb, SFcompare. by destruct (Prim2SF x) as [[]|[]| |[] m e].
Qed.

Lemma ltb_nan_l x : PrimFloat.ltb nan x = false.
Proof. rewrite ltb_spec. reflexivity. Qed.

(** ** The analysis: when a human is called for *)

(** The list of approval reasons, read off the three checks. *)
Lemma approval_reasons_eq cfg request :
  AgentDecision.approval_reasons
    (AnalysisService.analyze_exception_request cfg request)
  = (if amount_exceeds cfg request
     then ["Amount $" +:+ fmt_2f (ExceptionRequest.effective_amount request)
             +:+ " exceeds auto-approve limit of $"
             +:+ fmt_2f (HITLConfigType.max_auto_approve_amount cfg)]
     else [])
    ++ (if vip_handling cfg request
        then ["Customer "
                +:+ Customer.name
                      (Order.customer (ExceptionRequest.order request))
                +:+ " is VIP tier - requires personalized handling"]
        else [])
    ++ (if too_many_items cfg request
        then ["Order has "
                +:+ pretty (Order.item_count (ExceptionRequest.order request))
                +:+ " items - complex exception needs review"]
        else []).
Proof.
  unfold AnalysisService.analyze_exception_request,
    AnalysisService._check_amount_threshold,
    AnalysisService._check_vip_status,
    AnalysisService._check_item_complexity,
    amount_exceeds, vip_handling, too_many_items.
  destruct (PrimFloat.ltb _ _);
    destruct (bool_decide _ && _);
    destruct (_ <? _)%Z;
    destruct (AnalysisService._analyze_request_reason _) as [? ?];
    destruct (AnalysisService._calculate_recommended_amount _) as [? ?];
    reflexivity.
Qed.

Lemma requires_human_approval_eq cfg request :
  AgentDecision.requires_human_approval
    (AnalysisService.analyze_exception_request cfg request)
  = amount_exceeds cfg request || vip_handling cfg request
    || too_many_items cfg request.
Proof.
  unfold AnalysisService.analyze_exception_request,
    AnalysisService._check_amount_threshold,
    AnalysisService._check_vip_status,
    AnalysisService._check_item_complexity,
    amount_exceeds, vip_handling, too_many_items.
  destruct (PrimFloat.ltb _ _);
    destruct (bool_decide _ && _);
    destruct (_ <? _)%Z;
    destruct (AnalysisService._analyze_request_reason _) as [? ?];
    destruct (AnalysisService._calculate_recommended_amount _) as [? ?];
    reflexivity.
Qed.

(** X1: the analysis requires human approval exactly when the effective
    amount is above [max_auto_approve_amount], or the customer is VIP and
    [vip_always_approve] is set, or the item count is above
    [multi_item_threshold]. *)
Theorem human_approval_required_iff cfg request :
  AgentDecision.requires_human_approval
    (AnalysisService.analyze_exception_request cfg request) = true
  ↔ PrimFloat.ltb (HITLConfigType.max_auto_approve_amount cfg)
      (ExceptionRequest.effective_amount request) = true
    ∨ (Customer.tier (Order.customer (ExceptionRequest.order request))
       = CustomerTier.VIP
       ∧ HITLConfigType.vip_always_approve cfg = true)
    ∨ (HITLConfigType.multi_item_threshold cfg
       < Order.item_count (ExceptionRequest.order request))%Z.
Proof.
  rewrite requires_human_approval_eq.
  unfold amount_exceeds, vip_handling, too_many_items.
  rewrite !orb_true_iff, andb_true_iff, bool_decide_eq_true, Z.ltb_lt.
  tauto.
Qed.

(** X2: the approval reasons are one sentence per check that fired, in the
    order amount, VIP, item count; so there are at most three, and the
    decision requires human approval exactly when the list is not empty. *)
Theorem approval_reasons_follow_checks cfg request :
  let d := AnalysisService.analyze_exception_request cfg request in
  AgentDecision.approval_reasons d
  = (if amount_exceeds cfg request
     then ["Amount $" +:+ fmt_2f (ExceptionRequest.effective_amount request)
             +:+ " exceeds auto-approve limit of $"
             +:+ fmt_2f (HITLConfigType.max_auto_approve_amount cfg)]
     else [])
    ++ (if vip_handling cfg request
        then ["Customer "
                +:+ Customer.name
                      (Order.customer (ExceptionRequest.order request))
                +:+ " is VIP tier - requires personalized handling"]
        else [])
    ++ (if too_many_items cfg request
        then ["Order has "
                +:+ pretty (Order.item_count (ExceptionRequest.order request))
                +:+ " items - complex exception needs review"]
        else [])
  ∧ length (AgentDecision.approval_reasons d) ≤ 3
  ∧ (AgentDecision.requires_human_approval d = true
     ↔ AgentDecision.approval_reasons d ≠ []).
Proof.
  intros d. unfold d. rewrite approval_reasons_eq, requires_human_approval_eq.
  split; [reflexivity|].
  destruct (amount_exceeds cfg request), (vip_handling cfg request),
    (too_many_items cfg request); cbn; (split; [lia|]); split; done.
Qed.

(** X3: what decides the route does not look at the reason. Two requests
    that differ in their reason only (and in their identifier) get the same
    human-approval flag, the same approval reasons and the same recommended
    amount: a concerning keyword lowers [should_approve] and calls for no
    review. *)
Theorem reason_never_calls_for_review cfg request1 request2 :
  ExceptionRequest.order request1 = ExceptionRequest.order request2 →
  ExceptionRequest.exception_type request1
  = ExceptionRequest.exception_type request2 →
  ExceptionRequest.requested_amount request1
  = ExceptionRequest.requested_amount request2 →
  let d1 := AnalysisService.analyze_exception_request cfg request1 in
  let d2 := AnalysisService.analyze_exception_request cfg request2 in
  AgentDecision.requires_human_approval d1
  = AgentDecision.requires_human_approval d2
  ∧ AgentDecision.approval_reasons d1 = AgentDecision.approval_reasons d2
  ∧ AgentDecision.recommended_amount d1 = AgentDecision.recommended_amount d2.
Proof.
  intros Ho Ht Ha d1 d2. unfold d1, d2.
  rewrite !requires_human_approval_eq, !approval_reasons_eq,
    !recommended_amount_eq.
  unfold amount_exceeds, vip_handling, too_many_items,
    AnalysisService._calculate_recommended_amount,
    ExceptionRequest.effective_amount.
  by rewrite Ho, Ht, Ha.
Qed.

Lemma reason_never_calls_for_review_witness :
  AgentDecision.requires_human_approval
    (AnalysisService.analyze_exception_request Config.HITL_CONFIG Main.REQ_001)
  = AgentDecision.requires_human_approval
      (AnalysisService.analyze_exception_request Config.HITL_CONFIG REQ_fraud)
  ∧ AgentDecision.approval_reasons
      (AnalysisService.analyze_exception_request Config.HITL_CONFIG
         Main.REQ_001)
    = AgentDecision.approval_reasons
        (AnalysisService.analyze_exception_request Config.HITL_CONFIG
           REQ_fraud)
  ∧ AgentDecision.recommended_amount
      (AnalysisService.analyze_exception_request Config.HITL_CONFIG
         Main.REQ_001)
    = AgentDecision.recommended_amount
        (AnalysisService.analyze_exception_request Config.HITL_CONFIG
           REQ_fraud).
Proof.
  apply (reason_never_calls_for_review Config.HITL_CONFIG Main.REQ_001
           REQ_fraud); reflexivity.
Defined.

(** The request that names fraud is recommended for rejection, needs no
    review, and its run refunds it all the same. *)
Example fraud_is_refunded_unreviewed :
  (λ d, (AgentDecision.should_approve d,
         AgentDecision.requires_human_approval d))
    (AnalysisService.analyze_exception_request Config.HITL_CONFIG REQ_fraud)
  = (false, false)
  ∧ (AgentState.status <$> Main.completed_state (Main.started REQ_fraud))
    = Some RequestStatus.COMPLETED
  ∧ payment_calls (Main.started REQ_fraud).2
    = [call_process_refund "ORD-1001" 29.99
         "Unauthorized charge on my card, possible fraud" None].
Proof. vm_compute. done. Qed.

(** X4: the thresholds are strict, and a NaN amount passes. An amount equal
    to [max_auto_approve_amount] and an item count equal to
    [multi_item_threshold] fire no check, one item more does; and no NaN
    amount ever fires the amount check. *)
Theorem thresholds_are_strict cfg :
  AnalysisService._check_amount_threshold cfg
    (HITLConfigType.max_auto_approve_amount cfg) = (false, None)
  ∧ AnalysisService._check_amount_threshold cfg nan = (false, None)
  ∧ AnalysisService._check_item_complexity cfg
      (HITLConfigType.multi_item_threshold cfg) = (false, None)
  ∧ (AnalysisService._check_item_complexity cfg
       (HITLConfigType.multi_item_threshold cfg + 1)).1 = true.
Proof.
  unfold AnalysisService._check_amount_threshold,
    AnalysisService._check_item_complexity.
  rewrite ltb_irrefl, ltb_nan_r, Z.ltb_irrefl.
  split; [done|]. split; [done|]. split; [done|].
  by rewrite (proj2 (Z.ltb_lt _ _)) by lia.
Qed.

(** X5: for a price adjustment the recommended amount is the effective
    amount or the cap of 20% of the order total, and it is above neither. *)
Theorem price_adjustment_is_capped cfg request :
  ExceptionRequest.exception_type request = ExceptionType.PRICE_ADJUSTMENT →
  let recommended :=
    AgentDecision.recommended_amount
      (AnalysisService.analyze_exception_request cfg request) in
  let cap :=
    (Order.order_total (ExceptionRequest.order request) * 0.20)%float in
  (recommended = ExceptionRequest.effective_amount request
   ∨ recommended = cap)
  ∧ PrimFloat.ltb cap recommended = false
  ∧ PrimFloat.ltb (ExceptionRequest.effective_amount request) recommended
    = false.
Proof.
  intros Hty recommended cap. unfold recommended.
  rewrite recommended_amount_eq.
  unfold AnalysisService._calculate_recommended_amount. rewrite Hty.
  cbn [bool_decide decide_rel]. rewrite bool_decide_eq_true_2 by done.
  fold cap.
  destruct (PrimFloat.ltb cap (ExceptionRequest.effective_amount request))
    eqn:Hlt; cbn [fst].
  - split; [by right|]. split; [apply ltb_irrefl|by apply ltb_asym].
  - split; [by left|]. split; [exact Hlt|apply ltb_irrefl].
Qed.

Lemma price_adjustment_is_capped_witness :
  (AgentDecision.recommended_amount
     (AnalysisService.analyze_exception_request Config.HITL_CONFIG
        Main.REQ_004)
   = ExceptionRequest.effective_amount Main.REQ_004
   ∨ AgentDecision.recommended_amount
       (AnalysisService.analyze_exception_request Config.HITL_CONFIG
          Main.REQ_004)
     = (Order.order_total (ExceptionRequest.order Main.REQ_004) * 0.20)%float)
  ∧ PrimFloat.ltb
      (Order.order_total (ExceptionRequest.order Main.REQ_004) * 0.20)%float
      (AgentDecision.recommended_amount
         (AnalysisService.analyze_exception_request Config.HITL_CONFIG
            Main.REQ_004))
    = false
  ∧ PrimFloat.ltb (ExceptionRequest.effective_amount Main.REQ_004)
      (AgentDecision.recommended_amount
         (AnalysisService.analyze_exception_request Config.HITL_CONFIG
            Main.REQ_004))
    = false.
Proof.
  apply (price_adjustment_is_capped Config.HITL_CONFIG Main.REQ_004).
  reflexivity.
Defined.

(** ** tools/payment_service.py *)

Ltac payment_exec :=
  unfold PaymentService.process_refund, PaymentService.cancel_order,
    PaymentService.apply_price_adjustment;
  py_exec.

(** X6: [process_refund] never raises and succeeds exactly when the order is
    in the database, whatever the amount: it is never compared with the order
    total. The confirmation carries the amount as given and the approver, or
    "AUTO" when there is none (or an empty one); a missing order gives the
    "not found" error. The database is left as it was. *)
Theorem refund_succeeds_iff_order_exists order_id amount reason approved_by w :
  ∃ result w',
    PaymentService.process_refund order_id amount reason approved_by w
    = (Ok result, w')
    ∧ (truth (dict_get result "success") = true
       ↔ is_Some (_ORDERS w !! order_id))
    ∧ (is_Some (_ORDERS w !! order_id) →
       dict_get result "amount" = VFloat amount
       ∧ dict_get result "approved_by" = VStr (py_or approved_by "AUTO")
       ∧ dict_get_str result "message"
         = Some ("Refund of $" +:+ fmt_2f amount +:+ " processed successfully"))
    ∧ (_ORDERS w !! order_id = None →
       dict_get_str result "error"
       = Some ("Order " +:+ order_id +:+ " not found"))
    ∧ _ORDERS w' = _ORDERS w.
Proof.
  payment_exec. destruct (_ORDERS w !! order_id) as [order|] eqn:E; py_exec;
    eexists _, _; (split; [reflexivity|]); cbn.
  - split; [done|]. split; [done|]. split; [done|]. done.
  - split; [split; [done|by intros []]|].
    split; [by intros []|]. done.
Qed.

(** X7: [cancel_order] never raises and succeeds exactly when the order is in
    the database; the refund it announces is the order total as stored in the
    database under that id. A cancellation therefore runs the same for any
    two amounts handed to [perform_action]: the settled amount plays no part
    in it. *)
Theorem cancellation_refunds_stored_total order_id reason approved_by w :
  (∃ result w',
     PaymentService.cancel_order order_id reason approved_by w
     = (Ok result, w')
     ∧ (truth (dict_get result "success") = true
        ↔ is_Some (_ORDERS w !! order_id))
     ∧ (∀ order, _ORDERS w !! order_id = Some order →
        dict_get result "refund_amount" = VFloat (Order.order_total order)
        ∧ dict_get result "approved_by" = VStr (py_or approved_by "AUTO")
        ∧ dict_get_str result "message"
          = Some ("Order " +:+ order_id +:+ " cancelled. Refund of $"
                    +:+ fmt_2f (Order.order_total order) +:+ " initiated."))
     ∧ (_ORDERS w !! order_id = None →
        dict_get_str result "error"
        = Some ("Order " +:+ order_id +:+ " not found"))
     ∧ _ORDERS w' = _ORDERS w)
  ∧ ∀ request amount1 amount2,
      ExceptionRequest.exception_type request = ExceptionType.CANCELLATION →
      perform_action request amount1 approved_by w
      = perform_action request amount2 approved_by w.
Proof.
  split.
  - payment_exec.
    destruct (_ORDERS w !! order_id) as [order|] eqn:E; py_exec;
      eexists _, _; (split; [reflexivity|]); cbn.
    + split; [done|]. split; [|done]. by intros ? [= <-].
    + split; [split; [done|by intros []]|]. split; [done|]. done.
  - intros request amount1 amount2 Hty. unfold perform_action.
    by rewrite Hty.
Qed.

Lemma cancellation_refunds_stored_total_witness :
  (∃ result w',
     PaymentService.cancel_order "ORD-1003" "Changed my mind" (Some "EMP-001")
       Main.demo_world
     = (Ok result, w')
     ∧ (truth (dict_get result "success") = true
        ↔ is_Some (_ORDERS Main.demo_world !! "ORD-1003"))
     ∧ (∀ order, _ORDERS Main.demo_world !! "ORD-1003" = Some order →
        dict_get result "refund_amount" = VFloat (Order.order_total order)
        ∧ dict_get result "approved_by"
          = VStr (py_or (Some "EMP-001") "AUTO")
        ∧ dict_get_str result "message"
          = Some ("Order " +:+ "ORD-1003" +:+ " cancelled. Refund of $"
                    +:+ fmt_2f (Order.order_total order) +:+ " initiated."))
     ∧ (_ORDERS Main.demo_world !! "ORD-1003" = None →
        dict_get_str result "error"
        = Some ("Order " +:+ "ORD-1003" +:+ " not found"))
     ∧ _ORDERS w' = _ORDERS Main.demo_world)
  ∧ perform_action Main.REQ_003 1 (Some "EMP-001") Main.demo_world
    = perform_action Main.REQ_003 75 (Some "EMP-001") Main.demo_world.
Proof.
  destruct (cancellation_refunds_stored_total "ORD-1003" "Changed my mind"
              (Some "EMP-001") Main.demo_world) as [H1 H2].
  split; [exact H1|]. apply H2. reflexivity.
Defined.

(** X8: [apply_price_adjustment] never raises and succeeds exactly when the
    order is in the database and the adjustment is not above its total; an
    adjustment equal to the total and a NaN adjustment both pass. On success
    the new effective total is the total less the adjustment. *)
Theorem adjustment_succeeds_iff_within_total order_id adjustment reason
    approved_by w :
  ∃ result w',
    PaymentService.apply_price_adjustment order_id adjustment reason
      approved_by w
    = (Ok result, w')
    ∧ (truth (dict_get result "success") = true
       ↔ ∃ order, _ORDERS w !! order_id = Some order
                  ∧ PrimFloat.ltb (Order.order_total order) adjustment = false)
    ∧ (∀ order, _ORDERS w !! order_id = Some order →
       (adjustment = Order.order_total order ∨ adjustment = nan →
        truth (dict_get result "success") = true)
       ∧ (truth (dict_get result "success") = true →
          dict_get result "new_effective_total"
          = VFloat (Order.order_total order - adjustment)%float
          ∧ dict_get result "adjustment_amount" = VFloat adjustment)
       ∧ (truth (dict_get result "success") = false →
          dict_get_str result "error"
          = Some ("Adjustment $" +:+ fmt_2f adjustment
                    +:+ " exceeds order total $"
                    +:+ fmt_2f (Order.order_total order))))
    ∧ _ORDERS w' = _ORDERS w.
Proof.
  payment_exec.
  destruct (_ORDERS w !! order_id) as [order|] eqn:E; py_exec.
  - destruct (PrimFloat.ltb (Order.order_total order) adjustment) eqn:Hlt;
      py_exec; eexists _, _; (split; [reflexivity|]); cbn.
    + split; [split; [done|]|].
      { intros (o & [= <-] & Ho). congruence. }
      split; [|done]. intros o [= <-]. split; [|done].
      intros [->| ->].
      * by rewrite ltb_irrefl in Hlt.
      * by rewrite ltb_nan_r in Hlt.
    + split; [split; [by exists order|done]|].
      split; [|done]. by intros o [= <-].
  - eexists _, _. split; [reflexivity|]. cbn.
    split; [split; [done|by intros (? & ? & ?)]|]. done.
Qed.

(** ** graph.py: the nodes *)

(** What [perform_action] does for any request, amount and approver. *)
Lemma perform_action_spec request amount approved_by w :
  ∃ result w',
    perform_action request amount approved_by w = (Ok result, w')
    ∧ payment_calls w'
      = payment_calls w ++ [expected_call request amount approved_by]
    ∧ same_data w w'
    ∧ (truth (dict_get result "success") = true
       ↔ ∃ order,
           _ORDERS w !! Order.order_id (ExceptionRequest.order request)
           = Some order
           ∧ (ExceptionRequest.exception_type request
              = ExceptionType.PRICE_ADJUSTMENT →
              PrimFloat.ltb (Order.order_total order) amount = false))
    ∧ ∃ text,
        dict_get_str result
          (if truth (dict_get result "success") then "message" else "error")
        = Some text.
Proof.
  unfold perform_action, expected_call.
  destruct (ExceptionRequest.exception_type request) eqn:Hty;
    payment_exec;
    destruct (_ORDERS w !! _) as [order|] eqn:E; py_exec;
    try (destruct (PrimFloat.ltb (Order.order_total order) amount) eqn:Hlt;
         py_exec);
    eexists _, _; (split; [reflexivity|]); cbn;
    (split; [reflexivity|]); (split; [done|]);
    (split; [|by eexists]);
    first
      [ by split; [intros _; exists order|]
      | split; [done|]; intros (o & Ho & Hle);
        first [done | injection Ho as <-; specialize (Hle eq_refl);
                      congruence] ].
Qed.

Lemma execute_node_spec st w amount :
  (∀ v, py_or_else (AgentState.final_amount st)
          (let* decision := AgentState.decision_attr st "recommended_amount" in
           ret (AgentDecision.recommended_amount decision)) v
        = (Ok amount, v)) →
  ∃ result extra w',
    execute_node st w
    = (Ok (if truth (dict_get result "success")
           then mkUpdate (Some RequestStatus.COMPLETED) None None
                  (Some amount) (Some (dict_get_str result "message"))
                  (Some (AgentState.processing_log st ++ extra))
           else mkUpdate (Some RequestStatus.FAILED) None None None
                  (Some (dict_get_str result "error"))
                  (Some (AgentState.processing_log st ++ extra))), w')
    ∧ payment_calls w'
      = payment_calls w
        ++ [expected_call (AgentState.request st) amount
              (HumanReview.reviewer_id <$> AgentState.human_review st)]
    ∧ same_data w w'
    ∧ (truth (dict_get result "success") = true
       ↔ ∃ order,
           _ORDERS w
           !! Order.order_id (ExceptionRequest.order (AgentState.request st))
           = Some order
           ∧ (ExceptionRequest.exception_type (AgentState.request st)
              = ExceptionType.PRICE_ADJUSTMENT →
              PrimFloat.ltb (Order.order_total order) amount = false))
    ∧ ∃ text,
        dict_get_str result
          (if truth (dict_get result "success") then "message" else "error")
        = Some text.
Proof.
  intros Hamt. unfold execute_node.
  rewrite (bind_Ok _ _ w _ _ (Hamt w)).
  py_exec.
  match goal with
  | |- context [bind (perform_action ?r ?a ?b) ?k ?v] =>
      destruct (perform_action_spec r a b v)
        as (result & w1 & E & Hc & Hsame & Hiff & Htext);
      rewrite (bind_Ok _ k v _ _ E)
  end.
  exists result.
  unfold log_result.
  destruct (truth (dict_get result "success")) eqn:Hs; py_exec;
    (eexists _, _; split;
     [rewrite <- !app_assoc; reflexivity|]); cbn;
    rewrite ?Hc; cbn;
    (split; [by destruct (AgentState.human_review st)|]);
    (split; [exact Hsame|]);
    (split; [exact Hiff|exact Htext]).
Qed.

(** X9: [execute_node] on a state with a decision attached. It makes exactly
    one call to the payment service: the one of the request's exception type,
    on the request's order, with the settled amount ([final_amount], or the
    recommended amount when that is absent or zero), the request's reason and
    the reviewer's id when a review is attached. The status becomes
    [COMPLETED] exactly when the order is in the database and, for a price
    adjustment, the amount is not above its total; otherwise it becomes
    [FAILED]. The result message is a text in both cases, and the final
    amount is written on success only. *)
Theorem execute_calls_payment_service_once st w d :
  AgentState.decision st = Some d →
  let amount :=
    py_or (AgentState.final_amount st) (AgentDecision.recommended_amount d) in
  ∃ u w',
    execute_node st w = (Ok u, w')
    ∧ payment_calls w'
      = payment_calls w
        ++ [expected_call (AgentState.request st) amount
              (HumanReview.reviewer_id <$> AgentState.human_review st)]
    ∧ (upd_status u = Some RequestStatus.COMPLETED
       ∨ upd_status u = Some RequestStatus.FAILED)
    ∧ (upd_status u = Some RequestStatus.COMPLETED
       ↔ ∃ order,
           _ORDERS w
           !! Order.order_id (ExceptionRequest.order (AgentState.request st))
           = Some order
           ∧ (ExceptionRequest.exception_type (AgentState.request st)
              = ExceptionType.PRICE_ADJUSTMENT →
              PrimFloat.ltb (Order.order_total order) amount = false))
    ∧ (∃ text, upd_result_message u = Some (Some text))
    ∧ upd_final_amount u
      = (if bool_decide (upd_status u = Some RequestStatus.COMPLETED)
         then Some amount else None)
    ∧ upd_decision u = None ∧ upd_human_review u = None.
Proof.
  intros Hd amount.
  destruct (execute_node_spec st w amount
              (λ v, py_or_else_recommended _ st d v Hd))
    as (result & extra & w' & E & Hc & _ & Hiff & text & Htext).
  eexists _, w'. split; [exact E|]. split; [exact Hc|].
  destruct (truth (dict_get result "success")) eqn:Hs; cbn.
  - split; [by left|]. split; [by rewrite <- Hiff|].
    split; [exists text; by rewrite Htext|]. done.
  - split; [by right|]. split.
    + split; [done|]. intros H. apply Hiff in H. done.
    + split; [exists text; by rewrite Htext|]. done.
Qed.

Lemma execute_calls_payment_service_once_witness :
  ∃ u w',
    execute_node
      (AgentState.mk Main.REQ_004 RequestStatus.APPROVED
         (Some (AnalysisService.analyze_exception_request Config.HITL_CONFIG
                  Main.REQ_004))
         (Some Main.review_adjust) (Some 35%float) None [])
      Main.demo_world
    = (Ok u, w')
    ∧ payment_calls w'
      = payment_calls Main.demo_world
        ++ [call_apply_price_adjustment "ORD-1004" 35
              "Saw items on sale a week after purchase, requesting price match"
              (Some (HumanReview.reviewer_id Main.review_adjust))]
    ∧ upd_status u = Some RequestStatus.COMPLETED.
Proof.
  destruct (execute_calls_payment_service_once
              (AgentState.mk Main.REQ_004 RequestStatus.APPROVED
                 (Some (AnalysisService.analyze_exception_request
                          Config.HITL_CONFIG Main.REQ_004))
                 (Some Main.review_adjust) (Some 35%float) None [])
              Main.demo_world _ eq_refl)
    as (u & w' & E & Hc & _ & Hiff & _).
  exists u, w'. split; [exact E|]. split; [exact Hc|].
  apply Hiff. eexists. split; [vm_compute; reflexivity|].
  intros _. vm_compute. reflexivity.
Defined.

(** *** When a node raises *)

Lemma settle_truthy (amount : option float) (fallback : Py float) :
  truth amount = true →
  ∃ x, amount = Some x ∧ ∀ v, py_or_else amount fallback v = (Ok x, v).
Proof.
  destruct amount as [x|]; [|done]. cbn. intros Hx. exists x.
  split; [done|]. intros v. unfold py_or_else. by rewrite Hx.
Qed.

Lemma settle_raises (amount : option float) st v :
  AgentState.decision st = None →
  truth amount = false →
  py_or_else amount
    (let* decision := AgentState.decision_attr st "recommended_amount" in
     ret (AgentDecision.recommended_amount decision)) v
  = (Raise (no_attribute "recommended_amount"), v).
Proof.
  intros Hd Hx. unfold py_or_else, AgentState.decision_attr. rewrite Hd.
  destruct amount as [x|]; [cbn in Hx; rewrite Hx|]; reflexivity.
Qed.

Lemma process_review_node_raises_eq st w review :
  AgentState.human_review st = Some review →
  HumanReview.approved review = true →
  AgentState.decision st = None →
  truth (HumanReview.adjusted_amount review) = false →
  ∃ w', process_review_node st w
        = (Raise (no_attribute "recommended_amount"), w').
Proof.
  intros Hr Ha Hd Hx.
  destruct st as [rq s dec hr fa rm lg]. cbn in Hr, Hd. subst hr dec.
  unfold process_review_node. py_exec. rewrite Ha. py_exec.
  unfold py_or_else.
  destruct (HumanReview.adjusted_amount review) as [x|];
    cbn in Hx; rewrite ?Hx; py_exec; by eexists.
Qed.

Lemma execute_node_raises_eq st w :
  AgentState.decision st = None →
  truth (AgentState.final_amount st) = false →
  execute_node st w = (Raise (no_attribute "recommended_amount"), w).
Proof.
  intros Hd Hx. unfold execute_node.
  by rewrite (bind_Raise _ _ w _ w (settle_raises _ st w Hd Hx)).
Qed.

(** X10: which nodes raise, and when. [analyze_node] and [rejected_node]
    always return. [human_review_node] raises an [AttributeError] exactly when
    no decision is attached. [process_review_node] raises one exactly when the
    review approves, its adjusted amount is absent or zero, and no decision is
    attached; [execute_node] exactly when the final amount is absent or zero
    and no decision is attached. In every other case the node returns: no
    node raises anything else. *)
Theorem nodes_raise_only_without_decision st w :
  returns (analyze_node st w)
  ∧ returns (rejected_node st w)
  ∧ (if has_decision st
     then returns (human_review_node st w)
     else raises_attribute_error (human_review_node st w))
  ∧ (if approval_unsettled st
     then raises_attribute_error (process_review_node st w)
     else returns (process_review_node st w))
  ∧ (if unsettled (AgentState.final_amount st) st
     then raises_attribute_error (execute_node st w)
     else returns (execute_node st w)).
Proof.
  unfold returns, raises_attribute_error, approval_unsettled, unsettled,
    has_decision.
  split; [|split; [|split; [|split]]].
  - destruct (analyze_node_eq st w) as (extra & w' & E & _). by eexists _, _.
  - destruct (rejected_node_eq st w) as (extra & w' & E & _). by eexists _, _.
  - destruct (AgentState.decision st) as [d|] eqn:Hd.
    + destruct (human_review_node_eq st w d Hd) as (extra & w' & E & _).
      by eexists _, _.
    + destruct st as [rq s dec hr fa rm lg]. cbn in Hd. subst dec.
      unfold human_review_node. py_exec. by eexists _, _.
  - destruct (AgentState.human_review st) as [review|] eqn:Hr.
    + destruct (HumanReview.approved review) eqn:Ha; cbn [andb].
      * destruct (truth (HumanReview.adjusted_amount review)) eqn:Hx;
          cbn [negb andb].
        -- destruct (settle_truthy _
                       (let* decision :=
                          AgentState.decision_attr st "recommended_amount" in
                        ret (AgentDecision.recommended_amount decision)) Hx)
             as (x & _ & Hsettle).
           destruct (process_review_approved st w review x Hr Ha Hsettle)
             as (extra & w' & E & _).
           by eexists _, _.
        -- destruct (AgentState.decision st) as [d|] eqn:Hd; cbn [negb].
           ++ destruct (process_review_approved st w review
                          (py_or (HumanReview.adjusted_amount review)
                             (AgentDecision.recommended_amount d)) Hr Ha)
                as (extra & w' & E & _).
              { intros v. by apply py_or_else_recommended. }
              by eexists _, _.
           ++ destruct (process_review_node_raises_eq st w review Hr Ha Hd Hx)
                as (w' & E).
              by eexists _, _.
      * destruct (process_review_rejected st w review Hr Ha)
          as (extra & w' & E & _).
        by eexists _, _.
    + destruct (process_review_missing st w Hr) as (extra & w' & E & _).
      by eexists _, _.
  - destruct (truth (AgentState.final_amount st)) eqn:Hx; cbn [negb andb].
    + destruct (settle_truthy _
                  (let* decision :=
                     AgentState.decision_attr st "recommended_amount" in
                   ret (AgentDecision.recommended_amount decision)) Hx)
        as (x & _ & Hsettle).
      destruct (execute_node_spec st w x Hsettle) as (? & ? & w' & E & _).
      by eexists _, _.
    + destruct (AgentState.decision st) as [d|] eqn:Hd; cbn [negb].
      * destruct (execute_node_spec st w _
                    (λ v, py_or_else_recommended _ st d v Hd))
          as (? & ? & w' & E & _).
        by eexists _, _.
      * rewrite (execute_node_raises_eq st w Hd Hx). by eexists _, _.
Qed.

(** *** What a node leaves alone *)

Lemma add_log_each_frame messages : ∀ st w,
  ∃ st' w',
    add_log_each messages st w = (Ok st', w')
    ∧ same_data w w'
    ∧ payment_calls w' = payment_calls w.
Proof.
  induction messages as [|message rest IH]; intros st w.
  - by exists st, w.
  - cbn [add_log_each]. unfold bind at 1. py_exec.
    match goal with
    | |- context [add_log_each rest ?s ?v] =>
        destruct (IH s v) as (st' & w' & E & Hsame & Hcalls)
    end.
    exists st', w'. by rewrite E.
Qed.

Ltac frame_rest :=
  cbn; (split; [reflexivity|]); (split; [done|]);
  let Hu := fresh in intros ? Hu; first [done | by injection Hu as <-].

Ltac frame_done := cbn; (split; [done|]); frame_rest.

Lemma analyze_node_frame : keeps_frame "analyze" analyze_node.
Proof.
  intros st w. unfold analyze_node. py_exec.
  destruct (AgentDecision.requires_human_approval _).
  - match goal with
    | |- context [bind (add_log_each ?m ?s) ?k ?v] =>
        destruct (add_log_each_frame m s v) as (st' & w' & E & Hsame & Hcalls);
        rewrite !(bind_Ok _ k _ _ _ E)
    end.
    py_exec. split; [exact Hsame|]. rewrite Hcalls. frame_rest.
  - py_exec. frame_done.
Qed.

Lemma human_review_node_frame : keeps_frame "human_review" human_review_node.
Proof.
  intros st w. destruct st as [rq s [d|] hr fa rm lg];
    unfold human_review_node; py_exec; frame_done.
Qed.

Lemma rejected_node_frame : keeps_frame "rejected" rejected_node.
Proof.
  intros st w. unfold rejected_node. py_exec. frame_done.
Qed.

Lemma process_review_node_frame :
  keeps_frame "process_review" process_review_node.
Proof.
  intros st w. destruct st as [rq s dec [review|] fa rm lg];
    unfold process_review_node; py_exec; [|frame_done].
  destruct (HumanReview.approved review); py_exec; [|frame_done].
  unfold py_or_else, AgentState.decision_attr.
  destruct (HumanReview.adjusted_amount review) as [x|];
    [destruct (truth x)|]; destruct dec as [d|]; py_exec;
    try (destruct (HumanReview.notes review) as [notes|];
         [destruct (truth notes)|]; py_exec);
    frame_done.
Qed.

Lemma execute_node_frame : keeps_frame "execute" execute_node.
Proof.
  intros st w.
  destruct (settle_cases (AgentState.final_amount st) st)
    as [[x Hx]|[Hd [e He]]].
  - destruct (execute_node_spec st w x Hx)
      as (result & extra & w' & E & Hc & Hsame & _).
    rewrite E. cbn [fst snd]. split; [exact Hsame|].
    split; [rewrite Hc; by apply prefix_app_r|]. split; [done|].
    intros u [= <-]. by destruct (truth (dict_get result "success")).
  - unfold execute_node. rewrite (bind_Raise _ _ w e w (He w)). frame_done.
Qed.

Lemma graph_nodes_frame name fn :
  assoc name (nodes (builder get_graph)) = Some fn → keeps_frame name fn.
Proof.
  rewrite graph_nodes. cbn [assoc].
  repeat match goal with
         | |- context [String.eqb ?a name] =>
             let Heq := fresh "Heq" in
             destruct (String.eqb a name) eqn:Heq;
             [apply String.eqb_eq in Heq; subst name; intros [= <-];
              auto using analyze_node_frame, human_review_node_frame,
                process_review_node_frame, execute_node_frame,
                rejected_node_frame|]
         end.
  discriminate.
Qed.

(** X11: what a round of the workflow leaves alone, whatever the checkpoint
    and the world, and whether its node returns or raises. The request and the
    review are never written by a node; the decision is written by "analyze"
    only; the configuration and the database are left as they were; and the
    calls made to the payment service so far are kept, a round outside
    "execute" adding none. *)
Theorem round_keeps_request_and_data resuming cp w step cp' w' :
  advance get_graph resuming cp w = (step, cp', w') →
  AgentState.request (values cp') = AgentState.request (values cp)
  ∧ AgentState.human_review (values cp')
    = AgentState.human_review (values cp)
  ∧ (next cp ≠ "analyze" →
     AgentState.decision (values cp') = AgentState.decision (values cp))
  ∧ same_data w w'
  ∧ payment_calls w `prefix_of` payment_calls w'
  ∧ (next cp ≠ "execute" → payment_calls w' = payment_calls w).
Proof.
  rewrite advance_unfold.
  destruct (String.eqb (next cp) END); [by intros [= <- <- <-]|].
  destruct (existsb _ _ && negb resuming); [by intros [= <- <- <-]|].
  destruct (assoc (next cp) (nodes (builder get_graph))) as [fn|] eqn:Hfn;
    [|by intros [= <- <- <-]].
  destruct (graph_nodes_frame _ _ Hfn (values cp) w)
    as (Hsame & Hpre & Hcalls & Hupd).
  destruct (fn (values cp) w) as [[u|e] w2] eqn:Hrun; cbn [fst snd] in *.
  - destruct (Hupd u eq_refl) as [Hrev Hdec].
    destruct (successor _ _ _); intros [= <- <- <-];
      (split; [done|]); cbn; rewrite ?Hrev; (split; [done|]);
      (split; [|done]); intros Hn; [done|by rewrite (Hdec Hn)].
  - intros [= <- <- <-]. done.
Qed.

Lemma round_keeps_request_and_data_witness :
  AgentState.request (values (Main.after_analysis Main.REQ_002).1.2)
  = Main.REQ_002
  ∧ payment_calls (Main.after_analysis Main.REQ_002).2
    = payment_calls Main.demo_world.
Proof.
  destruct (round_keeps_request_and_data false
              (mkCheckpoint (AgentState.initial Main.REQ_002) "analyze")
              Main.demo_world
              (Main.after_analysis Main.REQ_002).1.1
              (Main.after_analysis Main.REQ_002).1.2
              (Main.after_analysis Main.REQ_002).2
              (triple_eta (Main.after_analysis Main.REQ_002)))
    as (Hreq & _ & _ & _ & _ & Hcalls).
  split; [exact Hreq|]. apply Hcalls. discriminate.
Defined.

(** ** Runs of the compiled workflow *)

(** From [execute] the run completes after the one call that belongs to the
    request. *)
Lemma run_from_execute_call fuel run_id st (σ : Store) w amount :
  (∀ v, py_or_else (AgentState.final_amount st)
          (let* decision := AgentState.decision_attr st "recommended_amount" in
           ret (AgentDecision.recommended_amount decision)) v
        = (Ok amount, v)) →
  2 ≤ fuel →
  ∃ st' w',
    run_loop fuel get_graph run_id false (mkCheckpoint st "execute") σ w
    = (Some (Completed st'), <[run_id := mkCheckpoint st' END]> σ, w')
    ∧ payment_calls w'
      = payment_calls w
        ++ [expected_call (AgentState.request st) amount
              (HumanReview.reviewer_id <$> AgentState.human_review st)]
    ∧ (AgentState.status st' = RequestStatus.COMPLETED
       ∨ AgentState.status st' = RequestStatus.FAILED)
    ∧ (AgentState.status st' = RequestStatus.COMPLETED
       ↔ ∃ order,
           _ORDERS w
           !! Order.order_id (ExceptionRequest.order (AgentState.request st))
           = Some order
           ∧ (ExceptionRequest.exception_type (AgentState.request st)
              = ExceptionType.PRICE_ADJUSTMENT →
              PrimFloat.ltb (Order.order_total order) amount = false))
    ∧ (AgentState.status st' = RequestStatus.COMPLETED →
       AgentState.final_amount st' = Some amount)
    ∧ AgentState.request st' = AgentState.request st
    ∧ AgentState.decision st' = AgentState.decision st
    ∧ AgentState.human_review st' = AgentState.human_review st.
Proof.
  intros Hamt Hfuel. destruct fuel as [|[|fuel]]; [lia|lia|].
  destruct (execute_node_spec st w amount Hamt)
    as (result & extra & w' & E & Hc & _ & Hiff & _).
  eexists _, w'.
  rewrite (run_loop_continue _ _ _ _ _ _ _ _ _ (advance_execute _ _ _ _ _ E)).
  rewrite (run_loop_stop _ _ _ _ _ _ _ _ _ _ (advance_end _ _ _ _)).
  rewrite insert_insert_eq. split; [reflexivity|]. split; [exact Hc|].
  destruct (truth (dict_get result "success")); cbn.
  - split; [by left|]. split; [by rewrite <- Hiff|]. done.
  - split; [by right|]. split; [|done].
    split; [done|]. intros H. by apply Hiff in H.
Qed.

(** X12: starting a run on any request, in any world, with room for three
    rounds. When the analysis calls for a review the run pauses before
    "human_review" and the payment service has not been called. When it does
    not, the run completes within the same call: the payment service is called
    exactly once, for the request's exception type and order, with the
    recommended amount and no approver; the status is [COMPLETED] exactly when
    the order is in the database and, for a price adjustment, the amount is
    not above its total, and [FAILED] otherwise; no review is attached. *)
Theorem start_completes_unless_review_needed fuel run_id request (σ : Store)
    w :
  3 ≤ fuel →
  let d := AnalysisService.analyze_exception_request (HITL_CONFIG w) request in
  ∃ result σ' w',
    start get_graph fuel run_id (AgentState.initial request) σ w
    = (Some result, σ', w')
    ∧ if AgentDecision.requires_human_approval d
      then result = Paused "human_review"
           ∧ payment_calls w' = payment_calls w
      else ∃ st,
           result = Completed st
           ∧ σ' = <[run_id := mkCheckpoint st END]> σ
           ∧ payment_calls w'
             = payment_calls w
               ++ [expected_call request (AgentDecision.recommended_amount d)
                     None]
           ∧ (AgentState.status st = RequestStatus.COMPLETED
              ∨ AgentState.status st = RequestStatus.FAILED)
           ∧ (AgentState.status st = RequestStatus.COMPLETED
              ↔ ∃ order,
                  _ORDERS w !! Order.order_id (ExceptionRequest.order request)
                  = Some order
                  ∧ (ExceptionRequest.exception_type request
                     = ExceptionType.PRICE_ADJUSTMENT →
                     PrimFloat.ltb (Order.order_total order)
                       (AgentDecision.recommended_amount d) = false))
           ∧ AgentState.decision st = Some d
           ∧ AgentState.human_review st = None.
Proof.
  intros Hfuel d.
  destruct (analyze_node_eq (AgentState.initial request) w)
    as (extra & wa & Ea & _ & Hcalls).
  destruct (analyze_node_frame (AgentState.initial request) w)
    as ((_ & _ & Horders) & _).
  rewrite Ea in Horders. cbn [snd] in Horders.
  cbn [AgentState.initial AgentState.request] in Ea. fold d in Ea.
  destruct (AgentDecision.requires_human_approval d) eqn:Hreq.
  - eexists _, _, _. split.
    + apply (start_pauses _ _ _ _ _ _ _ Ea); [|lia].
      cbn. by rewrite Hreq.
    + by split.
  - destruct fuel as [|fuel]; [lia|].
    rewrite start_unfold.
    rewrite (run_loop_continue _ _ _ _ _ _ _ _ _
               (advance_analyze _ _ _ _ _ Ea)).
    match goal with
    | |- context [run_loop _ _ _ _ (mkCheckpoint _ ?n) _ _] =>
        assert (Hn : n = "execute") by (cbn; by rewrite Hreq);
        rewrite Hn
    end.
    match goal with
    | |- context [run_loop _ _ _ _ (mkCheckpoint ?st _) ?s ?v] =>
        destruct (run_from_execute_call fuel run_id st s v
                    (AgentDecision.recommended_amount d))
          as (st' & w' & E & Hc & Hst & Hiff & _ & _ & Hd & Hrev);
        [intros v'; by rewrite (py_or_else_recommended _ st d v' eq_refl)
        |lia|]
    end.
    eexists _, _, w'. split; [exact E|].
    exists st'. split; [done|]. split; [by rewrite !insert_insert_eq|].
    split; [by rewrite Hc, Hcalls|]. split; [exact Hst|].
    split; [by rewrite <- Horders|]. by split.
Qed.

Lemma start_completes_unless_review_needed_witness :
  ∃ result σ' w',
    start get_graph 3 "demo" (AgentState.initial Main.REQ_001) ∅
      Main.demo_world
    = (Some result, σ', w')
    ∧ ∃ st,
        result = Completed st
        ∧ payment_calls w'
          = [call_process_refund "ORD-1001" 29.99
               "Item didn't fit as expected, requesting full refund" None]
        ∧ AgentState.status st = RequestStatus.COMPLETED.
Proof.
  destruct (start_completes_unless_review_needed 3 "demo" Main.REQ_001 ∅
              Main.demo_world (le_n 3))
    as (result & σ' & w' & E & H).
  exists result, σ', w'. split; [exact E|].
  change (AgentDecision.requires_human_approval
            (AnalysisService.analyze_exception_request
               (HITL_CONFIG Main.demo_world) Main.REQ_001))
    with false in H.
  destruct H as (st & Hres & _ & Hc & _ & Hiff & _).
  exists st. split; [exact Hres|]. split; [exact Hc|].
  apply Hiff. eexists. split; [vm_compute; reflexivity|]. discriminate.
Defined.

(** X13: resuming a paused run after an approving review was supplied, with
    room for four rounds. The run completes, and the payment service is called
    exactly once: for the request's exception type and order, with the
    reviewer's adjusted amount (the recommended amount when that is absent or
    zero) and the reviewer's id as approver. The status is [COMPLETED] exactly
    when the order is in the database at the time of the resume and, for a
    price adjustment, the amount is not above its total; the request and the
    decision are those of the paused run. *)
Theorem approved_resume_calls_payment_once
    fuel0 fuel run_id request (σ0 σ1 : Store) w0 w1 review w :
  start get_graph fuel0 run_id (AgentState.initial request) σ0 w0
  = (Some (Paused "human_review"), σ1, w1) →
  HumanReview.approved review = true →
  4 ≤ fuel →
  let d := AnalysisService.analyze_exception_request (HITL_CONFIG w0) request in
  let amount :=
    py_or (HumanReview.adjusted_amount review)
      (AgentDecision.recommended_amount d) in
  ∃ st w',
    resume get_graph fuel run_id (supply_review run_id review σ1).2 w
    = (Some (Completed st), <[run_id := mkCheckpoint st END]> σ1, w')
    ∧ payment_calls w'
      = payment_calls w
        ++ [expected_call request amount
              (Some (HumanReview.reviewer_id review))]
    ∧ (AgentState.status st = RequestStatus.COMPLETED
       ∨ AgentState.status st = RequestStatus.FAILED)
    ∧ (AgentState.status st = RequestStatus.COMPLETED
       ↔ ∃ order,
           _ORDERS w !! Order.order_id (ExceptionRequest.order request)
           = Some order
           ∧ (ExceptionRequest.exception_type request
              = ExceptionType.PRICE_ADJUSTMENT →
              PrimFloat.ltb (Order.order_total order) amount = false))
    ∧ AgentState.request st = request
    ∧ AgentState.decision st = Some d
    ∧ AgentState.human_review st = Some review.
Proof.
  intros Hstart Happ Hfuel d amount.
  apply paused_checkpoint in Hstart as (d0 & lg & Hd0 & _ & _ & -> & _).
  fold d in Hd0. subst d0.
  rewrite (supply_review_stored _ _ _ _ (lookup_insert_eq _ _ _)).
  cbn [snd values next].
  rewrite insert_insert_eq.
  destruct fuel as [|[|fuel]]; [lia|lia|].
  unfold resume. rewrite lookup_insert_eq.
  match goal with
  | |- context [run_loop _ _ _ _ (mkCheckpoint ?st _) _ ?v] =>
      destruct (human_review_node_eq st v d eq_refl)
        as (extra1 & wa & E1 & Hc1);
      destruct (human_review_node_frame st v) as ((_ & _ & Ho1) & _);
      rewrite E1 in Ho1; cbn [snd] in Ho1
  end.
  rewrite (run_loop_continue _ _ _ _ _ _ _ _ _
             (advance_human_review_open _ _ _ _ E1)).
  match goal with
  | |- context [run_loop _ _ _ _ (mkCheckpoint ?st _) _ ?v] =>
      destruct (process_review_approved st v review _ eq_refl Happ
                  (λ v', py_or_else_recommended _ st d v' eq_refl))
        as (extra2 & wb & E2 & Hc2);
      destruct (process_review_node_frame st v) as ((_ & _ & Ho2) & _);
      rewrite E2 in Ho2; cbn [snd] in Ho2
  end.
  rewrite (run_loop_continue _ _ _ _ _ _ _ _ _
             (advance_process_review _ _ _ _ _ E2)).
  cbn [merge default upd_status upd_decision upd_human_review
       upd_final_amount upd_result_message upd_processing_log
       AgentState.set_processing_log AgentState.request AgentState.status
       AgentState.decision AgentState.human_review AgentState.final_amount
       AgentState.result_message AgentState.processing_log
       route_after_review].
  rewrite Happ. fold amount.
  match goal with
  | |- context [run_loop _ _ _ _ (mkCheckpoint ?st _) ?s ?v] =>
      destruct (run_from_execute_call fuel run_id st s v amount)
        as (st' & wc & E3 & Hc3 & Hst & Hiff & _ & Hrq & Hd & Hrev);
        [intros v'; rewrite (py_or_else_recommended _ st d v' eq_refl);
         do 2 f_equal; apply py_or_idem
        |lia|]
  end.
  rewrite E3. exists st', wc.
  split; [by rewrite !insert_insert_eq|].
  split; [by rewrite Hc3, Hc2, Hc1|]. split; [exact Hst|].
  split; [by rewrite <- Ho1, <- Ho2|]. done.
Qed.

Lemma approved_resume_calls_payment_once_witness :
  ∃ st w',
    resume get_graph 10 "demo"
      (supply_review "demo" Main.review_adjust (Main.started Main.REQ_004).1.2).2
      (Main.started Main.REQ_004).2
    = (Some (Completed st),
       <[ "demo" := mkCheckpoint st END ]> (Main.started Main.REQ_004).1.2, w')
    ∧ payment_calls w'
      = payment_calls (Main.started Main.REQ_004).2
        ++ [call_apply_price_adjustment "ORD-1004" 35
              "Saw items on sale a week after purchase, requesting price match"
              (Some "MGR-CAROL-003")]
    ∧ AgentState.status st = RequestStatus.COMPLETED.
Proof.
  destruct (approved_resume_calls_payment_once 10 10 "demo" Main.REQ_004
              ∅ (Main.started Main.REQ_004).1.2
              Main.demo_world (Main.started Main.REQ_004).2
              Main.review_adjust (Main.started Main.REQ_004).2)
    as (st & w' & E & Hc & _ & Hiff & _).
  - vm_compute. reflexivity.
  - reflexivity.
  - lia.
  - exists st, w'. split; [exact E|]. split; [exact Hc|].
    apply Hiff. eexists. split; [vm_compute; reflexivity|].
    intros _. vm_compute. reflexivity.
Defined.

(** *** The status follows the position of the run *)

Lemma status_invariant_advance resuming cp w step cp' w' :
  status_invariant cp →
  advance get_graph resuming cp w = (step, cp', w') →
  status_invariant cp'.
Proof.
  destruct cp as [st name]. unfold status_invariant at 1. cbn [values next].
  intros [(-> & Hst)
         |[([->| ->] & Hst & Hd)
          |[(-> & Hst)|[(-> & Hst & Hd)|(-> & Hst)]]]] H.
  - (* analyze *)
    destruct (analyze_node_eq st w) as (extra & w2 & E & _).
    rewrite (advance_analyze _ _ _ _ _ E) in H. injection H as <- <- <-.
    unfold status_invariant.
    cbn [values next merge default upd_status upd_decision
         route_after_analysis AgentState.status AgentState.decision].
    destruct (AgentDecision.requires_human_approval _).
    + right. left. split; [by left|]. by split.
    + right. right. right. left. by repeat split.
  - (* human_review *)
    destruct resuming.
    + destruct Hd as [d Hd].
      destruct (human_review_node_eq st w d Hd) as (extra & w2 & E & _).
      rewrite (advance_human_review_open _ _ _ _ E) in H.
      injection H as <- <- <-.
      right. left. split; [by right|]. cbn. by rewrite Hd.
    + rewrite advance_human_review_closed in H. injection H as <- <- <-.
      right. left. split; [by left|]. by split.
  - (* process_review *)
    destruct (process_review_node st w) as [[u|e] w2] eqn:E.
    + rewrite (advance_process_review _ _ _ _ _ E) in H.
      injection H as <- <- <-. destruct Hd as [d Hd].
      destruct (process_review_inv _ _ _ _ E)
        as (_ & extra & [[Hr ->]|[(rv & a & Hr & Ha & _ & ->)
                                 |(rv & Hr & Ha & ->)]]);
        unfold status_invariant, route_after_review;
        cbn -[py_or String.append];
        rewrite Hr, ?Ha, ?Hd.
      * right. right. left. split; [done|]. by right.
      * right. right. right. left. by repeat split.
      * right. right. left. split; [done|]. by left.
    + apply process_review_raises in E. destruct Hd as [d Hd]. congruence.
  - (* rejected *)
    destruct (rejected_node_eq st w) as (extra & w2 & E & _).
    rewrite (advance_rejected _ _ _ _ _ E) in H. injection H as <- <- <-.
    right. right. right. right. split; [done|]. cbn.
    destruct Hst as [->| ->]; auto.
  - (* execute *)
    destruct (execute_node st w) as [[u|e] w2] eqn:E.
    + rewrite (advance_execute _ _ _ _ _ E) in H. injection H as <- <- <-.
      destruct (execute_node_inv _ _ _ _ E) as (a & result & extra & c & _ & ->).
      right. right. right. right. split; [done|].
      destruct (truth (dict_get result "success")); cbn; auto.
    + apply execute_node_raises in E. destruct Hd as [d Hd]. congruence.
  - (* END *)
    rewrite advance_end in H. injection H as <- <- <-.
    right. right. right. right. by split.
Qed.

Lemma reachable_status_invariant cp : reachable cp → status_invariant cp.
Proof.
  induction 1 as [request|resuming cp cp' w w' step _ IH Hadv|review cp _ IH].
  - left. by split.
  - by eapply status_invariant_advance.
  - exact IH.
Qed.

(** X14: in every checkpoint a run can be in, the status tells where the run
    stands. It is [RECEIVED] exactly before "analyze", [PENDING_APPROVAL]
    exactly before "human_review" or "process_review", and [APPROVED] exactly
    before "execute"; [COMPLETED] holds only of a finished run, [REJECTED] and
    [FAILED] only before "rejected" or of a finished run; a finished run is
    [COMPLETED], [FAILED] or [REJECTED]; and no run is ever [ANALYZING]. *)
Theorem status_follows_position cp :
  reachable cp →
  let status := AgentState.status (values cp) in
  (status = RequestStatus.RECEIVED ↔ next cp = "analyze")
  ∧ (status = RequestStatus.PENDING_APPROVAL
     ↔ next cp = "human_review" ∨ next cp = "process_review")
  ∧ (status = RequestStatus.APPROVED ↔ next cp = "execute")
  ∧ (status = RequestStatus.COMPLETED → next cp = END)
  ∧ (status = RequestStatus.REJECTED ∨ status = RequestStatus.FAILED →
     next cp = "rejected" ∨ next cp = END)
  ∧ (next cp = END →
     status = RequestStatus.COMPLETED ∨ status = RequestStatus.FAILED
     ∨ status = RequestStatus.REJECTED)
  ∧ status ≠ RequestStatus.ANALYZING.
Proof.
  intros Hr status. apply reachable_status_invariant in Hr. unfold status.
  destruct Hr as [(Hn & Hs)
                 |[(Hn & Hs & _)
                  |[(Hn & Hs)|[(Hn & Hs & _)|(Hn & Hs)]]]].
  - rewrite Hn, Hs. repeat split; try done; try (by intros [|]).
  - rewrite Hs. destruct Hn as [Hn|Hn]; rewrite Hn;
      repeat split; try done; try (by intros [|]); auto.
  - rewrite Hn. destruct Hs as [Hs|Hs]; rewrite Hs;
      repeat split; try done; try (by intros [|]); auto.
  - rewrite Hn, Hs. repeat split; try done; try (by intros [|]).
  - rewrite Hn. destruct Hs as [Hs|[Hs|Hs]]; rewrite Hs;
      repeat split; try done; try (by intros [|]); auto.
Qed.

Lemma status_follows_position_witness :
  AgentState.status (values (Main.after_second_round Main.REQ_002).1.2)
  = RequestStatus.PENDING_APPROVAL
  ∧ next (Main.after_second_round Main.REQ_002).1.2 = "human_review".
Proof.
  destruct (status_follows_position
              (Main.after_second_round Main.REQ_002).1.2
              (reachable_after_second_round Main.REQ_002))
    as (_ & Hpending & _).
  split; [|reflexivity]. apply Hpending. left. reflexivity.
Defined.

(** ** tools/order_service.py and the services together *)

(** X15: the order service and the payment service agree on which orders
    exist. [check_order_status] and [get_order_details] only read the
    database: they return in the world they were called in.
    [check_order_status] reports "found" exactly when the order is in the
    database, which is exactly when [get_order_details] returns an order, when
    a refund succeeds and when a cancellation succeeds; a found order is
    always reported as confirmed, cancellable, refundable and not shipped; and
    for a missing order the three services give the same error text. *)
Theorem order_services_agree order_id amount reason approved_by w :
  ∃ status refund cancel w1 w2,
    OrderService.check_order_status order_id w = (Ok status, w)
    ∧ OrderService.get_order_details order_id w
      = (Ok (_ORDERS w !! order_id), w)
    ∧ PaymentService.process_refund order_id amount reason approved_by w
      = (Ok refund, w1)
    ∧ PaymentService.cancel_order order_id reason approved_by w
      = (Ok cancel, w2)
    ∧ (truth (dict_get status "found") = true
       ↔ is_Some (_ORDERS w !! order_id))
    ∧ truth (dict_get refund "success") = truth (dict_get status "found")
    ∧ truth (dict_get cancel "success") = truth (dict_get status "found")
    ∧ (truth (dict_get status "found") = true →
       dict_get_str status "status" = Some "confirmed"
       ∧ dict_get status "can_cancel" = VBool true
       ∧ dict_get status "can_refund" = VBool true
       ∧ dict_get status "shipped" = VBool false)
    ∧ (truth (dict_get status "found") = false →
       dict_get_str status "error"
       = Some ("Order " +:+ order_id +:+ " not found")
       ∧ dict_get_str refund "error" = dict_get_str status "error"
       ∧ dict_get_str cancel "error" = dict_get_str status "error").
Proof.
  unfold OrderService.check_order_status, OrderService.get_order_details.
  payment_exec.
  destruct (_ORDERS w !! order_id) as [order|] eqn:E; py_exec;
    eexists _, _, _, _, _; (split; [destruct w; reflexivity|]);
    (split; [destruct w; reflexivity|]);
    (split; [reflexivity|]); (split; [reflexivity|]); cbn.
  - split; [done|]. done.
  - split; [split; [done|by intros []]|]. done.
Qed.

(** ** models.py: counting items *)

Lemma item_count_ge_lines (items : list OrderItem.t) :
  Forall (λ item, (1 ≤ OrderItem.quantity item)%Z) items →
  (Z.of_nat (length items)
   ≤ foldr (λ item acc, (OrderItem.quantity item + acc)%Z) 0 items)%Z.
Proof.
  induction 1 as [|item rest Hq _ IH]; cbn [foldr length]; lia.
Qed.

(** X16: [item_count] adds up quantities, not lines. With every quantity at
    least 1, as the model of [OrderItem] demands, it is at least the number
    of lines, and it is that number exactly when every quantity is 1; so an
    order with more lines than [multi_item_threshold] always requires human
    approval. *)
Theorem many_lines_require_approval cfg request :
  let order := ExceptionRequest.order request in
  Forall (λ item, (1 ≤ OrderItem.quantity item)%Z) (Order.items order) →
  (Z.of_nat (length (Order.items order)) ≤ Order.item_count order)%Z
  ∧ (Forall (λ item, OrderItem.quantity item = 1%Z) (Order.items order) →
     Order.item_count order = Z.of_nat (length (Order.items order)))
  ∧ ((HITLConfigType.multi_item_threshold cfg
      < Z.of_nat (length (Order.items order)))%Z →
     AgentDecision.requires_human_approval
       (AnalysisService.analyze_exception_request cfg request) = true).
Proof.
  intros order Hq. pose proof (item_count_ge_lines _ Hq) as Hge.
  fold (Order.item_count order) in Hge.
  split; [exact Hge|]. split.
  - unfold Order.item_count. clear.
    induction 1 as [|item rest Hq _ IH]; cbn [foldr length]; lia.
  - intros Hlt. rewrite requires_human_approval_eq.
    unfold too_many_items. fold order.
    rewrite (proj2 (Z.ltb_lt _ _)) by lia. by rewrite orb_true_r.
Qed.

Lemma many_lines_require_approval_witness :
  (Z.of_nat (length (Order.items (ExceptionRequest.order Main.REQ_004)))
   ≤ Order.item_count (ExceptionRequest.order Main.REQ_004))%Z
  ∧ AgentDecision.requires_human_approval
      (AnalysisService.analyze_exception_request Config.HITL_CONFIG
         Main.REQ_004) = true.
Proof.
  destruct (many_lines_require_approval Config.HITL_CONFIG Main.REQ_004)
    as (Hge & _ & Hreq).
  - repeat constructor; vm_compute; discriminate.
  - split; [exact Hge|]. apply Hreq. vm_compute. reflexivity.
Defined.

(** X17: [route_after_review] looks at the review, [process_review_node] sets
    the status, and the two agree: after the node has returned, the router
    answers "execute" exactly when the status is [APPROVED], and "rejected"
    exactly when it is [REJECTED] or [FAILED] (which is the case of a missing
    review). On a rejection the result message names the reviewer and gives
    the notes, or "No reason provided" when the notes are absent or empty. *)
Theorem review_route_agrees_with_status st w u w' :
  process_review_node st w = (Ok u, w') →
  let st' := merge st u in
  (route_after_review st' = "execute"
   ↔ AgentState.status st' = RequestStatus.APPROVED)
  ∧ (route_after_review st' = "rejected"
     ↔ AgentState.status st' = RequestStatus.REJECTED
       ∨ AgentState.status st' = RequestStatus.FAILED)
  ∧ (AgentState.status st' = RequestStatus.FAILED
     ↔ AgentState.human_review st = None)
  ∧ (∀ review,
       AgentState.human_review st = Some review →
       HumanReview.approved review = false →
       AgentState.result_message st'
       = Some ("Request rejected by " +:+ HumanReview.reviewer_id review
                 +:+ ": "
                 +:+ match HumanReview.notes review with
                     | Some (String a notes) => String a notes
                     | _ => "No reason provided"
                     end)).
Proof.
  intros H st'. unfold st'.
  destruct (process_review_inv _ _ _ _ H)
    as (_ & extra & [[Hr ->]|[(rv & a & Hr & Ha & _ & ->)
                             |(rv & Hr & Ha & ->)]]);
    unfold route_after_review; cbn -[py_or String.append];
    rewrite Hr, ?Ha.
  - split; [split; discriminate|]. split; [split; auto|].
    split; [done|]. discriminate.
  - split; [done|]. split; [split; [discriminate|by intros [|]]|].
    split; [split; discriminate|]. intros review [= <-]. congruence.
  - split; [split; discriminate|]. split; [split; auto|].
    split; [split; discriminate|]. intros review [= <-] _.
    unfold py_or. by destruct (HumanReview.notes rv) as [[|? ?]|].
Qed.

Lemma review_route_agrees_with_status_witness :
  ∃ u w',
    process_review_node
      (AgentState.mk Main.REQ_003 RequestStatus.PENDING_APPROVAL
         (Some (AnalysisService.analyze_exception_request Config.HITL_CONFIG
                  Main.REQ_003))
         (Some Main.review_reject) None None [])
      Main.demo_world
    = (Ok u, w')
    ∧ route_after_review
        (merge
           (AgentState.mk Main.REQ_003 RequestStatus.PENDING_APPROVAL
              (Some (AnalysisService.analyze_exception_request
                       Config.HITL_CONFIG Main.REQ_003))
              (Some Main.review_reject) None None [])
           u)
      = "rejected".
Proof.
  destruct (process_review_rejected
              (AgentState.mk Main.REQ_003 RequestStatus.PENDING_APPROVAL
                 (Some (AnalysisService.analyze_exception_request
                          Config.HITL_CONFIG Main.REQ_003))
                 (Some Main.review_reject) None None [])
              Main.demo_world Main.review_reject eq_refl eq_refl)
    as (extra & w' & E & _).
  eexists _, w'. split; [exact E|].
  destruct (review_route_agrees_with_status _ _ _ _ E) as (_ & Hrej & _).
  apply Hrej. left. reflexivity.
Defined.

(** ** tools/mock_database.py and tools/test_data.py *)

Ltac lookup_customer key :=
  let c := eval vm_compute in (MockDatabase._create_mock_customers !! key) in
  let E := fresh "E" in
  assert (E : MockDatabase._create_mock_customers !! key = c)
    by (vm_compute; reflexivity);
  rewrite !E; clear E.

(** What the orders are judged by: total, customer tier, item count. *)
Lemma load_ok (clock : nat → datetime.t) (rng : nat → Z) :
  ∃ o1 o2 o3 o4,
    MockDatabase.load (boot clock rng)
    = (Ok (),
       mkWorld clock 4 rng 0 Config.HITL_CONFIG
         MockDatabase._create_mock_customers
         (list_to_map [("ORD-1001", o1); ("ORD-1002", o2);
                       ("ORD-1003", o3); ("ORD-1004", o4)]) [])
    ∧ Forall (λ entry : string * Order.t,
                Order.order_id entry.2 = entry.1
                ∧ Order.items entry.2 ≠ []
                ∧ Forall (λ item, (1 ≤ OrderItem.quantity item)%Z)
                    (Order.items entry.2)
                ∧ MockDatabase._create_mock_customers
                  !! Customer.customer_id (Order.customer entry.2)
                  = Some (Order.customer entry.2))
        [("ORD-1001", o1); ("ORD-1002", o2); ("ORD-1003", o3);
         ("ORD-1004", o4)]
    ∧ map (λ order, (Order.order_total order,
                     Customer.tier (Order.customer order),
                     Order.item_count order)) [o1; o2; o3; o4]
      = [(29.99%float, CustomerTier.STANDARD, 1%Z);
         (339.98%float, CustomerTier.STANDARD, 2%Z);
         (75.00%float, CustomerTier.VIP, 1%Z);
         (190.00%float, CustomerTier.PREFERRED, 4%Z)].
Proof.
  unfold MockDatabase.load, MockDatabase._create_mock_orders, subscript.
  lookup_customer "CUST-001". lookup_customer "CUST-002".
  lookup_customer "CUST-003".
  cbn -[list_to_map datetime.sub_days MockDatabase._create_mock_customers].
  eexists _, _, _, _. split; [reflexivity|]. split; [|reflexivity].
  repeat (apply Forall_cons; split;
          [split; [reflexivity|]; split; [discriminate|];
           split; [repeat constructor; discriminate|];
           vm_compute; reflexivity|]).
  apply Forall_nil_2.
Qed.

Lemma four_orders_lookup (o1 o2 o3 o4 : Order.t) :
  let orders : gmap string Order.t :=
    list_to_map [("ORD-1001", o1); ("ORD-1002", o2); ("ORD-1003", o3);
                 ("ORD-1004", o4)] in
  orders !! "ORD-1001" = Some o1 ∧ orders !! "ORD-1002" = Some o2
  ∧ orders !! "ORD-1003" = Some o3 ∧ orders !! "ORD-1004" = Some o4
  ∧ size orders = 4.
Proof. vm_compute. done. Qed.

(** X18: loading the mock database succeeds for every clock and generator (no
    customer an order refers to is missing), reads the clock once per order
    and calls no service. The database then holds four orders and three
    customers; every order is stored under its own id, has at least one line,
    every quantity at least 1, and a customer who is registered under their
    own id. The four orders are the ones the thresholds are tried on:
    ORD-1001 of 29.99 for a standard customer with one item, ORD-1002 of
    339.98 for a standard customer with two, ORD-1003 of 75.00 for a VIP with
    one, ORD-1004 of 190.00 for a preferred customer with four. *)
Theorem mock_database_is_consistent (clock : nat → datetime.t)
    (rng : nat → Z) :
  ∃ w,
    MockDatabase.load (boot clock rng) = (Ok (), w)
    ∧ clock_reads w = 4 ∧ rng_draws w = 0 ∧ payment_calls w = []
    ∧ HITL_CONFIG w = Config.HITL_CONFIG
    ∧ size (_ORDERS w) = 4 ∧ size (_CUSTOMERS w) = 3
    ∧ (∀ order_id order,
         _ORDERS w !! order_id = Some order →
         Order.order_id order = order_id
         ∧ Order.items order ≠ []
         ∧ Forall (λ item, (1 ≤ OrderItem.quantity item)%Z)
             (Order.items order)
         ∧ _CUSTOMERS w !! Customer.customer_id (Order.customer order)
           = Some (Order.customer order))
    ∧ (∀ customer_id customer,
         _CUSTOMERS w !! customer_id = Some customer →
         Customer.customer_id customer = customer_id)
    ∧ map (λ order_id,
             (λ order, (Order.order_total order,
                        Customer.tier (Order.customer order),
                        Order.item_count order)) <$> _ORDERS w !! order_id)
        ["ORD-1001"; "ORD-1002"; "ORD-1003"; "ORD-1004"]
      = [Some (29.99%float, CustomerTier.STANDARD, 1%Z);
         Some (339.98%float, CustomerTier.STANDARD, 2%Z);
         Some (75.00%float, CustomerTier.VIP, 1%Z);
         Some (190.00%float, CustomerTier.PREFERRED, 4%Z)].
Proof.
  destruct (load_ok clock rng) as (o1 & o2 & o3 & o4 & E & Hall & Hdata).
  destruct (four_orders_lookup o1 o2 o3 o4) as (H1 & H2 & H3 & H4 & Hsize).
  eexists. split; [exact E|]. cbn [clock_reads rng_draws payment_calls
                                   HITL_CONFIG _ORDERS _CUSTOMERS].
  split; [reflexivity|]. split; [reflexivity|]. split; [reflexivity|].
  split; [reflexivity|]. split; [exact Hsize|].
  split; [vm_compute; reflexivity|]. split; [|split].
  - intros order_id order Hl. apply elem_of_list_to_map_2 in Hl.
    rewrite Forall_forall in Hall. exact (Hall _ Hl).
  - intros customer_id customer Hl.
    unfold MockDatabase._create_mock_customers in Hl.
    apply elem_of_list_to_map_2 in Hl.
    repeat (apply elem_of_cons in Hl as [Hl|Hl];
            [injection Hl as -> ->; reflexivity|]).
    destruct (not_elem_of_nil _ Hl).
  - cbn [map]. rewrite H1, H2, H3, H4. cbn [fmap option_fmap option_map].
    cbn [map] in Hdata.
    injection Hdata as -> -> -> -> -> -> -> -> -> -> -> ->. reflexivity.
Qed.

(** [get_sample_requests] where an order is missing. *)
Lemma sample_requests_missing w (order_id : string) (before : list string) :
  before ++ [order_id]
    `prefix_of` ["ORD-1001"; "ORD-1002"; "ORD-1003"; "ORD-1004"] →
  Forall (λ present, is_Some (_ORDERS w !! present)) before →
  _ORDERS w !! order_id = None →
  TestData.get_sample_requests w = (Raise (KeyError order_id), w).
Proof.
  intros [rest Hpre] Hbefore Hnone.
  unfold TestData.get_sample_requests, MockDatabase.get_all_orders, global,
    subscript.
  destruct before as [|b1 [|b2 [|b3 [|b4 more]]]];
    cbn in Hpre; simplify_eq;
    repeat match goal with
           | H : Forall _ (_ :: _) |- _ =>
               apply Forall_cons in H as [[? ?] H]
           end;
    cbn; unfold bind, ret, raise;
    repeat match goal with
           | H : _ !! _ = _ |- _ => rewrite H; clear H
           end;
    try reflexivity.
  destruct more; discriminate.
Qed.

Lemma sample_requests_present w o1 o2 o3 o4 :
  _ORDERS w !! "ORD-1001" = Some o1 →
  _ORDERS w !! "ORD-1002" = Some o2 →
  _ORDERS w !! "ORD-1003" = Some o3 →
  _ORDERS w !! "ORD-1004" = Some o4 →
  ∃ requests,
    TestData.get_sample_requests w = (Ok requests, w)
    ∧ map (λ r, (ExceptionRequest.request_id r, ExceptionRequest.order r,
                 ExceptionRequest.exception_type r,
                 ExceptionRequest.requested_amount r)) requests
      = [("REQ-001", o1, ExceptionType.REFUND, None);
         ("REQ-002", o2, ExceptionType.REFUND, None);
         ("REQ-003", o3, ExceptionType.CANCELLATION, None);
         ("REQ-004", o4, ExceptionType.PRICE_ADJUSTMENT, Some 50.00%float)].
Proof.
  intros H1 H2 H3 H4.
  unfold TestData.get_sample_requests, MockDatabase.get_all_orders, global,
    subscript.
  cbn. unfold bind, ret. rewrite H1, H2, H3, H4.
  eexists. split; reflexivity.
Qed.

(** X19: [get_sample_requests] reads the four orders ORD-1001 to ORD-1004 off
    the database, in that order, and leaves the world as it is. When all four
    are there it returns the requests REQ-001 to REQ-004 on them: two refunds
    and a cancellation with no requested amount, and a price adjustment of
    50.00; otherwise it raises the [KeyError] of the first one missing. On
    the database as loaded, under the thresholds of [HITL_CONFIG] as shipped,
    each sample request fires the one check it was written for: REQ-001 none,
    REQ-002 the amount, REQ-003 the VIP tier, REQ-004 the item count. *)
Theorem sample_requests_fire_their_checks :
  (∀ w o1 o2 o3 o4,
     _ORDERS w !! "ORD-1001" = Some o1 →
     _ORDERS w !! "ORD-1002" = Some o2 →
     _ORDERS w !! "ORD-1003" = Some o3 →
     _ORDERS w !! "ORD-1004" = Some o4 →
     ∃ requests,
       TestData.get_sample_requests w = (Ok requests, w)
       ∧ map (λ r, (ExceptionRequest.request_id r, ExceptionRequest.order r,
                    ExceptionRequest.exception_type r,
                    ExceptionRequest.requested_amount r)) requests
         = [("REQ-001", o1, ExceptionType.REFUND, None);
            ("REQ-002", o2, ExceptionType.REFUND, None);
            ("REQ-003", o3, ExceptionType.CANCELLATION, None);
            ("REQ-004", o4, ExceptionType.PRICE_ADJUSTMENT,
             Some 50.00%float)])
  ∧ (∀ w order_id before,
       before ++ [order_id]
         `prefix_of` ["ORD-1001"; "ORD-1002"; "ORD-1003"; "ORD-1004"] →
       Forall (λ present, is_Some (_ORDERS w !! present)) before →
       _ORDERS w !! order_id = None →
       TestData.get_sample_requests w = (Raise (KeyError order_id), w))
  ∧ (∀ (clock : nat → datetime.t) (rng : nat → Z),
       let w := (MockDatabase.load (boot clock rng)).2 in
       ∃ requests,
         TestData.get_sample_requests w = (Ok requests, w)
         ∧ map (λ r, (ExceptionRequest.request_id r,
                      amount_exceeds (HITL_CONFIG w) r,
                      vip_handling (HITL_CONFIG w) r,
                      too_many_items (HITL_CONFIG w) r)) requests
           = [("REQ-001", false, false, false);
              ("REQ-002", true, false, false);
              ("REQ-003", false, true, false);
              ("REQ-004", false, false, true)]).
Proof.
  split; [exact sample_requests_present|].
  split; [exact sample_requests_missing|].
  intros clock rng w.
  destruct (load_ok clock rng) as (o1 & o2 & o3 & o4 & E & _ & Hdata).
  destruct (four_orders_lookup o1 o2 o3 o4) as (H1 & H2 & H3 & H4 & _).
  unfold w. rewrite E. cbn [snd HITL_CONFIG].
  destruct (sample_requests_present
              (mkWorld clock 4 rng 0 Config.HITL_CONFIG
                 MockDatabase._create_mock_customers
                 (list_to_map [("ORD-1001", o1); ("ORD-1002", o2);
                               ("ORD-1003", o3); ("ORD-1004", o4)]) [])
              o1 o2 o3 o4 H1 H2 H3 H4) as (requests & Er & Hr).
  exists requests. split; [exact Er|]. clear E Er H1 H2 H3 H4.
  destruct requests as [|r1 [|r2 [|r3 [|r4 [|r5 more]]]]];
    try discriminate Hr.
  cbn [map] in Hr, Hdata.
  injection Hr as Hi1 Ho1 _ Ha1 Hi2 Ho2 _ Ha2 Hi3 Ho3 _ Ha3 Hi4 Ho4 _ Ha4.
  injection Hdata as Ht1 Hc1 Hn1 Ht2 Hc2 Hn2 Ht3 Hc3 Hn3 Ht4 Hc4 Hn4.
  cbn [map]. unfold amount_exceeds, vip_handling, too_many_items,
    ExceptionRequest.effective_amount.
  rewrite Hi1, Hi2, Hi3, Hi4, Ho1, Ho2, Ho3, Ho4, Ha1, Ha2, Ha3, Ha4,
    Ht1, Ht2, Ht3, Ht4, Hc1, Hc2, Hc3, Hc4, Hn1, Hn2, Hn3, Hn4.
  vm_compute. reflexivity.
Qed.

(** ** The configuration is read by the analysis only *)

Lemma blind_ret {A} (a : A) : config_blind (ret a).
Proof. by intros cfg w. Qed.

Lemma blind_raise {A} (e : exn) : config_blind (raise (A:=A) e).
Proof. by intros cfg w. Qed.

Lemma blind_bind {A B} (m : Py A) (k : A → Py B) :
  config_blind m → (∀ a, config_blind (k a)) → config_blind (bind m k).
Proof.
  intros Hm Hk cfg w. unfold bind. rewrite Hm.
  destruct (m w) as [[a|e] w1]; cbn [fst snd]; [apply Hk|reflexivity].
Qed.

Lemma blind_now : config_blind now.
Proof. by intros cfg w. Qed.

Lemma blind_randint lo hi : config_blind (randint lo hi).
Proof. by intros cfg w. Qed.

Lemma blind_record_call c : config_blind (record_call c).
Proof. by intros cfg w. Qed.

Lemma blind_orders : config_blind (global _ORDERS).
Proof. by intros cfg w. Qed.

Ltac blind :=
  repeat first
    [ apply blind_ret | apply blind_raise | apply blind_now
    | apply blind_randint | apply blind_record_call | apply blind_orders
    | apply blind_bind; [|intros ?]
    | match goal with
      | |- config_blind (match ?x with _ => _ end) => destruct x
      | |- config_blind (if ?x then _ else _) => destruct x
      | |- config_blind (let 'pair _ _ := ?x in _) => destruct x
      end ].

Lemma blind_add_log message st : config_blind (AgentState.add_log message st).
Proof. unfold AgentState.add_log. blind. Qed.

Lemma blind_perform_action request amount approved_by :
  config_blind (perform_action request amount approved_by).
Proof.
  unfold perform_action, PaymentService.process_refund,
    PaymentService.cancel_order, PaymentService.apply_price_adjustment,
    PaymentService._generate_transaction_id, MockDatabase.get_order_by_id.
  blind.
Qed.

Lemma blind_settle (amount : option float) st :
  config_blind
    (py_or_else amount
       (let* decision := AgentState.decision_attr st "recommended_amount" in
        ret (AgentDecision.recommended_amount decision))).
Proof. unfold py_or_else, AgentState.decision_attr. blind. Qed.

Ltac blind_node :=
  repeat first
    [ apply blind_add_log | apply blind_perform_action | apply blind_settle
    | progress blind ].

Lemma human_review_node_blind st : config_blind (human_review_node st).
Proof.
  unfold human_review_node, AgentState.decision_attr. blind_node.
Qed.

Lemma rejected_node_blind st : config_blind (rejected_node st).
Proof. unfold rejected_node. blind_node. Qed.

Lemma process_review_node_blind st : config_blind (process_review_node st).
Proof. unfold process_review_node. blind_node. Qed.

Lemma execute_node_blind st : config_blind (execute_node st).
Proof. unfold execute_node, log_result. blind_node. Qed.

Lemma graph_nodes_blind name fn :
  name ≠ "analyze" →
  assoc name (nodes (builder get_graph)) = Some fn →
  (∀ st, config_blind (fn st))
  ∧ ∀ st dst,
      successor (builder get_graph) name st = inr dst → dst ≠ "analyze".
Proof.
  intros Hn. rewrite graph_nodes. cbn [assoc].
  repeat match goal with
         | |- context [String.eqb ?a name] =>
             let Heq := fresh "Heq" in
             destruct (String.eqb a name) eqn:Heq;
             [apply String.eqb_eq in Heq; subst name; intros [= <-]|]
         end;
    try discriminate; try done.
  - split; [exact human_review_node_blind|].
    intros st dst. unfold successor. graph_simpl. by intros [= <-].
  - split; [exact process_review_node_blind|].
    intros st dst. rewrite successor_process_review. intros [= <-].
    unfold route_after_review.
    destruct (AgentState.human_review st) as [r|];
      [destruct (HumanReview.approved r)|]; discriminate.
  - split; [exact execute_node_blind|].
    intros st dst. unfold successor. graph_simpl. by intros [= <-].
  - split; [exact rejected_node_blind|].
    intros st dst. unfold successor. graph_simpl. by intros [= <-].
Qed.

Lemma advance_blind resuming cp w cfg :
  next cp ≠ "analyze" →
  advance get_graph resuming cp (with_config cfg w)
  = ((advance get_graph resuming cp w).1.1,
     (advance get_graph resuming cp w).1.2,
     with_config cfg (advance get_graph resuming cp w).2)
  ∧ next (advance get_graph resuming cp w).1.2 ≠ "analyze".
Proof.
  intros Hn. rewrite !advance_unfold.
  destruct (String.eqb (next cp) END); [done|].
  destruct (existsb _ _ && negb resuming); [done|].
  destruct (assoc (next cp) (nodes (builder get_graph))) as [fn|] eqn:Hfn;
    [|done].
  destruct (graph_nodes_blind _ _ Hn Hfn) as [Hblind Hdst].
  rewrite Hblind.
  destruct (fn (values cp) w) as [[u|e] w2]; cbn [fst snd]; [|done].
  destruct (successor _ _ _) as [err|dst] eqn:Hs; [done|].
  split; [done|]. cbn. by eapply Hdst.
Qed.

Lemma run_loop_blind run_id cfg fuel : ∀ resuming cp (σ : Store) w,
  next cp ≠ "analyze" →
  run_loop fuel get_graph run_id resuming cp σ (with_config cfg w)
  = ((run_loop fuel get_graph run_id resuming cp σ w).1.1,
     (run_loop fuel get_graph run_id resuming cp σ w).1.2,
     with_config cfg (run_loop fuel get_graph run_id resuming cp σ w).2).
Proof.
  induction fuel as [|fuel IH]; intros resuming cp σ w Hn; [done|].
  cbn [run_loop]. destruct (advance_blind resuming cp w cfg Hn) as [E Hn'].
  rewrite E.
  destruct (advance get_graph resuming cp w) as [[step cp1] w1].
  cbn [fst snd] in *. destruct step as [|result]; [|done].
  by apply IH.
Qed.

(** X20: the thresholds are read by the analysis and by nothing after it. A
    run that is past "analyze" (a paused run, in particular) resumes to the
    same result and the same stored state under any configuration put in
    place meanwhile, and leaves that configuration as it is: the decision
    taken at analysis stands. *)
Theorem resume_ignores_configuration fuel run_id (σ : Store) cp w cfg :
  σ !! run_id = Some cp →
  next cp ≠ "analyze" →
  resume get_graph fuel run_id σ (with_config cfg w)
  = ((resume get_graph fuel run_id σ w).1.1,
     (resume get_graph fuel run_id σ w).1.2,
     with_config cfg (resume get_graph fuel run_id σ w).2).
Proof.
  intros Hσ Hn. unfold resume. rewrite Hσ. by apply run_loop_blind.
Qed.

Lemma resume_ignores_configuration_witness :
  resume get_graph 10 "demo"
    (supply_review "demo" Main.review_approve
       (Main.started Main.REQ_002).1.2).2
    (with_config lenient_config (Main.started Main.REQ_002).2)
  = ((resume get_graph 10 "demo"
        (supply_review "demo" Main.review_approve
           (Main.started Main.REQ_002).1.2).2
        (Main.started Main.REQ_002).2).1.1,
     (resume get_graph 10 "demo"
        (supply_review "demo" Main.review_approve
           (Main.started Main.REQ_002).1.2).2
        (Main.started Main.REQ_002).2).1.2,
     with_config lenient_config
       (resume get_graph 10 "demo"
          (supply_review "demo" Main.review_approve
             (Main.started Main.REQ_002).1.2).2
          (Main.started Main.REQ_002).2).2).
Proof.
  apply (resume_ignores_configuration 10 "demo"
           (supply_review "demo" Main.review_approve
              (Main.started Main.REQ_002).1.2).2
           (mkCheckpoint
              (merge
                 (AgentState.mk Main.REQ_002 RequestStatus.PENDING_APPROVAL
                    (Some (AnalysisService.analyze_exception_request
                             Config.HITL_CONFIG Main.REQ_002))
                    None None None
                    (AgentState.processing_log
                       (default (AgentState.initial Main.REQ_002)
                          (Main.stored_state (Main.started Main.REQ_002)))))
                 (mkUpdate None None (Some Main.review_approve) None None
                    None))
              "human_review")
           (Main.started Main.REQ_002).2 lenient_config).
  - vm_compute. reflexivity.
  - discriminate.
Defined.

(** The analysis does read them: under a lenient configuration the request
    REQ-002, which pauses for review under the shipped one, needs none. *)
Example analysis_reads_configuration :
  AgentDecision.requires_human_approval
    (AnalysisService.analyze_exception_request Config.HITL_CONFIG Main.REQ_002)
  = true
  ∧ AgentDecision.requires_human_approval
      (AnalysisService.analyze_exception_request lenient_config Main.REQ_002)
    = false.
Proof. vm_compute. done. Qed.

(** ** The reasoning of a decision *)

(** X21: the reasoning of a decision is the sentence "Standard request within
    normal parameters." exactly when nothing was noted: no check called for a
    human, the reason raised no concern, and the recommended amount was not
    capped. It is never empty. *)
Theorem standard_reasoning_iff_nothing_noted cfg request :
  let d := AnalysisService.analyze_exception_request cfg request in
  (AgentDecision.reasoning d = "Standard request within normal parameters."
   ↔ AgentDecision.requires_human_approval d = false
     ∧ AgentDecision.should_approve d = true
     ∧ (AnalysisService._calculate_recommended_amount request).2 = None)
  ∧ AgentDecision.reasoning d ≠ "".
Proof.
  intros d. unfold d, AnalysisService.analyze_exception_request,
    AnalysisService._check_amount_threshold,
    AnalysisService._check_vip_status,
    AnalysisService._check_item_complexity,
    AnalysisService._analyze_request_reason,
    AnalysisService._calculate_recommended_amount.
  destruct (PrimFloat.ltb (HITLConfigType.max_auto_approve_amount cfg) _);
    destruct (bool_decide _ && HITLConfigType.vip_always_approve cfg);
    destruct (_ <? _)%Z;
    destruct (find _ _) as [signal|];
    (destruct (bool_decide (ExceptionRequest.exception_type request = _));
     [destruct (PrimFloat.ltb _ _)|]);
    cbn -[fmt_2f pretty];
    (split; [split; [try discriminate; done|intros (? & ? & ?); done]
            |discriminate]).
Qed.

(** ** Every call comes back *)

Lemma stops_at_end fuel run_id resuming cp (σ : Store) w :
  next cp = END → 1 ≤ fuel →
  stops (run_loop fuel get_graph run_id resuming cp σ w).
Proof.
  intros Hn Hfuel. destruct fuel as [|fuel]; [lia|].
  destruct cp as [st name]. cbn in Hn. subst name.
  rewrite (run_loop_stop _ _ _ _ _ _ _ _ _ _ (advance_end _ _ _ _)).
  by eexists.
Qed.

(** One round at a node whose successor is [dst]: the run stops there, or
    goes on at [dst]. *)
Lemma stops_after fuel run_id resuming cp (σ : Store) w :
  (∀ cp' w',
     advance get_graph resuming cp w = (Continue, cp', w') →
     ∀ σ', stops (run_loop fuel get_graph run_id false cp' σ' w')) →
  stops (run_loop (S fuel) get_graph run_id resuming cp σ w).
Proof.
  intros Hnext. cbn [run_loop].
  destruct (advance get_graph resuming cp w) as [[[|result] cp'] w'] eqn:E.
  - by apply Hnext.
  - by eexists.
Qed.

Lemma advance_continue_next resuming cp w cp' w' :
  advance get_graph resuming cp w = (Continue, cp', w') →
  (next cp = "analyze"
   ∧ (next cp' = "human_review" ∨ next cp' = "execute"))
  ∨ (next cp = "human_review" ∧ next cp' = "process_review")
  ∨ (next cp = "process_review"
     ∧ (next cp' = "execute" ∨ next cp' = "rejected"))
  ∨ ((next cp = "execute" ∨ next cp = "rejected") ∧ next cp' = END).
Proof.
  rewrite advance_unfold.
  destruct (String.eqb (next cp) END); [discriminate|].
  destruct (existsb _ _ && negb resuming); [discriminate|].
  rewrite graph_nodes. cbn [assoc].
  repeat match goal with
         | |- context [String.eqb ?a (next cp)] =>
             let Heq := fresh "Heq" in
             destruct (String.eqb a (next cp)) eqn:Heq;
             [apply String.eqb_eq in Heq; rewrite <- Heq|]
         end;
    try discriminate;
    match goal with
    | |- context [match ?f (values cp) w with _ => _ end] =>
        destruct (f (values cp) w) as [[u|e] w2]; [|discriminate]
    end.
  - rewrite successor_analyze. intros [= <- <-]. left. split; [done|].
    apply route_after_analysis_cases.
  - unfold successor. graph_simpl. intros [= <- <-]. right. left. done.
  - rewrite successor_process_review. intros [= <- <-]. right. right. left.
    split; [done|]. cbn. unfold route_after_review.
    destruct (AgentState.human_review _) as [r|];
      [destruct (HumanReview.approved r)|]; auto.
  - unfold successor. graph_simpl. intros [= <- <-].
    right. right. right. split; [by left|done].
  - unfold successor. graph_simpl. intros [= <- <-].
    right. right. right. split; [by right|done].
Qed.

Lemma stops_at_paused fuel run_id cp (σ : Store) w :
  next cp = "human_review" → 1 ≤ fuel →
  stops (run_loop fuel get_graph run_id false cp σ w).
Proof.
  intros Hn Hfuel. destruct fuel as [|fuel]; [lia|].
  destruct cp as [st name]. cbn in Hn. subst name.
  rewrite (run_loop_stop _ _ _ _ _ _ _ _ _ _
             (advance_human_review_closed _ _)).
  by eexists.
Qed.

Lemma stops_within_four fuel run_id resuming cp (σ : Store) w :
  4 ≤ fuel → stops (run_loop fuel get_graph run_id resuming cp σ w).
Proof.
  intros Hfuel. destruct fuel as [|[|[|[|fuel]]]]; try lia.
  apply stops_after. intros cp1 w1 H1 σ1.
  apply advance_continue_next in H1
    as [(_ & [Hn|Hn])|[(_ & Hn)|[(_ & [Hn|Hn])|(_ & Hn)]]].
  - apply stops_at_paused; [done|lia].
  - apply stops_after. intros cp2 w2 H2 σ2.
    apply advance_continue_next in H2
      as [(Hc & _)|[(Hc & _)|[(Hc & _)|(_ & Hn2)]]];
      try (rewrite Hn in Hc; discriminate Hc).
    apply stops_at_end; [done|lia].
  - apply stops_after. intros cp2 w2 H2 σ2.
    apply advance_continue_next in H2
      as [(Hc & _)|[(Hc & _)|[(_ & Hn2)|([Hc|Hc] & _)]]];
      try (rewrite Hn in Hc; discriminate Hc).
    apply stops_after. intros cp3 w3 H3 σ3.
    apply advance_continue_next in H3
      as [(Hc & _)|[(Hc & _)|[(Hc & _)|(_ & Hn3)]]];
      try (destruct Hn2 as [Hn2|Hn2]; rewrite Hn2 in Hc; discriminate Hc).
    apply stops_at_end; [done|lia].
  - apply stops_after. intros cp2 w2 H2 σ2.
    apply advance_continue_next in H2
      as [(Hc & _)|[(Hc & _)|[(Hc & _)|(_ & Hn2)]]];
      try (rewrite Hn in Hc; discriminate Hc).
    apply stops_at_end; [done|lia].
  - apply stops_after. intros cp2 w2 H2 σ2.
    apply advance_continue_next in H2
      as [(Hc & _)|[(Hc & _)|[(Hc & _)|(_ & Hn2)]]];
      try (rewrite Hn in Hc; discriminate Hc).
    apply stops_at_end; [done|lia].
  - apply stops_at_end; [done|lia].
Qed.

(** X22: the workflow has no cycle, so every call comes back. With room for
    four rounds, [start] on any state and [resume] on any store return a
    result, in any world: paused, completed or failed, never out of rounds.
    A run started on a request does not fail: it pauses before "human_review"
    or it completes. *)
Theorem every_call_stops fuel run_id (σ : Store) w :
  4 ≤ fuel →
  (∀ st, stops (start get_graph fuel run_id st σ w))
  ∧ stops (resume get_graph fuel run_id σ w)
  ∧ ∀ request, ∃ result,
      (start get_graph fuel run_id (AgentState.initial request) σ w).1.1
      = Some result
      ∧ (result = Paused "human_review"
         ∨ ∃ st, result = Completed st).
Proof.
  intros Hfuel. split; [|split].
  - intros st. rewrite start_unfold. by apply stops_within_four.
  - unfold resume. destruct (σ !! run_id) as [cp|].
    + by apply stops_within_four.
    + by eexists.
  - intros request.
    destruct (analyze_node_eq (AgentState.initial request) w)
      as (extra & wa & Ea & _).
    destruct fuel as [|fuel]; [lia|].
    rewrite start_unfold.
    rewrite (run_loop_continue _ _ _ _ _ _ _ _ _
               (advance_analyze _ _ _ _ _ Ea)).
    cbn [AgentState.initial AgentState.request] in *.
    destruct (AgentDecision.requires_human_approval _) eqn:Hreq.
    + match goal with
      | |- context [run_loop _ _ _ _ (mkCheckpoint _ ?n) _ _] =>
          assert (Hn : n = "human_review") by (cbn; by rewrite Hreq);
          rewrite Hn
      end.
      destruct fuel as [|fuel]; [lia|].
      rewrite (run_loop_stop _ _ _ _ _ _ _ _ _ _
                 (advance_human_review_closed _ _)).
      eexists. split; [reflexivity|]. by left.
    + match goal with
      | |- context [run_loop _ _ _ _ (mkCheckpoint _ ?n) _ _] =>
          assert (Hn : n = "execute") by (cbn; by rewrite Hreq);
          rewrite Hn
      end.
      match goal with
      | |- context [run_loop _ _ _ _ (mkCheckpoint ?st _) ?s ?v] =>
          destruct (run_from_execute_call fuel run_id st s v _
                      (λ v', py_or_else_recommended _ st _ v' eq_refl))
            as (st' & w' & E & _); [lia|]
      end.
      rewrite E. eexists. split; [reflexivity|]. right. by eexists.
Qed.

Lemma every_call_stops_witness :
  stops (resume get_graph 4 "demo"
           (supply_review "demo" Main.review_approve
              (Main.started Main.REQ_002).1.2).2
           (Main.started Main.REQ_002).2).
Proof.
  apply (every_call_stops 4 "demo"
           (supply_review "demo" Main.review_approve
              (Main.started Main.REQ_002).1.2).2
           (Main.started Main.REQ_002).2).
  lia.
Defined.
